(** * Elementwise and type-conversion lowerings of torch_xla

    A shallow embedding of [torch_xla/csrc/convert_ops.cpp] and
    [torch_xla/csrc/elementwise.cpp].  The lowerings build a description of
    a computation: an [xla::XlaOp] is embedded as the tree of instructions
    it denotes, a fatal check ([XLA_CHECK_GE], [XLA_ERROR]) as the [Fatal]
    result of an error monad, and the meaning of a tree as an element-wise
    evaluator over fixed-width integers and IEEE binary floats. *)

From Stdlib Require Import ZArith List Bool String Lia.
From Stdlib Require Import SpecFloat.
Import ListNotations.

Local Open Scope Z_scope.

(** ** Fatal errors *)

(** [XLA_CHECK_*] and [XLA_ERROR] do not return to their caller. *)
Inductive Result (A : Type) : Type :=
| Ok (a : A)
| Fatal (message : string).

Arguments Ok {A} a.
Arguments Fatal {A} message.

Definition bind {A B : Type} (r : Result A) (k : A -> Result B) : Result B :=
  match r with
  | Ok a => k a
  | Fatal message => Fatal message
  end.

Notation "x <- r ;; k" := (bind r (fun x => k))
  (at level 61, r at next level, right associativity).

Definition returns {A : Type} (r : Result A) : bool :=
  match r with
  | Ok _ => true
  | Fatal _ => false
  end.

(** ** Host scalars *)

(** A host-side constant: a C++ integer ([uint64_t], [int32_t]), a C++
    [float] or [double], or an [at::Scalar] holding one of them.  A real
    is kept as the binary64 value it has on the host. *)
Inductive HostScalar : Type :=
| HostInt (z : Z)
| HostReal (d : spec_float).

Definition binary64 (m e : Z) : spec_float := binary_normalize 53 1024 m e false.

(** [at::Scalar::to<double>()] *)
Definition to_double (s : HostScalar) : spec_float :=
  match s with
  | HostInt z => binary64 z 0
  | HostReal d => d
  end.

(** ** The instruction set *)

Module xla.

(** The element kinds of [xla::PrimitiveType] that carry array data
    (the sub-byte integers and 8-bit floats are left out). *)
Inductive PrimitiveType : Type :=
| PRED
| S8 | S16 | S32 | S64
| U8 | U16 | U32 | U64
| F16 | BF16 | F32 | F64
| C64 | C128.

Definition PrimitiveType_eq_dec (a b : PrimitiveType) : {a = b} + {a <> b}.
Proof. decide equality. Defined.

Definition PrimitiveType_eqb (a b : PrimitiveType) : bool :=
  if PrimitiveType_eq_dec a b then true else false.

Record Shape : Type := MakeShape {
  element_type : PrimitiveType;
  dimensions : list nat
}.

Inductive UnaryOpcode : Type :=
| kNegate | kAbs | kSign | kExp | kLog | kLog1p | kErf | kLogistic
| kReal | kImag | kIsFinite.

Inductive BinaryOpcode : Type :=
| kAdd | kSubtract | kMultiply | kDivide | kMaximum | kMinimum
| kAnd | kOr
| kShiftLeft | kShiftRightArithmetic | kShiftRightLogical
| kComplex.

Inductive ComparisonDirection : Type :=
| kEq | kNe | kGe | kGt | kLe | kLt.

(** The instruction an [XlaOp] handle points to, with its operands. *)
Inductive XlaOp : Type :=
| GraphInput (number : nat) (shape : Shape)
| ConstantLiteral (type : PrimitiveType) (value : HostScalar)
| ConvertElementType (operand : XlaOp) (new_element_type : PrimitiveType)
| Broadcast (operand : XlaOp) (broadcast_sizes : list nat)
| UnaryOp (opcode : UnaryOpcode) (operand : XlaOp)
| BinaryOp (opcode : BinaryOpcode) (lhs rhs : XlaOp)
           (broadcast_dimensions : list nat)
| Compare (direction : ComparisonDirection) (lhs rhs : XlaOp)
          (broadcast_dimensions : list nat)
| Select (pred on_true on_false : XlaOp)
| Clamp (min operand max : XlaOp)
| Rng (seed : XlaOp) (shape : Shape) (minval maxval : XlaOp).

Module primitive_util.

Definition IsSignedIntegralType (type : PrimitiveType) : bool :=
  match type with
  | S8 | S16 | S32 | S64 => true
  | _ => false
  end.

Definition IsUnsignedIntegralType (type : PrimitiveType) : bool :=
  match type with
  | U8 | U16 | U32 | U64 => true
  | _ => false
  end.

Definition IsIntegralType (type : PrimitiveType) : bool :=
  IsUnsignedIntegralType type || IsSignedIntegralType type.

Definition IsFloatingPointType (type : PrimitiveType) : bool :=
  match type with
  | F16 | BF16 | F32 | F64 => true
  | _ => false
  end.

Definition IsComplexType (type : PrimitiveType) : bool :=
  match type with
  | C64 | C128 => true
  | _ => false
  end.

Definition ComplexComponentType (type : PrimitiveType) : PrimitiveType :=
  match type with
  | C64 => F32
  | C128 => F64
  | other => other
  end.

Definition ComplexType (component : PrimitiveType) : PrimitiveType :=
  match component with
  | F64 => C128
  | _ => C64
  end.

End primitive_util.

Module ShapeUtil.

Definition ByteSizeOfPrimitiveType (type : PrimitiveType) : Z :=
  match type with
  | PRED | S8 | U8 => 1
  | S16 | U16 | F16 | BF16 => 2
  | S32 | U32 | F32 => 4
  | S64 | U64 | F64 | C64 => 8
  | C128 => 16
  end.

Definition IsScalar (shape : Shape) : bool :=
  match dimensions shape with
  | [] => true
  | _ :: _ => false
  end.

Definition ElementsIn (shape : Shape) : nat :=
  fold_right Nat.mul 1%nat (dimensions shape).

End ShapeUtil.

(** The client functions of [xla/hlo/builder/xla_builder.h]. *)
Definition Neg := UnaryOp kNegate.
Definition Abs := UnaryOp kAbs.
Definition Sign := UnaryOp kSign.
Definition Exp := UnaryOp kExp.
Definition Log := UnaryOp kLog.
Definition Log1p := UnaryOp kLog1p.
Definition Erf := UnaryOp kErf.
Definition Logistic := UnaryOp kLogistic.
Definition Real := UnaryOp kReal.
Definition Imag := UnaryOp kImag.
Definition IsFinite := UnaryOp kIsFinite.

Definition Add := BinaryOp kAdd.
Definition Sub := BinaryOp kSubtract.
Definition Mul := BinaryOp kMultiply.
Definition Div := BinaryOp kDivide.
Definition Max := BinaryOp kMaximum.
Definition Min := BinaryOp kMinimum.
Definition And := BinaryOp kAnd.
Definition Or := BinaryOp kOr.
Definition ShiftLeft := BinaryOp kShiftLeft.
Definition ShiftRightArithmetic := BinaryOp kShiftRightArithmetic.
Definition ShiftRightLogical := BinaryOp kShiftRightLogical.
Definition Complex := BinaryOp kComplex.

Definition Eq := Compare kEq.
Definition Ne := Compare kNe.
Definition Ge := Compare kGe.
Definition Gt := Compare kGt.
Definition Le := Compare kLe.
Definition Lt := Compare kLt.

Definition Zero (type : PrimitiveType) : XlaOp :=
  ConstantLiteral type (HostInt 0).
Definition One (type : PrimitiveType) : XlaOp :=
  ConstantLiteral type (HostInt 1).
Definition NanValue (type : PrimitiveType) : XlaOp :=
  ConstantLiteral type (HostReal S754_nan).

End xla.

(** ** Shape inference *)

Module ShapeHelper.

Definition broadcast_of (a b : list nat) : list nat :=
  match a with
  | [] => b
  | _ :: _ => a
  end.

(** Modelled from the spec: [ShapeHelper::ShapeOfXlaOp] of shape_helper.cpp,
    which the sources here only call; the shape/kind inspector that, given
    a value, returns its shape (the sequence of dimension sizes) and its
    numeric kind.  Operands are taken to be of one shape or scalars; the
    element kind of an arithmetic instruction is that of its left
    operand. *)
Fixpoint ShapeOfXlaOp (op : xla.XlaOp) : xla.Shape :=
  match op with
  | xla.GraphInput _ shape => shape
  | xla.ConstantLiteral type _ => xla.MakeShape type []
  | xla.ConvertElementType operand type =>
      xla.MakeShape type (xla.dimensions (ShapeOfXlaOp operand))
  | xla.Broadcast operand sizes =>
      let s := ShapeOfXlaOp operand in
      xla.MakeShape (xla.element_type s) (sizes ++ xla.dimensions s)
  | xla.UnaryOp opcode operand =>
      let s := ShapeOfXlaOp operand in
      match opcode with
      | xla.kReal | xla.kImag =>
          xla.MakeShape
            (xla.primitive_util.ComplexComponentType (xla.element_type s))
            (xla.dimensions s)
      | xla.kIsFinite => xla.MakeShape xla.PRED (xla.dimensions s)
      | _ => s
      end
  | xla.BinaryOp opcode lhs rhs _ =>
      let l := ShapeOfXlaOp lhs in
      let r := ShapeOfXlaOp rhs in
      let dims := broadcast_of (xla.dimensions l) (xla.dimensions r) in
      match opcode with
      | xla.kComplex =>
          xla.MakeShape (xla.primitive_util.ComplexType (xla.element_type l))
                        dims
      | _ => xla.MakeShape (xla.element_type l) dims
      end
  | xla.Compare _ lhs rhs _ =>
      xla.MakeShape xla.PRED
        (broadcast_of (xla.dimensions (ShapeOfXlaOp lhs))
                      (xla.dimensions (ShapeOfXlaOp rhs)))
  | xla.Select pred on_true on_false =>
      let t := ShapeOfXlaOp on_true in
      xla.MakeShape (xla.element_type t)
        (broadcast_of (xla.dimensions t)
           (broadcast_of (xla.dimensions (ShapeOfXlaOp on_false))
                         (xla.dimensions (ShapeOfXlaOp pred))))
  | xla.Clamp min operand max =>
      let o := ShapeOfXlaOp operand in
      xla.MakeShape (xla.element_type o)
        (broadcast_of (xla.dimensions o)
           (broadcast_of (xla.dimensions (ShapeOfXlaOp min))
                         (xla.dimensions (ShapeOfXlaOp max))))
  | xla.Rng _ shape _ _ => shape
  end.

End ShapeHelper.

Module XlaHelpers.

(** Modelled from the spec: [XlaHelpers::TypeOfXlaOp] of helpers.cpp, the
    numeric kind the shape/kind inspector returns for a value. *)
Definition TypeOfXlaOp (op : xla.XlaOp) : xla.PrimitiveType :=
  xla.element_type (ShapeHelper.ShapeOfXlaOp op).

(** Modelled from the spec: [XlaHelpers::ScalarValue] of helpers.h, which
    the sources here only call; the scalar-constant collaborator, which
    materialises a host constant as a shape-0 value of an explicit target
    kind. *)
Definition ScalarValue (value : HostScalar) (type : xla.PrimitiveType)
  : xla.XlaOp :=
  xla.ConstantLiteral type value.

End XlaHelpers.

(** The overloaded operators of [xla::XlaOp]. *)
Declare Scope xla_scope.
Delimit Scope xla_scope with xla.
Bind Scope xla_scope with xla.XlaOp.

Definition shift_right (x y : xla.XlaOp) : xla.XlaOp :=
  if xla.primitive_util.IsSignedIntegralType (XlaHelpers.TypeOfXlaOp x)
  then xla.ShiftRightArithmetic x y []
  else xla.ShiftRightLogical x y [].

Notation "x + y" := (xla.Add x y []) : xla_scope.
Notation "x - y" := (xla.Sub x y []) : xla_scope.
Notation "x * y" := (xla.Mul x y []) : xla_scope.
Notation "x / y" := (xla.Div x y []) : xla_scope.
Notation "x & y" := (xla.And x y []) (at level 40, left associativity)
  : xla_scope.
Notation "x << y" := (xla.ShiftLeft x y []) (at level 32, left associativity)
  : xla_scope.
Notation "x >> y" := (shift_right x y) (at level 32, left associativity)
  : xla_scope.

(** ** convert_ops.cpp *)

Definition CHAR_BIT : Z := 8.

(** Arithmetic on [uint64_t] wraps around. *)
Definition uint64_t (z : Z) : Z := z mod 2 ^ 64.

Definition CreateRawMask (op : xla.XlaOp) (type : xla.PrimitiveType)
  (size narrow_size : Z) : xla.XlaOp :=
  let mask_value :=
    uint64_t (uint64_t (Z.shiftl 1 (narrow_size * CHAR_BIT)) - 1) in
  let mask := XlaHelpers.ScalarValue (HostInt mask_value) type in
  if xla.primitive_util.IsSignedIntegralType type then
    (* Sign extend the truncation mask. *)
    let shift :=
      XlaHelpers.ScalarValue (HostInt ((size - narrow_size) * CHAR_BIT)) xla.S32 in
    ((mask << shift) >> shift)%xla
  else mask.

Definition ConvertData (op : xla.XlaOp) (type narrow_type : xla.PrimitiveType)
  : Result xla.XlaOp :=
  if negb (xla.primitive_util.IsIntegralType type)
     || negb (xla.primitive_util.IsIntegralType narrow_type)
  then Ok op
  else
    let size := xla.ShapeUtil.ByteSizeOfPrimitiveType type in
    let narrow_size := xla.ShapeUtil.ByteSizeOfPrimitiveType narrow_type in
    if negb (size >=? narrow_size)
    then Fatal "Check failed: size >= narrow_size"
    else if size =? narrow_size then Ok op
    else
      let mask := CreateRawMask op type size narrow_size in
      Ok (op & mask)%xla.

Definition ConvertTo (op : xla.XlaOp) (from to : xla.PrimitiveType)
  : xla.XlaOp :=
  if xla.PrimitiveType_eqb from to then op
  else xla.ConvertElementType op to.

Definition ConvertToRaw (op : xla.XlaOp)
  (from raw_from to raw_to : xla.PrimitiveType) : Result xla.XlaOp :=
  op <- (if negb (xla.PrimitiveType_eqb from raw_from)
         then ConvertData op from raw_from
         else Ok op) ;;
  let result := ConvertTo op from to in
  if xla.PrimitiveType_eqb to raw_to then Ok result
  else ConvertData result to raw_to.

Definition MaybeConvertTo (input : xla.XlaOp) (type : xla.PrimitiveType)
  : xla.XlaOp :=
  if negb (xla.PrimitiveType_eqb (XlaHelpers.TypeOfXlaOp input) type)
  then xla.ConvertElementType input type
  else input.

(** ** Meaning of a graph *)

(** The value of one element: a boolean, an integer of an integral kind
    (kept in the range of the kind) or a float of a floating kind. *)
Inductive Value : Type :=
| VPred (b : bool)
| VInt (type : xla.PrimitiveType) (z : Z)
| VFloat (type : xla.PrimitiveType) (f : spec_float).

Definition type_of_value (v : Value) : xla.PrimitiveType :=
  match v with
  | VPred _ => xla.PRED
  | VInt type _ => type
  | VFloat type _ => type
  end.

Definition bit_width (type : xla.PrimitiveType) : Z :=
  CHAR_BIT * xla.ShapeUtil.ByteSizeOfPrimitiveType type.

(** Two's complement wrap-around into the range of an integral kind. *)
Definition wrap (type : xla.PrimitiveType) (z : Z) : Z :=
  let w := bit_width type in
  if xla.primitive_util.IsSignedIntegralType type
  then (z + 2 ^ (w - 1)) mod 2 ^ w - 2 ^ (w - 1)
  else z mod 2 ^ w.

(** Mantissa width and exponent bound of a floating kind. *)
Definition prec_of (type : xla.PrimitiveType) : Z :=
  match type with
  | xla.F16 => 11
  | xla.BF16 => 8
  | xla.F32 => 24
  | _ => 53
  end.

Definition emax_of (type : xla.PrimitiveType) : Z :=
  match type with
  | xla.F16 => 16
  | xla.BF16 => 128
  | xla.F32 => 128
  | _ => 1024
  end.

Definition signed_mantissa (s : bool) (m : positive) : Z :=
  if s then Zneg m else Zpos m.

(** Rounding of a float into the format of a floating kind. *)
Definition float_to (type : xla.PrimitiveType) (f : spec_float) : spec_float :=
  match f with
  | S754_finite s m e =>
      binary_normalize (prec_of type) (emax_of type) (signed_mantissa s m) e s
  | other => other
  end.

Definition int_to_float (type : xla.PrimitiveType) (z : Z) : spec_float :=
  binary_normalize (prec_of type) (emax_of type) z 0 false.

(** Truncation toward zero of a finite float. *)
Definition float_to_int (f : spec_float) : option Z :=
  match f with
  | S754_zero _ => Some 0
  | S754_finite s m e =>
      let magnitude := Z.shiftl (Zpos m) e in
      Some (if s then - magnitude else magnitude)
  | _ => None
  end.

Definition in_rangeb (type : xla.PrimitiveType) (z : Z) : bool :=
  z =? wrap type z.

Definition is_nan (f : spec_float) : bool :=
  match f with
  | S754_nan => true
  | _ => false
  end.

Definition is_zero (f : spec_float) : bool :=
  match f with
  | S754_zero _ => true
  | _ => false
  end.

(** [static_cast] of a host constant to the native type of a kind. *)
Definition cast_host (type : xla.PrimitiveType) (value : HostScalar)
  : option Value :=
  if xla.primitive_util.IsIntegralType type then
    match value with
    | HostInt z => Some (VInt type (wrap type z))
    | HostReal d =>
        match float_to_int d with
        | Some z => if in_rangeb type z then Some (VInt type z) else None
        | None => None
        end
    end
  else if xla.primitive_util.IsFloatingPointType type then
    match value with
    | HostInt z => Some (VFloat type (int_to_float type z))
    | HostReal d => Some (VFloat type (float_to type d))
    end
  else
    match type, value with
    | xla.PRED, HostInt z => Some (VPred (negb (z =? 0)))
    | xla.PRED, HostReal d => Some (VPred (negb (is_zero d)))
    | _, _ => None
    end.

(** What the backend computes for the instructions this development does
    not interpret: the transcendental functions and the random bits. *)
Class Numerics : Type := {
  transcendental : xla.UnaryOpcode -> xla.PrimitiveType -> spec_float -> spec_float;
  uniform_draw : Value -> xla.Shape -> spec_float -> spec_float -> nat -> spec_float
}.

Definition float_one (type : xla.PrimitiveType) (s : bool) : spec_float :=
  binary_normalize (prec_of type) (emax_of type) (if s then -1 else 1) 0 false.

Definition float_sign (type : xla.PrimitiveType) (f : spec_float) : spec_float :=
  match f with
  | S754_nan => S754_nan
  | S754_zero s => S754_zero s
  | S754_infinity s => float_one type s
  | S754_finite s _ _ => float_one type s
  end.

Definition float_max (a b : spec_float) : spec_float :=
  if is_nan a || is_nan b then S754_nan
  else if SFltb a b then b else a.

Definition float_min (a b : spec_float) : spec_float :=
  if is_nan a || is_nan b then S754_nan
  else if SFltb b a then b else a.

Definition eval_unary {N : Numerics} (opcode : xla.UnaryOpcode) (v : Value)
  : option Value :=
  match opcode, v with
  | xla.kNegate, VInt type z => Some (VInt type (wrap type (- z)))
  | xla.kNegate, VFloat type f => Some (VFloat type (SFopp f))
  | xla.kAbs, VInt type z => Some (VInt type (wrap type (Z.abs z)))
  | xla.kAbs, VFloat type f => Some (VFloat type (SFabs f))
  | xla.kSign, VInt type z => Some (VInt type (Z.sgn z))
  | xla.kSign, VFloat type f => Some (VFloat type (float_sign type f))
  | (xla.kExp | xla.kLog | xla.kLog1p | xla.kErf | xla.kLogistic),
    VFloat type f => Some (VFloat type (transcendental opcode type f))
  | xla.kIsFinite, VFloat type f =>
      Some (VPred (match f with
                   | S754_zero _ | S754_finite _ _ _ => true
                   | _ => false
                   end))
  | _, _ => None
  end.

Definition eval_int_binary (opcode : xla.BinaryOpcode)
  (type : xla.PrimitiveType) (a b : Z) : option Z :=
  match opcode with
  | xla.kAdd => Some (wrap type (a + b))
  | xla.kSubtract => Some (wrap type (a - b))
  | xla.kMultiply => Some (wrap type (a * b))
  | xla.kDivide => if b =? 0 then None else Some (wrap type (Z.quot a b))
  | xla.kMaximum => Some (Z.max a b)
  | xla.kMinimum => Some (Z.min a b)
  | xla.kAnd => Some (Z.land a b)
  | xla.kOr => Some (Z.lor a b)
  | _ => None
  end.

(** Shifts take their amount as a number; an amount outside the width
    shifts every bit out. *)
Definition eval_shift (opcode : xla.BinaryOpcode) (type : xla.PrimitiveType)
  (a amount : Z) : option Z :=
  let w := bit_width type in
  let inside := (0 <=? amount) && (amount <? w) in
  match opcode with
  | xla.kShiftLeft =>
      Some (if inside then wrap type (Z.shiftl a amount) else 0)
  | xla.kShiftRightArithmetic =>
      Some (if inside then Z.shiftr a amount
            else if a <? 0 then -1 else 0)
  | xla.kShiftRightLogical =>
      Some (if inside then wrap type (Z.shiftr (a mod 2 ^ w) amount) else 0)
  | _ => None
  end.

Definition eval_float_binary (opcode : xla.BinaryOpcode)
  (type : xla.PrimitiveType) (a b : spec_float) : option spec_float :=
  let prec := prec_of type in
  let emax := emax_of type in
  match opcode with
  | xla.kAdd => Some (SFadd prec emax a b)
  | xla.kSubtract => Some (SFsub prec emax a b)
  | xla.kMultiply => Some (SFmul prec emax a b)
  | xla.kDivide => Some (SFdiv prec emax a b)
  | xla.kMaximum => Some (float_max a b)
  | xla.kMinimum => Some (float_min a b)
  | _ => None
  end.

Definition is_shift (opcode : xla.BinaryOpcode) : bool :=
  match opcode with
  | xla.kShiftLeft | xla.kShiftRightArithmetic | xla.kShiftRightLogical => true
  | _ => false
  end.

(** A binary instruction on two elements.  The two operands must be of
    one kind, the amount of a shift included: no instruction combines
    elements of differing kinds. *)
Definition eval_binary (opcode : xla.BinaryOpcode) (a b : Value)
  : option Value :=
  match a, b with
  | VPred x, VPred y =>
      match opcode with
      | xla.kAnd => Some (VPred (x && y))
      | xla.kOr => Some (VPred (x || y))
      | _ => None
      end
  | VInt ta x, VInt tb y =>
      if xla.PrimitiveType_eqb ta tb
      then option_map (VInt ta)
             (if is_shift opcode then eval_shift opcode ta x y
              else eval_int_binary opcode ta x y)
      else None
  | VFloat ta x, VFloat tb y =>
      if xla.PrimitiveType_eqb ta tb
      then option_map (VFloat ta) (eval_float_binary opcode ta x y)
      else None
  | _, _ => None
  end.

Definition compare_of (direction : xla.ComparisonDirection)
  (c : option comparison) : bool :=
  match direction, c with
  | xla.kEq, Some Eq => true
  | xla.kNe, (Some Lt | Some Gt | None) => true
  | xla.kGe, (Some Gt | Some Eq) => true
  | xla.kGt, Some Gt => true
  | xla.kLe, (Some Lt | Some Eq) => true
  | xla.kLt, Some Lt => true
  | _, _ => false
  end.

(** A comparison of two elements of one kind; floats compare as IEEE
    floats do, so every comparison with a NaN but [kNe] is false. *)
Definition eval_compare (direction : xla.ComparisonDirection) (a b : Value)
  : option Value :=
  match a, b with
  | VPred x, VPred y =>
      Some (VPred (compare_of direction (Some (Bool.compare x y))))
  | VInt ta x, VInt tb y =>
      if xla.PrimitiveType_eqb ta tb
      then Some (VPred (compare_of direction (Some (x ?= y))))
      else None
  | VFloat ta x, VFloat tb y =>
      if xla.PrimitiveType_eqb ta tb
      then Some (VPred (compare_of direction (SFcompare x y)))
      else None
  | _, _ => None
  end.

Definition eval_select (p a b : Value) : option Value :=
  match p with
  | VPred c =>
      if xla.PrimitiveType_eqb (type_of_value a) (type_of_value b)
      then Some (if c then a else b)
      else None
  | _ => None
  end.

Definition eval_convert (type : xla.PrimitiveType) (v : Value) : option Value :=
  if xla.primitive_util.IsIntegralType type then
    match v with
    | VPred b => Some (VInt type (if b then 1 else 0))
    | VInt _ z => Some (VInt type (wrap type z))
    | VFloat _ f =>
        match float_to_int f with
        | Some z => if in_rangeb type z then Some (VInt type z) else None
        | None => None
        end
    end
  else if xla.primitive_util.IsFloatingPointType type then
    match v with
    | VPred b => Some (VFloat type (int_to_float type (if b then 1 else 0)))
    | VInt _ z => Some (VFloat type (int_to_float type z))
    | VFloat _ f => Some (VFloat type (float_to type f))
    end
  else
    match type, v with
    | xla.PRED, VPred b => Some (VPred b)
    | xla.PRED, VInt _ z => Some (VPred (negb (z =? 0)))
    | xla.PRED, VFloat _ f => Some (VPred (negb (is_zero f)))
    | _, _ => None
    end.

(** The elements of the graph's inputs: input number, then position. *)
Definition Env : Type := nat -> nat -> Value.

Definition bind_option {A B : Type} (o : option A) (k : A -> option B)
  : option B :=
  match o with
  | Some a => k a
  | None => None
  end.

(** The element at (row-major) position [i] of the array an instruction
    computes; a scalar operand stands for every position.  [None] when
    the instruction is not defined on its operands. *)
Fixpoint eval {N : Numerics} (env : Env) (op : xla.XlaOp) (i : nat)
  : option Value :=
  match op with
  | xla.GraphInput number shape =>
      let v := env number (if xla.ShapeUtil.IsScalar shape then 0%nat else i) in
      if xla.PrimitiveType_eqb (type_of_value v) (xla.element_type shape)
      then Some v else None
  | xla.ConstantLiteral type value => cast_host type value
  | xla.ConvertElementType operand type =>
      bind_option (eval env operand i) (eval_convert type)
  | xla.Broadcast operand _ =>
      eval env operand
        (i mod xla.ShapeUtil.ElementsIn (ShapeHelper.ShapeOfXlaOp operand))%nat
  | xla.UnaryOp opcode operand =>
      bind_option (eval env operand i) (eval_unary opcode)
  | xla.BinaryOp opcode lhs rhs _ =>
      bind_option (eval env lhs i) (fun a =>
      bind_option (eval env rhs i) (fun b => eval_binary opcode a b))
  | xla.Compare direction lhs rhs _ =>
      bind_option (eval env lhs i) (fun a =>
      bind_option (eval env rhs i) (fun b => eval_compare direction a b))
  | xla.Select pred on_true on_false =>
      bind_option (eval env pred i) (fun p =>
      bind_option (eval env on_true i) (fun a =>
      bind_option (eval env on_false i) (fun b => eval_select p a b)))
  | xla.Clamp min operand max =>
      bind_option (eval env min i) (fun lo =>
      bind_option (eval env operand i) (fun x =>
      bind_option (eval env max i) (fun hi =>
      bind_option (eval_binary xla.kMaximum x lo) (fun y =>
      eval_binary xla.kMinimum y hi))))
  | xla.Rng seed shape minval maxval =>
      bind_option (eval env seed 0%nat) (fun s =>
      bind_option (eval env minval 0%nat) (fun lo =>
      bind_option (eval env maxval 0%nat) (fun hi =>
      match lo, hi with
      | VFloat tl l, VFloat th h =>
          if xla.PrimitiveType_eqb tl (xla.element_type shape)
             && xla.PrimitiveType_eqb th (xla.element_type shape)
          then Some (VFloat tl
                       (uniform_draw s shape l h
                          (if xla.ShapeUtil.IsScalar shape then 0%nat else i)))
          else None
      | _, _ => None
      end)))
  end.

(** ** Collaborators of the lowerings *)

Module c10.

(** A [c10::Symbol] is an interned qualified name. *)
Definition Symbol : Type := string.

Definition toQualString (kind : Symbol) : string := kind.

End c10.

Module aten.

Definition ne : c10.Symbol := "aten::ne"%string.
Definition eq : c10.Symbol := "aten::eq"%string.
Definition ge : c10.Symbol := "aten::ge"%string.
Definition le : c10.Symbol := "aten::le"%string.
Definition gt : c10.Symbol := "aten::gt"%string.
Definition lt : c10.Symbol := "aten::lt"%string.

End aten.

(** The functions of torch_xla the two files call and do not define, taken
    as parameters: the promotion and broadcast-dimension helpers of
    [XlaHelpers], the device the process runs on ([bridge]), and the kind
    a device stores a kind in ([dtype]). *)
Class Collaborators : Type := {
  Promote : xla.XlaOp -> xla.XlaOp -> xla.XlaOp * xla.XlaOp;
  getBroadcastDimensions : xla.XlaOp -> xla.XlaOp -> list nat;
  BackendDevice : Type;
  GetCurrentDevice : BackendDevice;
  MaybeDowncastToXlaDeviceType :
    xla.PrimitiveType -> BackendDevice -> xla.PrimitiveType
}.

(** Modelled from the spec: [XlaHelpers::ScalarValue<float>], the
    scalar-constant collaborator called with a C++ [float]: the constant
    passes through binary32 before it is cast to the kind. *)
Definition ScalarValue_float (value : spec_float) (type : xla.PrimitiveType)
  : xla.XlaOp :=
  XlaHelpers.ScalarValue
    (HostReal (float_to xla.F64 (float_to xla.F32 value))) type.

(** Modelled from the spec: [RngUniform] of random.cpp, which the sources
    here only call.  It draws, from a seed value, uniform noise of the
    requested shape between [minval] and [maxval]; the draw is kept as one
    instruction of the graph. *)
Definition RngUniform (seed : xla.XlaOp) (shape : xla.Shape)
  (minval maxval : xla.XlaOp) : xla.XlaOp :=
  xla.Rng seed shape minval maxval.

(** ** convert_ops.cpp, continued *)

Definition ConvertToNumeric_from {C : Collaborators} (op : xla.XlaOp)
  (from : xla.PrimitiveType) : xla.XlaOp :=
  if xla.PrimitiveType_eqb from xla.PRED then
    let xla_device := GetCurrentDevice in
    ConvertTo op from (MaybeDowncastToXlaDeviceType xla.U8 xla_device)
  else op.

Definition ConvertToNumeric {C : Collaborators} (op : xla.XlaOp) : xla.XlaOp :=
  ConvertToNumeric_from op (XlaHelpers.TypeOfXlaOp op).

(** ** elementwise.cpp *)

Section Elementwise.

Context {C : Collaborators}.

Definition BuildComparisonOp (kind : c10.Symbol) (lhs rhs : xla.XlaOp)
  : Result xla.XlaOp :=
  let '(lhs, rhs) := Promote lhs rhs in
  if String.eqb kind aten.ne then
    Ok (xla.Ne lhs rhs (getBroadcastDimensions lhs rhs))
  else if String.eqb kind aten.eq then
    Ok (xla.Eq lhs rhs (getBroadcastDimensions lhs rhs))
  else if String.eqb kind aten.ge then
    Ok (xla.Ge lhs rhs (getBroadcastDimensions lhs rhs))
  else if String.eqb kind aten.le then
    Ok (xla.Le lhs rhs (getBroadcastDimensions lhs rhs))
  else if String.eqb kind aten.gt then
    Ok (xla.Gt lhs rhs (getBroadcastDimensions lhs rhs))
  else if String.eqb kind aten.lt then
    Ok (xla.Lt lhs rhs (getBroadcastDimensions lhs rhs))
  else
    Fatal ("Invalid comparison operator kind: " ++ c10.toQualString kind)%string.

Definition Between (input : xla.XlaOp) (min_val max_val : HostScalar)
  : Result xla.XlaOp :=
  let shape := ShapeHelper.ShapeOfXlaOp input in
  let element_type := xla.element_type shape in
  check_low <- BuildComparisonOp aten.ge input
                 (XlaHelpers.ScalarValue min_val element_type) ;;
  check_high <- BuildComparisonOp aten.le input
                  (XlaHelpers.ScalarValue max_val element_type) ;;
  Ok (xla.And check_low check_high []).

Definition BuildHardshrink (input lambda : xla.XlaOp) : Result xla.XlaOp :=
  let shape := ShapeHelper.ShapeOfXlaOp input in
  let input_element_type := xla.element_type shape in
  let zero := xla.Zero input_element_type in
  let lambda := MaybeConvertTo lambda input_element_type in
  check_low <- BuildComparisonOp aten.ge input (zero - lambda)%xla ;;
  check_high <- BuildComparisonOp aten.le input lambda ;;
  let between := xla.And check_low check_high [] in
  Ok (xla.Select between zero input).

Definition BuildHardSigmoidBackward (grad_output input : xla.XlaOp)
  : Result xla.XlaOp :=
  let shape := ShapeHelper.ShapeOfXlaOp input in
  let six := ScalarValue_float (binary64 6 0) (xla.element_type shape) in
  let zero := xla.Zero (xla.element_type shape) in
  between <- Between input (HostReal (binary64 (-3) 0))
                           (HostReal (binary64 3 0)) ;;
  Ok (xla.Select between (grad_output / six)%xla zero).

Definition BuildHardSwishBackward (grad_output input : xla.XlaOp)
  : Result xla.XlaOp :=
  let shape := ShapeHelper.ShapeOfXlaOp input in
  let three := ScalarValue_float (binary64 3 0) (xla.element_type shape) in
  let zero := xla.Zero (xla.element_type shape) in
  let pointfive :=
    ScalarValue_float (binary64 1 (-1)) (xla.element_type shape) in
  between <- Between input (HostReal (binary64 (-3) 0))
                           (HostReal (binary64 3 0)) ;;
  let stepone :=
    xla.Select between
      (xla.Mul grad_output (pointfive + (input / three))%xla []) zero in
  Ok (xla.Select (xla.Ge input three []) grad_output stepone).

Definition BuildSoftshrink (input lambda : xla.XlaOp) : xla.XlaOp :=
  let input_shape := ShapeHelper.ShapeOfXlaOp input in
  let input_element_type := xla.element_type input_shape in
  let lambda := MaybeConvertTo lambda input_element_type in
  let zero := xla.Zero input_element_type in
  let toTheLeft := xla.Lt input (xla.Neg lambda) [] in
  let toTheRight := xla.Gt input lambda [] in
  xla.Select toTheLeft (xla.Add input lambda [])
    (xla.Select toTheRight (xla.Sub input lambda []) zero).

Definition BuildShrinkBackward (grad_output input lambda : xla.XlaOp)
  : Result xla.XlaOp :=
  let shape := ShapeHelper.ShapeOfXlaOp input in
  let input_element_type := xla.element_type shape in
  let zero := xla.Zero input_element_type in
  let lambda := MaybeConvertTo lambda input_element_type in
  check_low <- BuildComparisonOp aten.ge input (zero - lambda)%xla ;;
  check_high <- BuildComparisonOp aten.le input lambda ;;
  let between := xla.And check_low check_high [] in
  Ok (xla.Select between zero grad_output).

Definition BuildHardtanhBackward (grad_output input : xla.XlaOp)
  (min_val max_val : HostScalar) : Result xla.XlaOp :=
  let shape := ShapeHelper.ShapeOfXlaOp grad_output in
  let zero := xla.Zero (xla.element_type shape) in
  between <- Between input min_val max_val ;;
  Ok (xla.Select between grad_output zero).

Definition BuildLeakyReluBackward (grad_output input negative_slope : xla.XlaOp)
  : xla.XlaOp :=
  let input_shape := ShapeHelper.ShapeOfXlaOp input in
  let negative_slope :=
    MaybeConvertTo negative_slope (xla.element_type input_shape) in
  let zero := xla.Zero (xla.element_type input_shape) in
  xla.Select (xla.Gt input zero []) grad_output
    (negative_slope * grad_output)%xla.

Definition BuildLeakyRelu (input negative_slope : xla.XlaOp) : xla.XlaOp :=
  BuildLeakyReluBackward input input negative_slope.

Definition BuildRrelu (input : xla.XlaOp) (lower upper : HostScalar)
  (training : bool) (rng_seed : xla.XlaOp) : list xla.XlaOp :=
  let shape := ShapeHelper.ShapeOfXlaOp input in
  let zero := xla.Zero (xla.element_type shape) in
  let one := xla.One (xla.element_type shape) in
  let '(noise, output) :=
    if training then
      let low := XlaHelpers.ScalarValue lower (xla.element_type shape) in
      let high := XlaHelpers.ScalarValue upper (xla.element_type shape) in
      let slope :=
        RngUniform rng_seed (xla.MakeShape (xla.element_type shape) [])
          low high in
      let noise := xla.Select (xla.Gt input zero []) one slope in
      (noise, (input * noise)%xla)
    else
      let negative_slope :=
        XlaHelpers.ScalarValue
          (HostReal (SFdiv 53 1024
                       (SFadd 53 1024 (to_double lower) (to_double upper))
                       (binary64 2 0)))
          (xla.element_type shape) in
      let noise := xla.Broadcast zero (xla.dimensions shape) in
      (noise, BuildLeakyRelu input negative_slope) in
  [output; noise].

Definition BuildRreluBackward (grad_output input noise : xla.XlaOp)
  (lower upper : HostScalar) (training : bool) : xla.XlaOp :=
  let input_shape := ShapeHelper.ShapeOfXlaOp input in
  let zero := xla.Zero (xla.element_type input_shape) in
  if training then (noise * grad_output)%xla
  else
    let negative_slope_value :=
      SFdiv 53 1024 (SFadd 53 1024 (to_double lower) (to_double upper))
        (binary64 2 0) in
    let negative_slope :=
      XlaHelpers.ScalarValue (HostReal negative_slope_value)
        (xla.element_type input_shape) in
    xla.Select (xla.Gt input zero []) grad_output
      (grad_output * negative_slope)%xla.

Definition BuildSign (input : xla.XlaOp) : xla.XlaOp :=
  let num_input := ConvertToNumeric input in
  let shape := ShapeHelper.ShapeOfXlaOp num_input in
  let zero := xla.Zero (xla.element_type shape) in
  let sign :=
    if xla.primitive_util.IsUnsignedIntegralType (xla.element_type shape)
    then xla.ConvertElementType (xla.Gt num_input zero [])
           (xla.element_type shape)
    else xla.Sign num_input in
  xla.Select (xla.Ne num_input num_input [])
    (xla.Broadcast zero (xla.dimensions shape)) sign.

Definition BuildAbs (input : xla.XlaOp) : xla.XlaOp :=
  let shape := ShapeHelper.ShapeOfXlaOp input in
  if xla.primitive_util.IsUnsignedIntegralType (xla.element_type shape)
  then input
  else xla.Abs input.

Definition BuildSoftplus (input beta threshold : xla.XlaOp) : xla.XlaOp :=
  xla.Select (xla.Gt (xla.Mul input beta []) threshold []) input
    (xla.Div (xla.Log1p (xla.Exp (xla.Mul input beta []))) beta []).

Definition BuildLogit (input : xla.XlaOp) (eps : option spec_float)
  : xla.XlaOp :=
  let shape := ShapeHelper.ShapeOfXlaOp input in
  let one := ScalarValue_float (binary64 1 0) (xla.element_type shape) in
  let zero := xla.Zero (xla.element_type shape) in
  let xla_eps :=
    match eps with
    | Some value => ScalarValue_float value (xla.element_type shape)
    | None => zero
    end in
  let clamped := xla.Clamp input xla_eps (one - xla_eps)%xla in
  let xla_log := xla.Log (clamped / (one - clamped))%xla in
  let invalid_input :=
    xla.Or (xla.Lt input zero []) (xla.Gt input one []) [] in
  let xla_nan := xla.NanValue (xla.element_type shape) in
  xla.Select invalid_input xla_nan xla_log.

Definition BuildElu (input alpha scale input_scale : xla.XlaOp) : xla.XlaOp :=
  let shape := ShapeHelper.ShapeOfXlaOp input in
  let alpha := MaybeConvertTo alpha (xla.element_type shape) in
  let scale := MaybeConvertTo scale (xla.element_type shape) in
  let input_scale := MaybeConvertTo input_scale (xla.element_type shape) in
  let scaled_input := (input * input_scale)%xla in
  let zero := xla.Zero (xla.element_type shape) in
  let one := ScalarValue_float (binary64 1 0) (xla.element_type shape) in
  (xla.Select (xla.Le input zero [])
     (alpha * (xla.Exp scaled_input - one))%xla input * scale)%xla.

End Elementwise.

(** ** A reference backend

    One concrete choice of the collaborators, on which the lowerings can
    be run. *)

Definition kind_rank (type : xla.PrimitiveType) : Z :=
  if xla.primitive_util.IsComplexType type then 3
  else if xla.primitive_util.IsFloatingPointType type then 2
  else if xla.primitive_util.IsIntegralType type then 1
  else 0.

(** Modelled from the spec: the common kind of the promotion utility,
    which returns a pair with a common kind.  Complex wins over floating,
    floating over integral, integral over boolean, and among kinds of one
    class the wider; on a tie the left kind. *)
Definition PromoteType (type1 type2 : xla.PrimitiveType) : xla.PrimitiveType :=
  if kind_rank type1 <? kind_rank type2 then type2
  else if kind_rank type2 <? kind_rank type1 then type1
  else if xla.ShapeUtil.ByteSizeOfPrimitiveType type1
          <? xla.ShapeUtil.ByteSizeOfPrimitiveType type2
       then type2
       else type1.

(** Modelled from the spec: [XlaHelpers::Promote] of helpers.cpp, which the
    sources here only call: given two values of possibly different kinds
    it returns the pair converted to a common kind. *)
Definition PromoteValues (op1 op2 : xla.XlaOp) : xla.XlaOp * xla.XlaOp :=
  let type1 := XlaHelpers.TypeOfXlaOp op1 in
  let type2 := XlaHelpers.TypeOfXlaOp op2 in
  let result_type := PromoteType type1 type2 in
  (ConvertTo op1 type1 result_type, ConvertTo op2 type2 result_type).

Definition reference_collaborators : Collaborators := {|
  Promote := PromoteValues;
  getBroadcastDimensions := fun _ _ => [];
  BackendDevice := unit;
  GetCurrentDevice := tt;
  MaybeDowncastToXlaDeviceType := fun type _ => type
|}.

(** The draw of the reference backend is the lower bound; its
    transcendental functions are left uninterpreted as the identity. *)
Definition reference_numerics : Numerics := {|
  transcendental := fun _ _ f => f;
  uniform_draw := fun _ _ minval _ _ => minval
|}.

Definition binary32 (m e : Z) : spec_float := binary_normalize 24 128 m e false.

(** A backend whose draw differs from position to position: the lower
    bound at the even positions, the upper bound at the odd ones. *)
Definition alternating_numerics : Numerics := {|
  transcendental := fun _ _ f => f;
  uniform_draw := fun _ _ minval maxval i =>
    if Nat.even i then minval else maxval
|}.

(** A backend whose logarithm is a NaN outside the domain of the
    logarithm, on a NaN and on the numbers below 0, and is left
    uninterpreted inside. *)
Definition domain_numerics : Numerics := {|
  transcendental := fun opcode _ f =>
    match opcode with
    | xla.kLog =>
        if is_nan f || SFltb f (S754_zero false) then S754_nan else f
    | _ => f
    end;
  uniform_draw := fun _ _ minval _ _ => minval
|}.

(** The number of instructions of a graph. *)
Fixpoint instruction_count (op : xla.XlaOp) : nat :=
  match op with
  | xla.GraphInput _ _ | xla.ConstantLiteral _ _ => 1
  | xla.ConvertElementType operand _ | xla.Broadcast operand _
  | xla.UnaryOp _ operand => S (instruction_count operand)
  | xla.BinaryOp _ lhs rhs _ | xla.Compare _ lhs rhs _ =>
      S (instruction_count lhs + instruction_count rhs)
  | xla.Select a b c | xla.Clamp a b c =>
      S (instruction_count a + instruction_count b + instruction_count c)
  | xla.Rng seed _ minval maxval =>
      S (instruction_count seed + instruction_count minval
         + instruction_count maxval)
  end.


(** Whether the mask of [CreateRawMask] is built from operands of one
    kind: the mask of an unsigned kind is one constant of that kind, the
    mask of a signed kind is shifted by a constant of kind [S32]. *)
Definition mask_kinds_agree (type : xla.PrimitiveType) : bool :=
  negb (xla.primitive_util.IsSignedIntegralType type)
  || xla.PrimitiveType_eqb type xla.S32.

(** The value of the mask of [CreateRawMask], where it has one. *)
Definition raw_mask (type : xla.PrimitiveType) (narrow_size : Z) : Z :=
  if xla.primitive_util.IsSignedIntegralType type
  then -1
  else Z.ones (CHAR_BIT * narrow_size).

(** ** Vocabulary of the properties *)

(** The comparison of two floats an instruction of the given direction
    computes. *)
Definition float_cmp (direction : xla.ComparisonDirection) (a b : spec_float)
  : bool :=
  compare_of direction (SFcompare a b).

(** The value a host constant takes in a floating kind. *)
Definition float_of_host (type : xla.PrimitiveType) (value : HostScalar)
  : spec_float :=
  match value with
  | HostInt z => int_to_float type z
  | HostReal d => float_to type d
  end.

(** The value of [ScalarValue_float value type] in a floating kind. *)
Definition float_literal (type : xla.PrimitiveType) (value : spec_float)
  : spec_float :=
  float_to type (float_to xla.F64 (float_to xla.F32 value)).

(** The contract of the promotion utility the evaluation of a comparison
    needs: operands that already are of one kind keep their elements. *)
Definition Promote_keeps_elements {C : Collaborators} {N : Numerics} : Prop :=
  forall (lhs rhs : xla.XlaOp),
    XlaHelpers.TypeOfXlaOp lhs = XlaHelpers.TypeOfXlaOp rhs ->
    forall (env : Env) (i : nat),
      eval env (fst (Promote lhs rhs)) i = eval env lhs i
      /\ eval env (snd (Promote lhs rhs)) i = eval env rhs i.

(** The contract of the uniform draw: between ordered bounds, every drawn
    element lies between the bounds. *)
Definition uniform_draw_in_range {N : Numerics} : Prop :=
  forall (seed : Value) (shape : xla.Shape) (minval maxval : spec_float)
         (i : nat),
    SFleb minval maxval = true ->
    SFleb minval (uniform_draw seed shape minval maxval i) = true
    /\ SFleb (uniform_draw seed shape minval maxval i) maxval = true.

(** The contract of the logarithm outside its domain: the logarithm of a
    NaN and of a number below 0 is a NaN. *)
Definition log_of_invalid_is_nan {N : Numerics} : Prop :=
  forall (type : xla.PrimitiveType) (f : spec_float),
    is_nan f = true \/ float_cmp xla.kLt f (S754_zero false) = true ->
    transcendental xla.kLog type f = S754_nan.

(** Every instruction of the graph that combines several operands is
    applied to operands of one kind. *)
Fixpoint kinds_agree (op : xla.XlaOp) : bool :=
  match op with
  | xla.GraphInput _ _ | xla.ConstantLiteral _ _ => true
  | xla.ConvertElementType operand _ | xla.Broadcast operand _
  | xla.UnaryOp _ operand => kinds_agree operand
  | xla.BinaryOp opcode lhs rhs _ =>
      kinds_agree lhs && kinds_agree rhs
      && xla.PrimitiveType_eqb (XlaHelpers.TypeOfXlaOp lhs)
                               (XlaHelpers.TypeOfXlaOp rhs)
  | xla.Compare _ lhs rhs _ =>
      kinds_agree lhs && kinds_agree rhs
      && xla.PrimitiveType_eqb (XlaHelpers.TypeOfXlaOp lhs)
                               (XlaHelpers.TypeOfXlaOp rhs)
  | xla.Select pred on_true on_false =>
      kinds_agree pred && kinds_agree on_true && kinds_agree on_false
      && xla.PrimitiveType_eqb (XlaHelpers.TypeOfXlaOp on_true)
                               (XlaHelpers.TypeOfXlaOp on_false)
  | xla.Clamp min operand max =>
      kinds_agree min && kinds_agree operand && kinds_agree max
      && xla.PrimitiveType_eqb (XlaHelpers.TypeOfXlaOp min)
                               (XlaHelpers.TypeOfXlaOp operand)
      && xla.PrimitiveType_eqb (XlaHelpers.TypeOfXlaOp max)
                               (XlaHelpers.TypeOfXlaOp operand)
  | xla.Rng seed _ minval maxval =>
      kinds_agree seed && kinds_agree minval && kinds_agree maxval
      && xla.PrimitiveType_eqb (XlaHelpers.TypeOfXlaOp minval)
                               (XlaHelpers.TypeOfXlaOp maxval)
  end.

(** The element at position [i] of the graph a lowering returns, if it
    returns one. *)
Definition eval_result {N : Numerics} (env : Env) (r : Result xla.XlaOp) (i : nat)
  : option Value :=
  match r with
  | Ok op => eval env op i
  | Fatal _ => None
  end.

(** The contract of the promotion utility on kinds: promoted operands
    whose instructions combine operands of one kind stay so, and the
    promoted pair is of one kind. *)
Definition Promote_common_kind {C : Collaborators} : Prop :=
  forall (lhs rhs : xla.XlaOp),
    kinds_agree lhs = true ->
    kinds_agree rhs = true ->
    kinds_agree (fst (Promote lhs rhs)) = true
    /\ kinds_agree (snd (Promote lhs rhs)) = true
    /\ XlaHelpers.TypeOfXlaOp (fst (Promote lhs rhs))
       = XlaHelpers.TypeOfXlaOp (snd (Promote lhs rhs)).

(** ** Example inputs *)

(** Elements -3 and 3 for input 0, and 1 for every other input. *)
Definition hardswish_env : Env :=
  fun number i =>
    match number with
    | O => VFloat xla.F32 (nth i [binary32 (-3) 0; binary32 3 0] S754_nan)
    | _ => VFloat xla.F32 (binary32 1 0)
    end.

(** Elements 2 and 1/2. *)
Definition logit_env : Env :=
  fun _ i => VFloat xla.F32 (nth i [binary32 2 0; binary32 1 (-1)] S754_nan).

(** Elements 2 and -2. *)
Definition rrelu_env : Env :=
  fun _ i => VFloat xla.F32 (nth i [binary32 2 0; binary32 (-2) 0] S754_nan).

(** Elements -1, -2 and 2. *)
Definition rrelu_draw_env : Env :=
  fun _ i =>
    VFloat xla.F32
      (nth i [binary32 (-1) 0; binary32 (-2) 0; binary32 2 0] S754_nan).

(** Elements 1/2 and NaN. *)
Definition logit_edge_env : Env :=
  fun _ i => VFloat xla.F32 (nth i [binary32 1 (-1); S754_nan] S754_nan).

(** The signed elements -3, 0, 4. *)
Definition sign_signed_env : Env :=
  fun _ i => VInt xla.S32 (nth i [-3; 0; 4] 0).

(** The unsigned elements 0, 5. *)
Definition sign_unsigned_env : Env :=
  fun _ i => VInt xla.U8 (nth i [0; 5] 0).

(** Elements -5/2 and NaN. *)
Definition sign_float_env : Env :=
  fun _ i => VFloat xla.F32 (nth i [binary32 (-5) (-1); S754_nan] S754_nan).

(** ** Further collaborators *)

(** What the rest of the two files reads besides: the process-wide switch
    for unbounded dynamism ([XlaHelpers]) and the kind a device gives a
    tensor scalar type ([dtype]), taken as parameters. *)
Class Settings {C : Collaborators} : Type := {
  IsUnboundedDynamismEnabled : bool;
  ScalarType : Type;
  MakeXlaPrimitiveType : ScalarType -> BackendDevice -> xla.PrimitiveType
}.

(** The constants of [<cmath>] and the literals of [BuildSelu], as the
    binary64 values the compiler reads them as. *)
Definition M_SQRT1_2 : spec_float := binary64 6369051672525773 (-53).
Definition M_2_SQRTPI : spec_float := binary64 5081767996463981 (-52).
Definition selu_alpha : spec_float := binary64 7535707714759921 (-52).
Definition selu_scale : spec_float := binary64 4731936575131954 (-52).

(** ** convert_ops.cpp, the cast *)


(** ** elementwise.cpp, the other lowerings *)

Section ElementwiseRest.

Context {C : Collaborators} {St : Settings}.

Definition BuildThreshold (input output : xla.XlaOp)
  (threshold value : spec_float) : xla.XlaOp :=
  let input_shape := ShapeHelper.ShapeOfXlaOp input in
  let output_shape := ShapeHelper.ShapeOfXlaOp output in
  let xla_threshold :=
    ScalarValue_float threshold (xla.element_type input_shape) in
  let xla_value := ScalarValue_float value (xla.element_type output_shape) in
  xla.Select (xla.Gt input xla_threshold []) output
    (xla.Broadcast xla_value (xla.dimensions input_shape)).

Definition BuildRelu (input : xla.XlaOp) : xla.XlaOp :=
  let input_shape := ShapeHelper.ShapeOfXlaOp input in
  let scalar :=
    ScalarValue_float (binary64 0 0) (xla.element_type input_shape) in
  if IsUnboundedDynamismEnabled then
    let promoted := Promote input scalar in
    xla.Max (fst promoted) (snd promoted)
      (getBroadcastDimensions (fst promoted) (snd promoted))
  else xla.Max input scalar [].

Definition BuildHardSigmoid (input : xla.XlaOp) : xla.XlaOp :=
  let shape := ShapeHelper.ShapeOfXlaOp input in
  let zero := xla.Zero (xla.element_type shape) in
  let three := ScalarValue_float (binary64 3 0) (xla.element_type shape) in
  let six := ScalarValue_float (binary64 6 0) (xla.element_type shape) in
  (xla.Min (xla.Max (input + three)%xla zero []) six [] / six)%xla.

Definition BuildHardSwish (input : xla.XlaOp) : xla.XlaOp :=
  let shape := ShapeHelper.ShapeOfXlaOp input in
  let zero := xla.Zero (xla.element_type shape) in
  let three := ScalarValue_float (binary64 3 0) (xla.element_type shape) in
  let six := ScalarValue_float (binary64 6 0) (xla.element_type shape) in
  xla.Mul input
    (xla.Min (xla.Max (input + three)%xla zero []) six [] / six)%xla [].

Definition BuildPrelu (input weight : xla.XlaOp) : xla.XlaOp :=
  let input_shape := ShapeHelper.ShapeOfXlaOp input in
  let zero := xla.Zero (xla.element_type input_shape) in
  let product := xla.Mul input weight [] in
  xla.Select (xla.Gt input zero []) input product.

Definition BuildPreluBackward (grad input weight : xla.XlaOp)
  : list xla.XlaOp :=
  let input_shape := ShapeHelper.ShapeOfXlaOp input in
  let zero := xla.Zero (xla.element_type input_shape) in
  let grad_input := xla.Mul weight grad [] in
  let grad_weight := xla.Mul input grad [] in
  [xla.Select (xla.Gt input zero []) grad grad_input;
   xla.Select (xla.Gt input zero []) zero grad_weight].

Definition BuildSigmoid (input : xla.XlaOp) : xla.XlaOp := xla.Logistic input.

Definition BuildDiv (input divisor : xla.XlaOp) : xla.XlaOp :=
  let '(input, divisor) := Promote input divisor in
  let div_result :=
    xla.Div input divisor (getBroadcastDimensions input divisor) in
  div_result.

Definition BuildSiLUBackward (grad_output input : xla.XlaOp) : xla.XlaOp :=
  let shape := ShapeHelper.ShapeOfXlaOp input in
  let one := xla.One (xla.element_type shape) in
  let input_sigmoid := BuildSigmoid input in
  (grad_output * (input_sigmoid * (one + input * (one - input_sigmoid))))%xla.

Definition BuildReciprocal (input : xla.XlaOp) : xla.XlaOp :=
  let shape := ShapeHelper.ShapeOfXlaOp input in
  let one := xla.One (xla.element_type shape) in
  xla.Div one input [].

Definition BuildSgn (input : xla.XlaOp) : xla.XlaOp :=
  let num_input := ConvertToNumeric input in
  let shape := ShapeHelper.ShapeOfXlaOp num_input in
  if negb (xla.PrimitiveType_eqb (xla.element_type shape) xla.C64
           || xla.PrimitiveType_eqb (xla.element_type shape) xla.C128)
  then BuildSign input
  else
    let shape_real := ShapeHelper.ShapeOfXlaOp (xla.Real num_input) in
    let nan_real := xla.NanValue (xla.element_type shape_real) in
    let nan_complex := xla.Complex nan_real nan_real [] in
    let sign := xla.Sign num_input in
    let is_finite :=
      xla.And (xla.IsFinite (xla.Real sign)) (xla.IsFinite (xla.Imag sign)) [] in
    (* Replace non-finite tensor values (e.g. Inf, NaN) with NaN *)
    xla.Select is_finite sign
      (MaybeConvertTo nan_complex (XlaHelpers.TypeOfXlaOp sign)).

Definition BuildGelu (input : xla.XlaOp) : xla.XlaOp :=
  let shape := ShapeHelper.ShapeOfXlaOp input in
  let half := ScalarValue_float (binary64 1 (-1)) (xla.element_type shape) in
  let one := ScalarValue_float (binary64 1 0) (xla.element_type shape) in
  let m_sqrt1_2 := ScalarValue_float M_SQRT1_2 (xla.element_type shape) in
  (input * half * (xla.Erf (input * m_sqrt1_2) + one))%xla.

Definition BuildGeluBackward (grad_output input : xla.XlaOp) : xla.XlaOp :=
  let shape := ShapeHelper.ShapeOfXlaOp input in
  let half := ScalarValue_float (binary64 1 (-1)) (xla.element_type shape) in
  let one := ScalarValue_float (binary64 1 0) (xla.element_type shape) in
  let m_2_sqrtpi := ScalarValue_float M_2_SQRTPI (xla.element_type shape) in
  let m_sqrt1_2 := ScalarValue_float M_SQRT1_2 (xla.element_type shape) in
  let kAlpha := (m_2_sqrtpi * m_sqrt1_2 * half)%xla in
  let scratch := xla.Erf (input * m_sqrt1_2)%xla in
  let dinput := xla.Exp (input * input * xla.Neg half)%xla in
  (grad_output * (half * (one + scratch) + input * dinput * kAlpha))%xla.

Definition BuildCelu (input : xla.XlaOp) (alpha : HostScalar) : xla.XlaOp :=
  let shape := ShapeHelper.ShapeOfXlaOp input in
  let zero := xla.Zero (xla.element_type shape) in
  let one := ScalarValue_float (binary64 1 0) (xla.element_type shape) in
  let xla_alpha := XlaHelpers.ScalarValue alpha (xla.element_type shape) in
  (* CELU(x)=max(0,x)+min(0,a*(exp(x/a)-1)) *)
  (xla.Max zero input []
   + xla.Min zero (xla_alpha * (xla.Exp (input / xla_alpha) - one)) [])%xla.

Definition BuildSelu (input : xla.XlaOp) : xla.XlaOp :=
  let shape := ShapeHelper.ShapeOfXlaOp input in
  let zero := xla.Zero (xla.element_type shape) in
  let one := ScalarValue_float (binary64 1 0) (xla.element_type shape) in
  let alpha := ScalarValue_float selu_alpha (xla.element_type shape) in
  let scale := ScalarValue_float selu_scale (xla.element_type shape) in
  (* SELU(x)=scale*(max(0,x)+min(0,a*(exp(x)-1))) *)
  (scale * (xla.Max zero input []
            + xla.Min zero (alpha * (xla.Exp input - one)) []))%xla.

Definition BuildLogSigmoid (input : xla.XlaOp) : list xla.XlaOp :=
  let shape := ShapeHelper.ShapeOfXlaOp input in
  let neg_input := xla.Neg input in
  let zero := xla.Zero (xla.element_type shape) in
  let max_elem := xla.Max zero neg_input [] in
  let buffer :=
    (xla.Exp (xla.Neg max_elem) + xla.Exp (neg_input - max_elem))%xla in
  let output := xla.Neg (max_elem + xla.Log buffer)%xla in
  [output; buffer].

Definition BuildLogSigmoidBackward (grad_output input buffer : xla.XlaOp)
  : xla.XlaOp :=
  let shape := ShapeHelper.ShapeOfXlaOp input in
  let zero := xla.Zero (xla.element_type shape) in
  let one := ScalarValue_float (binary64 1 0) (xla.element_type shape) in
  let minus_one :=
    ScalarValue_float (binary64 (-1) 0) (xla.element_type shape) in
  let max_deriv := xla.Select (xla.Lt input zero []) minus_one zero in
  let sign := xla.Select (xla.Lt input zero []) one minus_one in
  (grad_output * (xla.Neg max_deriv - sign * (buffer - one) / buffer))%xla.

Definition BuildEluBackward (grad_output output : xla.XlaOp)
  (alpha scale input_scale : HostScalar) : xla.XlaOp :=
  let shape := ShapeHelper.ShapeOfXlaOp output in
  let zero := xla.Zero (xla.element_type shape) in
  let alpha_scalar := XlaHelpers.ScalarValue alpha (xla.element_type shape) in
  let scale_scalar := XlaHelpers.ScalarValue scale (xla.element_type shape) in
  let input_scale_scalar :=
    XlaHelpers.ScalarValue input_scale (xla.element_type shape) in
  let negative_output_branch :=
    (input_scale_scalar * (output + alpha_scalar * scale_scalar))%xla in
  (grad_output
   * xla.Select (xla.Gt output zero []) scale_scalar negative_output_branch)%xla.

Definition BuildLerp (start end_ weight : xla.XlaOp) : xla.XlaOp :=
  (* Three-way shape and value promotion *)
  let '(start, end_) := Promote start end_ in
  let '(start, weight) := Promote start weight in
  let '(start, end_) := Promote start end_ in
  (* Perform the function = start + weight * (end - start) *)
  let sub_result := xla.Sub end_ start (getBroadcastDimensions end_ start) in
  let mul_result :=
    xla.Mul weight sub_result (getBroadcastDimensions weight sub_result) in
  let add_result :=
    xla.Add start mul_result (getBroadcastDimensions start mul_result) in
  add_result.

Definition BuildRsub (input other alpha : xla.XlaOp) : xla.XlaOp :=
  (* Three-way shape and value promotion *)
  let '(input, other) := Promote input other in
  let '(input, alpha) := Promote input alpha in
  let '(input, other) := Promote input other in
  (* Perform the function: other - alpha * input *)
  let mul_result := xla.Mul input alpha (getBroadcastDimensions input alpha) in
  let sub_result :=
    xla.Sub other mul_result (getBroadcastDimensions other mul_result) in
  sub_result.

Definition BuildSub (input other alpha : xla.XlaOp) : xla.XlaOp :=
  (* Three-way shape and value promotion *)
  let '(input, other) := Promote input other in
  let '(input, alpha) := Promote input alpha in
  let '(input, other) := Promote input other in
  (* Perform the function: input - alpha * other *)
  let mul_result := xla.Mul other alpha (getBroadcastDimensions other alpha) in
  let sub_result :=
    xla.Sub input mul_result (getBroadcastDimensions input mul_result) in
  sub_result.

Definition BuildAdd (input other alpha : xla.XlaOp) : xla.XlaOp :=
  (* Three-way shape and value promotion *)
  let '(input, other) := Promote input other in
  let '(input, alpha) := Promote input alpha in
  let '(input, other) := Promote input other in
  let multiplied := xla.Mul other alpha (getBroadcastDimensions other alpha) in
  let add_result :=
    xla.Add input multiplied (getBroadcastDimensions input multiplied) in
  add_result.

Definition BuildMul (input other : xla.XlaOp) : xla.XlaOp :=
  (* Shape and value promotion *)
  let '(input, other) := Promote input other in
  let mul_result := xla.Mul input other (getBroadcastDimensions input other) in
  mul_result.

End ElementwiseRest.

Definition reference_settings : Settings (C := reference_collaborators) := {|
  IsUnboundedDynamismEnabled := true;
  ScalarType := xla.PrimitiveType;
  MakeXlaPrimitiveType := fun dtype _ => dtype
|}.


(** ** Vocabulary of the further properties *)

(** The inputs of a graph given as rows of elements, one row per input. *)
Definition env_of (inputs : list (list Value)) : Env :=
  fun number i => nth i (nth number inputs []) (VPred false).

(** Whether [ConvertData] has to mask between two kinds: both integral
    and of differing byte size. *)
Definition needs_mask (type narrow_type : xla.PrimitiveType) : bool :=
  xla.primitive_util.IsIntegralType type
  && xla.primitive_util.IsIntegralType narrow_type
  && negb (xla.ShapeUtil.ByteSizeOfPrimitiveType type
           =? xla.ShapeUtil.ByteSizeOfPrimitiveType narrow_type).

(** Whether the check [size >= narrow_size] of [ConvertData] fails
    between two kinds: both integral and the first of smaller byte size. *)
Definition size_check_fails (type narrow_type : xla.PrimitiveType) : bool :=
  xla.primitive_util.IsIntegralType type
  && xla.primitive_util.IsIntegralType narrow_type
  && (xla.ShapeUtil.ByteSizeOfPrimitiveType type
      <? xla.ShapeUtil.ByteSizeOfPrimitiveType narrow_type).

(** The float an auxiliary operand of kind [from] contributes after
    [MaybeConvertTo] to the kind [type]. *)
Definition converted_float (type from : xla.PrimitiveType) (f : spec_float)
  : spec_float :=
  if xla.PrimitiveType_eqb from type then f else float_to type f.

(** The contract of the promotion utility on kinds, by the common kind
    [join] it promotes two kinds to: the promoted pair is of that kind,
    promotion keeps graphs whose instructions combine operands of one
    kind so, and promoting again with a kind already joined in changes
    nothing. *)
Definition Promote_joins {C : Collaborators}
  (join : xla.PrimitiveType -> xla.PrimitiveType -> xla.PrimitiveType) : Prop :=
  (forall lhs rhs : xla.XlaOp,
     XlaHelpers.TypeOfXlaOp (fst (Promote lhs rhs))
     = join (XlaHelpers.TypeOfXlaOp lhs) (XlaHelpers.TypeOfXlaOp rhs)
     /\ XlaHelpers.TypeOfXlaOp (snd (Promote lhs rhs))
        = join (XlaHelpers.TypeOfXlaOp lhs) (XlaHelpers.TypeOfXlaOp rhs)
     /\ (kinds_agree lhs = true -> kinds_agree (fst (Promote lhs rhs)) = true)
     /\ (kinds_agree rhs = true -> kinds_agree (snd (Promote lhs rhs)) = true))
  /\ (forall a b : xla.PrimitiveType, join (join a b) a = join a b).


(** * Properties *)

(** ** convert_ops.cpp *)

Section ConvertOps.

Import xla.primitive_util xla.ShapeUtil.

Lemma PrimitiveType_eqb_refl (k : xla.PrimitiveType) :
  xla.PrimitiveType_eqb k k = true.
Proof.
  unfold xla.PrimitiveType_eqb.
  destruct (xla.PrimitiveType_eq_dec k k); congruence.
Qed.

Lemma PrimitiveType_eqb_eq (a b : xla.PrimitiveType) :
  xla.PrimitiveType_eqb a b = true <-> a = b.
Proof.
  unfold xla.PrimitiveType_eqb.
  destruct (xla.PrimitiveType_eq_dec a b); split; congruence.
Qed.

Lemma PrimitiveType_eqb_neq (a b : xla.PrimitiveType) :
  a <> b -> xla.PrimitiveType_eqb a b = false.
Proof.
  unfold xla.PrimitiveType_eqb.
  destruct (xla.PrimitiveType_eq_dec a b); congruence.
Qed.

Lemma ConvertData_integral (op : xla.XlaOp) (type narrow_type : xla.PrimitiveType) :
  IsIntegralType type = true ->
  IsIntegralType narrow_type = true ->
  ConvertData op type narrow_type =
    if ByteSizeOfPrimitiveType type <? ByteSizeOfPrimitiveType narrow_type
    then Fatal "Check failed: size >= narrow_size"
    else if ByteSizeOfPrimitiveType type =? ByteSizeOfPrimitiveType narrow_type
         then Ok op
         else Ok (op & CreateRawMask op type (ByteSizeOfPrimitiveType type)
                         (ByteSizeOfPrimitiveType narrow_type))%xla.
Proof.
  intros Ht Hn. unfold ConvertData. rewrite Ht, Hn. cbn [negb orb].
  rewrite Z.geb_leb, Z.ltb_antisym. reflexivity.
Qed.

(** C1, as the code has it: between two integral kinds the fatal check of
    [ConvertData] is [size >= narrow_size], on the byte sizes of its first
    (logical) and second (raw, narrow) kind.  The call aborts when the
    logical kind is the narrower one, and so does the [ConvertToRaw] that
    makes it; when the raw kind is narrower or as wide, it returns. *)
Theorem ConvertData_check_aborts_on_narrow_logical
  (op : xla.XlaOp) (type narrow_type : xla.PrimitiveType) :
  IsIntegralType type = true ->
  IsIntegralType narrow_type = true ->
  (ByteSizeOfPrimitiveType type < ByteSizeOfPrimitiveType narrow_type ->
   ConvertData op type narrow_type = Fatal "Check failed: size >= narrow_size"
   /\ forall to raw_to,
        ConvertToRaw op type narrow_type to raw_to
        = Fatal "Check failed: size >= narrow_size")
  /\ (ByteSizeOfPrimitiveType narrow_type <= ByteSizeOfPrimitiveType type ->
      exists result, ConvertData op type narrow_type = Ok result).
Proof.
  intros Ht Hn. pose proof (ConvertData_integral op type narrow_type Ht Hn) as E.
  split; intros Hsize.
  - apply Z.ltb_lt in Hsize. rewrite Hsize in E. split; [exact E|].
    intros to raw_to. unfold ConvertToRaw.
    rewrite PrimitiveType_eqb_neq.
    + cbn [negb]. rewrite E. reflexivity.
    + intros ->. rewrite Z.ltb_irrefl in Hsize. discriminate.
  - apply Z.ltb_ge in Hsize. rewrite Hsize in E.
    destruct (_ =? _) in E; eexists; exact E.
Qed.

Lemma ConvertData_check_witness :
  ConvertData (xla.GraphInput 0 (xla.MakeShape xla.S8 [])) xla.S8 xla.S32
  = Fatal "Check failed: size >= narrow_size"
  /\ exists result,
       ConvertData (xla.GraphInput 0 (xla.MakeShape xla.S32 [])) xla.S32 xla.S8
       = Ok result.
Proof.
  split.
  - apply (ConvertData_check_aborts_on_narrow_logical
             (xla.GraphInput 0 (xla.MakeShape xla.S8 [])) xla.S8 xla.S32);
      reflexivity.
  - apply (ConvertData_check_aborts_on_narrow_logical
             (xla.GraphInput 0 (xla.MakeShape xla.S32 [])) xla.S32 xla.S8);
      [reflexivity | reflexivity | cbn; lia].
Defined.

(** C1, as the claim states it, fails: with a 32-bit logical kind and a
    16-bit raw kind the raw width is the narrower one, and both
    [ConvertData] and the [ConvertToRaw] that calls it return a graph. *)
Lemma ConvertData_returns_on_narrow_raw :
  IsIntegralType xla.S32 = true
  /\ IsIntegralType xla.S16 = true
  /\ ByteSizeOfPrimitiveType xla.S16 < ByteSizeOfPrimitiveType xla.S32
  /\ ConvertData (xla.GraphInput 0 (xla.MakeShape xla.S32 [])) xla.S32 xla.S16
     = Ok (xla.GraphInput 0 (xla.MakeShape xla.S32 [])
           & (XlaHelpers.ScalarValue (HostInt 65535) xla.S32
              << XlaHelpers.ScalarValue (HostInt 16) xla.S32
              >> XlaHelpers.ScalarValue (HostInt 16) xla.S32))%xla
  /\ returns (ConvertToRaw (xla.GraphInput 0 (xla.MakeShape xla.S32 []))
                xla.S32 xla.S16 xla.S32 xla.S32) = true.
Proof. repeat split. Qed.

(** The two checks of [ConvertToRaw]: it returns exactly when neither of
    its two maskings meets a first kind narrower than the second. *)
Lemma ConvertToRaw_returns (op : xla.XlaOp)
  (from raw_from to raw_to : xla.PrimitiveType) :
  returns (ConvertToRaw op from raw_from to raw_to)
  = returns (ConvertData op from raw_from)
    && returns (ConvertData op to raw_to).
Proof.
  assert (Hsame : forall o o' a b,
             returns (ConvertData o a b) = returns (ConvertData o' a b)).
  { intros o o' a b. unfold ConvertData.
    destruct (negb (IsIntegralType a) || negb (IsIntegralType b));
      [reflexivity|].
    destruct (negb _); [reflexivity|]. destruct (_ =? _); reflexivity. }
  assert (Hrefl : forall o a, ConvertData o a a = Ok o).
  { intros o a. unfold ConvertData.
    destruct (negb (IsIntegralType a) || negb (IsIntegralType a));
      [reflexivity|].
    rewrite Z.geb_leb, Z.leb_refl, Z.eqb_refl. reflexivity. }
  unfold ConvertToRaw.
  destruct (xla.PrimitiveType_eqb from raw_from) eqn:Efrom.
  - apply PrimitiveType_eqb_eq in Efrom. subst raw_from.
    rewrite Hrefl. cbn [negb bind returns andb].
    destruct (xla.PrimitiveType_eqb to raw_to) eqn:Eto.
    + apply PrimitiveType_eqb_eq in Eto. subst raw_to.
      rewrite Hrefl. reflexivity.
    + apply Hsame.
  - cbn [negb].
    destruct (ConvertData op from raw_from) as [masked | message];
      [|reflexivity].
    cbn [bind returns andb].
    destruct (xla.PrimitiveType_eqb to raw_to) eqn:Eto.
    + apply PrimitiveType_eqb_eq in Eto. subst raw_to.
      rewrite Hrefl. reflexivity.
    + apply Hsame.
Qed.

(** C7: converting between equal kinds returns the value itself, so the
    graph has no instruction more; between distinct kinds the result is
    one element-type conversion of the value, one instruction more. *)
Theorem ConvertTo_identity_or_one_conversion
  (v : xla.XlaOp) (k from to : xla.PrimitiveType) :
  ConvertTo v k k = v
  /\ instruction_count (ConvertTo v k k) = instruction_count v
  /\ (from <> to ->
      ConvertTo v from to = xla.ConvertElementType v to
      /\ instruction_count (ConvertTo v from to) = S (instruction_count v)).
Proof.
  unfold ConvertTo. rewrite PrimitiveType_eqb_refl.
  repeat split; intros; rewrite PrimitiveType_eqb_neq by assumption;
    reflexivity.
Qed.

Lemma ConvertTo_witness :
  ConvertTo (xla.GraphInput 0 (xla.MakeShape xla.S32 [2%nat])) xla.S32 xla.S32
  = xla.GraphInput 0 (xla.MakeShape xla.S32 [2%nat])
  /\ instruction_count
       (ConvertTo (xla.GraphInput 0 (xla.MakeShape xla.S32 [2%nat]))
          xla.S32 xla.S32) = 1%nat
  /\ (xla.S32 <> xla.F32 ->
      ConvertTo (xla.GraphInput 0 (xla.MakeShape xla.S32 [2%nat]))
        xla.S32 xla.F32
      = xla.ConvertElementType
          (xla.GraphInput 0 (xla.MakeShape xla.S32 [2%nat])) xla.F32
      /\ instruction_count
           (ConvertTo (xla.GraphInput 0 (xla.MakeShape xla.S32 [2%nat]))
              xla.S32 xla.F32) = 2%nat).
Proof.
  exact (ConvertTo_identity_or_one_conversion
           (xla.GraphInput 0 (xla.MakeShape xla.S32 [2%nat]))
           xla.S32 xla.S32 xla.F32).
Defined.

End ConvertOps.

Section RawMask.

Import xla.primitive_util xla.ShapeUtil.

Context {N : Numerics}.

Lemma eval_CreateRawMask (env : Env) (op : xla.XlaOp)
  (type narrow_type : xla.PrimitiveType) (i : nat) :
  IsIntegralType type = true ->
  IsIntegralType narrow_type = true ->
  ByteSizeOfPrimitiveType narrow_type < ByteSizeOfPrimitiveType type ->
  mask_kinds_agree type = true ->
  eval env (CreateRawMask op type (ByteSizeOfPrimitiveType type)
              (ByteSizeOfPrimitiveType narrow_type)) i
  = Some (VInt type (raw_mask type (ByteSizeOfPrimitiveType narrow_type))).
Proof.
  intros Ht Hn Hlt Hmask.
  destruct type; try discriminate Ht; try discriminate Hmask;
    destruct narrow_type; try discriminate Hn;
    try (exfalso; revert Hlt; cbv; congruence);
    reflexivity.
Qed.

(** The mask of a signed kind other than [S32] shifts a constant of that
    kind by a constant of kind [S32]: an instruction on operands of two
    kinds, which has no value. *)
Lemma CreateRawMask_mixed_kinds (env : Env) (op : xla.XlaOp)
  (type : xla.PrimitiveType) (size narrow_size : Z) (i : nat) :
  IsIntegralType type = true ->
  mask_kinds_agree type = false ->
  kinds_agree (CreateRawMask op type size narrow_size) = false
  /\ eval env (CreateRawMask op type size narrow_size) i = None.
Proof.
  intros Ht Hmask.
  destruct type; try discriminate Ht; try discriminate Hmask;
    split; reflexivity.
Qed.

Lemma CreateRawMask_sign_extends (op : xla.XlaOp) (type : xla.PrimitiveType)
  (size narrow_size : Z) :
  IsSignedIntegralType type = true ->
  CreateRawMask op type size narrow_size
  = xla.ShiftRightArithmetic
      (xla.ShiftLeft
         (XlaHelpers.ScalarValue
            (HostInt (uint64_t (uint64_t (Z.shiftl 1 (narrow_size * CHAR_BIT)) - 1)))
            type)
         (XlaHelpers.ScalarValue (HostInt ((size - narrow_size) * CHAR_BIT)) xla.S32)
         [])
      (XlaHelpers.ScalarValue (HostInt ((size - narrow_size) * CHAR_BIT)) xla.S32)
      [].
Proof.
  intros Hs. unfold CreateRawMask, shift_right. rewrite Hs.
  unfold XlaHelpers.TypeOfXlaOp. cbn. rewrite Hs. reflexivity.
Qed.


Lemma eval_masked (env : Env) (op mask : xla.XlaOp) (type : xla.PrimitiveType)
  (i : nat) (z m : Z) :
  eval env op i = Some (VInt type z) ->
  eval env mask i = Some (VInt type m) ->
  eval env (op & mask)%xla i = Some (VInt type (Z.land z m)).
Proof.
  intros Hop Hmask. cbn [eval xla.And]. unfold xla.And. cbn [eval].
  rewrite Hop, Hmask. cbn. rewrite PrimitiveType_eqb_refl. reflexivity.
Qed.

Lemma ByteSize_nonneg (type : xla.PrimitiveType) :
  0 <= ByteSizeOfPrimitiveType type.
Proof. destruct type; cbn; lia. Qed.


End RawMask.



(** ** The evaluator agrees with shape inference *)

Section EvalType.

Context {N : Numerics}.

Lemma bind_option_Some {A B : Type} (o : option A) (k : A -> option B) (b : B) :
  bind_option o k = Some b -> exists a, o = Some a /\ k a = Some b.
Proof. destruct o as [a|]; cbn; [eauto | discriminate]. Qed.

Lemma cast_host_type (type : xla.PrimitiveType) (value : HostScalar) (v : Value) :
  cast_host type value = Some v -> type_of_value v = type.
Proof.
  unfold cast_host.
  destruct (xla.primitive_util.IsIntegralType type).
  - destruct value as [z | d]; [intros [= <-]; reflexivity|].
    destruct (float_to_int d) as [z|]; [|discriminate].
    destruct (in_rangeb type z); [intros [= <-]; reflexivity | discriminate].
  - destruct (xla.primitive_util.IsFloatingPointType type).
    + destruct value; intros [= <-]; reflexivity.
    + destruct type, value; try discriminate; intros [= <-]; reflexivity.
Qed.

Lemma eval_convert_type (type : xla.PrimitiveType) (a v : Value) :
  eval_convert type a = Some v -> type_of_value v = type.
Proof.
  unfold eval_convert.
  destruct (xla.primitive_util.IsIntegralType type).
  - destruct a as [b | t z | t f]; try (intros [= <-]; reflexivity).
    destruct (float_to_int f) as [z|]; [|discriminate].
    destruct (in_rangeb type z); [intros [= <-]; reflexivity | discriminate].
  - destruct (xla.primitive_util.IsFloatingPointType type).
    + destruct a; intros [= <-]; reflexivity.
    + destruct type, a; try discriminate; intros [= <-]; reflexivity.
Qed.

Lemma eval_binary_type (opcode : xla.BinaryOpcode) (a b v : Value) :
  eval_binary opcode a b = Some v -> type_of_value v = type_of_value a.
Proof.
  unfold eval_binary.
  destruct a as [x | ta x | ta x], b as [y | tb y | tb y]; try discriminate.
  - destruct opcode; try discriminate; intros [= <-]; reflexivity.
  - destruct (xla.PrimitiveType_eqb ta tb); [|discriminate].
    destruct (if is_shift opcode then eval_shift opcode ta x y
              else eval_int_binary opcode ta x y);
      [intros [= <-]; reflexivity | discriminate].
  - destruct (xla.PrimitiveType_eqb ta tb); [|discriminate].
    destruct (eval_float_binary opcode ta x y);
      [intros [= <-]; reflexivity | discriminate].
Qed.

Lemma eval_binary_opcode (opcode : xla.BinaryOpcode) (a b v : Value) :
  eval_binary opcode a b = Some v -> opcode <> xla.kComplex.
Proof.
  intros E ->. unfold eval_binary in E.
  destruct a, b; try discriminate E; cbn in E;
    destruct (xla.PrimitiveType_eqb _ _) in E; discriminate E.
Qed.

Lemma eval_compare_type (direction : xla.ComparisonDirection) (a b v : Value) :
  eval_compare direction a b = Some v -> type_of_value v = xla.PRED.
Proof.
  unfold eval_compare.
  destruct a, b; try discriminate;
    try (destruct (xla.PrimitiveType_eqb _ _); [|discriminate]);
    intros [= <-]; reflexivity.
Qed.

Lemma eval_unary_type (opcode : xla.UnaryOpcode) (a v : Value) :
  eval_unary opcode a = Some v ->
  match opcode with
  | xla.kReal | xla.kImag => False
  | xla.kIsFinite => type_of_value v = xla.PRED
  | _ => type_of_value v = type_of_value a
  end.
Proof.
  destruct opcode, a; cbn; try discriminate; intros [= <-]; reflexivity.
Qed.

Lemma eval_select_type (p a b v : Value) :
  eval_select p a b = Some v -> type_of_value v = type_of_value a.
Proof.
  unfold eval_select. destruct p as [c | |]; try discriminate.
  destruct (xla.PrimitiveType_eqb (type_of_value a) (type_of_value b)) eqn:E;
    [|discriminate].
  apply PrimitiveType_eqb_eq in E.
  destruct c; intros [= <-]; congruence.
Qed.

(** The kind of an element the evaluator computes is the kind shape
    inference gives the instruction. *)
Lemma eval_type (env : Env) (op : xla.XlaOp) :
  forall (i : nat) (v : Value),
    eval env op i = Some v -> type_of_value v = XlaHelpers.TypeOfXlaOp op.
Proof.
  unfold XlaHelpers.TypeOfXlaOp.
  induction op as [number shape | type value | operand IH type
                  | operand IH sizes | opcode operand IH
                  | opcode lhs IHl rhs IHr dims | direction lhs IHl rhs IHr dims
                  | pred IHp on_true IHt on_false IHf
                  | min IHmin operand IHop max IHmax
                  | seed IHs shape minval IHlo maxval IHhi];
    intros i v E; cbn [eval] in E.
  - destruct (xla.PrimitiveType_eqb _ _) eqn:Ek in E; [|discriminate].
    apply PrimitiveType_eqb_eq in Ek. injection E as <-. exact Ek.
  - apply cast_host_type in E. exact E.
  - apply bind_option_Some in E as (a & _ & E).
    apply eval_convert_type in E. exact E.
  - apply IH in E. exact E.
  - apply bind_option_Some in E as (a & Ea & E).
    apply IH in Ea. apply eval_unary_type in E.
    destruct opcode; cbn; try congruence; contradiction.
  - apply bind_option_Some in E as (a & Ea & E).
    apply bind_option_Some in E as (b & Eb & E).
    apply IHl in Ea. pose proof (eval_binary_opcode _ _ _ _ E) as Hop.
    apply eval_binary_type in E.
    destruct opcode; cbn; congruence.
  - apply bind_option_Some in E as (a & Ea & E).
    apply bind_option_Some in E as (b & Eb & E).
    apply eval_compare_type in E. exact E.
  - apply bind_option_Some in E as (p & Ep & E).
    apply bind_option_Some in E as (a & Ea & E).
    apply bind_option_Some in E as (b & Eb & E).
    apply IHt in Ea. apply eval_select_type in E. cbn. congruence.
  - apply bind_option_Some in E as (lo & Elo & E).
    apply bind_option_Some in E as (x & Ex & E).
    apply bind_option_Some in E as (hi & Ehi & E).
    apply bind_option_Some in E as (y & Ey & E).
    apply IHop in Ex. apply eval_binary_type in Ey, E. cbn. congruence.
  - apply bind_option_Some in E as (s & Es & E).
    apply bind_option_Some in E as (lo & Elo & E).
    apply bind_option_Some in E as (hi & Ehi & E).
    destruct lo as [| |tl l]; try discriminate E.
    destruct hi as [| |th h]; try discriminate E.
    destruct (xla.PrimitiveType_eqb tl (xla.element_type shape)) eqn:Ek;
      [|discriminate E].
    destruct (xla.PrimitiveType_eqb th (xla.element_type shape));
      [|discriminate E].
    apply PrimitiveType_eqb_eq in Ek. injection E as <-. exact Ek.
Qed.

End EvalType.

(** ** elementwise.cpp *)

Section Dispatch.

Context {C : Collaborators}.

Lemma BuildComparisonOp_tags (lhs rhs : xla.XlaOp) :
  let lhs' := fst (Promote lhs rhs) in
  let rhs' := snd (Promote lhs rhs) in
  let dims := getBroadcastDimensions lhs' rhs' in
  BuildComparisonOp aten.ne lhs rhs = Ok (xla.Ne lhs' rhs' dims)
  /\ BuildComparisonOp aten.eq lhs rhs = Ok (xla.Eq lhs' rhs' dims)
  /\ BuildComparisonOp aten.ge lhs rhs = Ok (xla.Ge lhs' rhs' dims)
  /\ BuildComparisonOp aten.le lhs rhs = Ok (xla.Le lhs' rhs' dims)
  /\ BuildComparisonOp aten.gt lhs rhs = Ok (xla.Gt lhs' rhs' dims)
  /\ BuildComparisonOp aten.lt lhs rhs = Ok (xla.Lt lhs' rhs' dims).
Proof.
  cbv zeta. unfold BuildComparisonOp.
  destruct (Promote lhs rhs) as [l r]. cbn [fst snd].
  repeat split.
Qed.

(** C6: [BuildComparisonOp] promotes its two operands and, for each of the
    six comparison tags, returns the matching comparison instruction on
    the promoted operands with their broadcast dimensions; for any other
    tag it aborts with "Invalid comparison operator kind" and returns no
    value. *)
Theorem BuildComparisonOp_dispatch (kind : c10.Symbol) (lhs rhs : xla.XlaOp) :
  let lhs' := fst (Promote lhs rhs) in
  let rhs' := snd (Promote lhs rhs) in
  let dims := getBroadcastDimensions lhs' rhs' in
  BuildComparisonOp aten.ne lhs rhs = Ok (xla.Ne lhs' rhs' dims)
  /\ BuildComparisonOp aten.eq lhs rhs = Ok (xla.Eq lhs' rhs' dims)
  /\ BuildComparisonOp aten.ge lhs rhs = Ok (xla.Ge lhs' rhs' dims)
  /\ BuildComparisonOp aten.le lhs rhs = Ok (xla.Le lhs' rhs' dims)
  /\ BuildComparisonOp aten.gt lhs rhs = Ok (xla.Gt lhs' rhs' dims)
  /\ BuildComparisonOp aten.lt lhs rhs = Ok (xla.Lt lhs' rhs' dims)
  /\ (~ In kind [aten.ne; aten.eq; aten.ge; aten.le; aten.gt; aten.lt] ->
      BuildComparisonOp kind lhs rhs
      = Fatal ("Invalid comparison operator kind: " ++ c10.toQualString kind)%string
      /\ returns (BuildComparisonOp kind lhs rhs) = false).
Proof.
  cbv zeta.
  destruct (BuildComparisonOp_tags lhs rhs) as (Hne & Heq & Hge & Hle & Hgt & Hlt).
  repeat (split; [assumption|]).
  intros Hother. unfold BuildComparisonOp.
  destruct (Promote lhs rhs) as [l r].
  assert (Hno : forall tag,
             In tag [aten.ne; aten.eq; aten.ge; aten.le; aten.gt; aten.lt] ->
             String.eqb kind tag = false).
  { intros tag Hin. apply String.eqb_neq. intros ->. exact (Hother Hin). }
  rewrite !Hno by (cbn; tauto). split; reflexivity.
Qed.

(** C10: on an input of an unsigned integral kind [BuildAbs] returns the
    input itself, with no instruction more; on an input of any other kind
    it returns the absolute-value instruction applied to the input. *)
Theorem BuildAbs_unsigned_identity (input : xla.XlaOp) :
  (xla.primitive_util.IsUnsignedIntegralType (XlaHelpers.TypeOfXlaOp input)
   = true ->
   BuildAbs input = input
   /\ instruction_count (BuildAbs input) = instruction_count input)
  /\ (xla.primitive_util.IsUnsignedIntegralType (XlaHelpers.TypeOfXlaOp input)
      = false ->
      BuildAbs input = xla.Abs input).
Proof.
  unfold BuildAbs, XlaHelpers.TypeOfXlaOp.
  split; intros ->; [split|]; reflexivity.
Qed.

Lemma BuildAbs_witness :
  BuildAbs (xla.GraphInput 0 (xla.MakeShape xla.U8 [2%nat]))
  = xla.GraphInput 0 (xla.MakeShape xla.U8 [2%nat])
  /\ BuildAbs (xla.GraphInput 0 (xla.MakeShape xla.S32 [2%nat]))
     = xla.Abs (xla.GraphInput 0 (xla.MakeShape xla.S32 [2%nat])).
Proof.
  split.
  - apply (BuildAbs_unsigned_identity
             (xla.GraphInput 0 (xla.MakeShape xla.U8 [2%nat]))).
    reflexivity.
  - apply (BuildAbs_unsigned_identity
             (xla.GraphInput 0 (xla.MakeShape xla.S32 [2%nat]))).
    reflexivity.
Defined.

End Dispatch.

Lemma BuildComparisonOp_dispatch_witness :
  BuildComparisonOp (C := reference_collaborators) "aten::add"%string
    (xla.GraphInput 0 (xla.MakeShape xla.F32 [2%nat]))
    (xla.GraphInput 1 (xla.MakeShape xla.F32 [2%nat]))
  = Fatal "Invalid comparison operator kind: aten::add".
Proof.
  apply (BuildComparisonOp_dispatch (C := reference_collaborators) "aten::add"%string
           (xla.GraphInput 0 (xla.MakeShape xla.F32 [2%nat]))
           (xla.GraphInput 1 (xla.MakeShape xla.F32 [2%nat]))).
  cbn. intros [E | [E | [E | [E | [E | [E | []]]]]]]; discriminate E.
Defined.

Section Piecewise.

Context {C : Collaborators} {N : Numerics}.

Lemma floating_not_integral (type : xla.PrimitiveType) :
  xla.primitive_util.IsFloatingPointType type = true ->
  xla.primitive_util.IsIntegralType type = false
  /\ xla.primitive_util.IsUnsignedIntegralType type = false
  /\ xla.PrimitiveType_eqb type xla.PRED = false.
Proof. destruct type; try discriminate; repeat split. Qed.

Lemma cast_host_float (type : xla.PrimitiveType) (value : HostScalar) :
  xla.primitive_util.IsFloatingPointType type = true ->
  cast_host type value = Some (VFloat type (float_of_host type value)).
Proof.
  intros Hf. unfold cast_host.
  destruct (floating_not_integral type Hf) as (-> & _). rewrite Hf.
  destruct value; reflexivity.
Qed.

Lemma eval_ScalarValue_float (env : Env) (type : xla.PrimitiveType)
  (value : spec_float) (i : nat) :
  xla.primitive_util.IsFloatingPointType type = true ->
  eval env (ScalarValue_float value type) i
  = Some (VFloat type (float_literal type value)).
Proof. intros Hf. cbn. rewrite cast_host_float by assumption. reflexivity. Qed.

Lemma eval_Zero_float (env : Env) (type : xla.PrimitiveType) (i : nat) :
  xla.primitive_util.IsFloatingPointType type = true ->
  eval env (xla.Zero type) i = Some (VFloat type (S754_zero false)).
Proof. intros Hf. cbn. rewrite cast_host_float by assumption. reflexivity. Qed.

Lemma eval_compare_float (direction : xla.ComparisonDirection)
  (type : xla.PrimitiveType) (a b : spec_float) :
  eval_compare direction (VFloat type a) (VFloat type b)
  = Some (VPred (float_cmp direction a b)).
Proof. cbn. rewrite PrimitiveType_eqb_refl. reflexivity. Qed.

Lemma eval_float_arith (opcode : xla.BinaryOpcode) (type : xla.PrimitiveType)
  (a b : spec_float) :
  eval_binary opcode (VFloat type a) (VFloat type b)
  = option_map (VFloat type) (eval_float_binary opcode type a b).
Proof. cbn. rewrite PrimitiveType_eqb_refl. reflexivity. Qed.

Lemma eval_select_float (c : bool) (type : xla.PrimitiveType) (a b : spec_float) :
  eval_select (VPred c) (VFloat type a) (VFloat type b)
  = Some (VFloat type (if c then a else b)).
Proof. cbn. rewrite PrimitiveType_eqb_refl. destruct c; reflexivity. Qed.

(** The membership test of [Between] on a float element: both bounds are
    included. *)
Lemma eval_Between (env : Env) (input : xla.XlaOp) (min_val max_val : HostScalar)
  (type : xla.PrimitiveType) (x : spec_float) (i : nat) :
  Promote_keeps_elements ->
  xla.primitive_util.IsFloatingPointType type = true ->
  eval env input i = Some (VFloat type x) ->
  exists check_low check_high,
    Between input min_val max_val = Ok (xla.And check_low check_high [])
    /\ check_low
       = (let p := Promote input (XlaHelpers.ScalarValue min_val type) in
          xla.Ge (fst p) (snd p) (getBroadcastDimensions (fst p) (snd p)))
    /\ check_high
       = (let p := Promote input (XlaHelpers.ScalarValue max_val type) in
          xla.Le (fst p) (snd p) (getBroadcastDimensions (fst p) (snd p)))
    /\ eval env (xla.And check_low check_high []) i
       = Some (VPred (float_cmp xla.kGe x (float_of_host type min_val)
                      && float_cmp xla.kLe x (float_of_host type max_val))).
Proof.
  intros Hpromote Hf Hin.
  pose proof (eval_type env input i _ Hin) as Htype. cbn in Htype.
  unfold Between.
  change (xla.element_type (ShapeHelper.ShapeOfXlaOp input))
    with (XlaHelpers.TypeOfXlaOp input).
  rewrite <- Htype.
  destruct (BuildComparisonOp_tags input
              (XlaHelpers.ScalarValue min_val type)) as (_ & _ & -> & _).
  destruct (BuildComparisonOp_tags input
              (XlaHelpers.ScalarValue max_val type)) as (_ & _ & _ & -> & _).
  cbn [bind].
  do 2 eexists. split; [reflexivity|]. split; [reflexivity|].
  split; [reflexivity|].
  destruct (Hpromote input (XlaHelpers.ScalarValue min_val type)
              (eq_sym Htype) env i) as (El1 & Er1).
  destruct (Hpromote input (XlaHelpers.ScalarValue max_val type)
              (eq_sym Htype) env i) as (El2 & Er2).
  cbv zeta. unfold xla.And, xla.Ge, xla.Le. cbn [eval].
  rewrite El1, Er1, El2, Er2, Hin.
  unfold XlaHelpers.ScalarValue. cbn [eval bind_option].
  rewrite !cast_host_float by assumption. cbn [bind_option].
  rewrite !eval_compare_float. reflexivity.
Qed.

End Piecewise.

(** Evaluation of float instructions on known operands. *)
Ltac float_steps :=
  repeat (progress
            (rewrite ?eval_float_arith, ?eval_select_float,
               ?eval_compare_float;
             cbn [eval_float_binary option_map bind_option])).

Section HardSwish.

Context {C : Collaborators} {N : Numerics}.

(** C3, as the code has it: [BuildHardSwishBackward] selects the unmodified
    [grad_output] where [input >= 3], a non-strict comparison, and the
    membership test of its middle branch is the one of [Between], which is
    non-strict at both bounds as well: [input >= -3] and [input <= 3].  On
    a float element [x] with gradient [g] the result is [g] where
    [x >= 3], else [g * (0.5 + x / 3)] where [-3 <= x <= 3], else [0];
    the bounds -3 and 3 themselves pass the membership test. *)
Theorem BuildHardSwishBackward_boundaries (env : Env)
  (grad_output input : xla.XlaOp) (type : xla.PrimitiveType)
  (g x : spec_float) (i : nat) :
  Promote_keeps_elements ->
  xla.primitive_util.IsFloatingPointType type = true ->
  eval env grad_output i = Some (VFloat type g) ->
  eval env input i = Some (VFloat type x) ->
  let three := float_literal type (binary64 3 0) in
  let pointfive := float_literal type (binary64 1 (-1)) in
  let low := float_of_host type (HostReal (binary64 (-3) 0)) in
  let high := float_of_host type (HostReal (binary64 3 0)) in
  let member := float_cmp xla.kGe x low && float_cmp xla.kLe x high in
  exists check_low check_high,
    Between input (HostReal (binary64 (-3) 0)) (HostReal (binary64 3 0))
    = Ok (xla.And check_low check_high [])
    /\ check_low
       = (let p := Promote input
                     (XlaHelpers.ScalarValue (HostReal (binary64 (-3) 0)) type) in
          xla.Ge (fst p) (snd p) (getBroadcastDimensions (fst p) (snd p)))
    /\ check_high
       = (let p := Promote input
                     (XlaHelpers.ScalarValue (HostReal (binary64 3 0)) type) in
          xla.Le (fst p) (snd p) (getBroadcastDimensions (fst p) (snd p)))
    /\ eval env (xla.And check_low check_high []) i = Some (VPred member)
    /\ BuildHardSwishBackward grad_output input
       = Ok (xla.Select
               (xla.Ge input (ScalarValue_float (binary64 3 0) type) [])
               grad_output
               (xla.Select (xla.And check_low check_high [])
                  (xla.Mul grad_output
                     (ScalarValue_float (binary64 1 (-1)) type
                      + input / ScalarValue_float (binary64 3 0) type)%xla [])
                  (xla.Zero type)))
    /\ eval_result env (BuildHardSwishBackward grad_output input) i
       = Some (VFloat type
                 (if float_cmp xla.kGe x three then g
                  else if member
                       then SFmul (prec_of type) (emax_of type) g
                              (SFadd (prec_of type) (emax_of type) pointfive
                                 (SFdiv (prec_of type) (emax_of type) x three))
                       else S754_zero false))
    /\ float_cmp xla.kGe low low = true
    /\ float_cmp xla.kLe low high = true
    /\ float_cmp xla.kGe high low = true
    /\ float_cmp xla.kLe high high = true
    /\ float_cmp xla.kGe high three = true.
Proof.
  intros Hpromote Hf Hg Hx. cbv zeta.
  destruct (eval_Between env input (HostReal (binary64 (-3) 0))
              (HostReal (binary64 3 0)) type x i Hpromote Hf Hx)
    as (check_low & check_high & Hbetween & Hlow & Hhigh & Hmember).
  pose proof (eval_type env input i _ Hx) as Htype. cbn in Htype.
  exists check_low, check_high.
  split; [exact Hbetween|]. split; [exact Hlow|]. split; [exact Hhigh|].
  split; [exact Hmember|].
  assert (Hbuild :
    BuildHardSwishBackward grad_output input
    = Ok (xla.Select
            (xla.Ge input (ScalarValue_float (binary64 3 0) type) [])
            grad_output
            (xla.Select (xla.And check_low check_high [])
               (xla.Mul grad_output
                  (ScalarValue_float (binary64 1 (-1)) type
                   + input / ScalarValue_float (binary64 3 0) type)%xla [])
               (xla.Zero type)))).
  { unfold BuildHardSwishBackward. rewrite Hbetween. cbn [bind].
    change (xla.element_type (ShapeHelper.ShapeOfXlaOp input))
      with (XlaHelpers.TypeOfXlaOp input).
    rewrite <- Htype. reflexivity. }
  split; [exact Hbuild|].
  split.
  - rewrite Hbuild. cbn [eval_result].
    unfold xla.Ge, xla.Mul, xla.Add, xla.Div.
    cbn [eval].
    fold (xla.And check_low check_high []). rewrite Hmember.
    rewrite Hx, Hg.
    rewrite !eval_ScalarValue_float, eval_Zero_float by assumption.
    cbn [bind_option].
    float_steps. reflexivity.
  - destruct type; try discriminate Hf; repeat split.
Qed.

End HardSwish.

Lemma PromoteType_same (type : xla.PrimitiveType) : PromoteType type type = type.
Proof. unfold PromoteType. rewrite !Z.ltb_irrefl. reflexivity. Qed.

Lemma reference_Promote_keeps_elements (N : Numerics) :
  Promote_keeps_elements (C := reference_collaborators) (N := N).
Proof.
  intros lhs rhs Hkind env i. cbn. unfold PromoteValues, ConvertTo.
  rewrite Hkind, PromoteType_same, PrimitiveType_eqb_refl. split; reflexivity.
Qed.

Lemma BuildHardSwishBackward_boundaries_witness :
  eval_result (N := reference_numerics) hardswish_env
    (BuildHardSwishBackward (C := reference_collaborators)
       (xla.GraphInput 1 (xla.MakeShape xla.F32 [2%nat]))
       (xla.GraphInput 0 (xla.MakeShape xla.F32 [2%nat]))) 0
  = Some (VFloat xla.F32 (SFopp (binary32 1 (-1)))).
Proof.
  destruct (BuildHardSwishBackward_boundaries
              (C := reference_collaborators) (N := reference_numerics)
              hardswish_env
              (xla.GraphInput 1 (xla.MakeShape xla.F32 [2%nat]))
              (xla.GraphInput 0 (xla.MakeShape xla.F32 [2%nat]))
              xla.F32 (binary32 1 0) (binary32 (-3) 0) 0)
    as (check_low & check_high & _ & _ & _ & _ & _ & Hvalue & _).
  - apply reference_Promote_keeps_elements.
  - reflexivity.
  - reflexivity.
  - reflexivity.
  - exact Hvalue.
Defined.

(** C3, as the claim states it, fails on its second half: the membership
    test of the middle branch is not strict.  It is built from the
    comparisons [Ge] and [Le], holds at the bounds -3 and 3 themselves,
    and at [input = -3] with gradient 1 the formula yields
    [1 * (0.5 + (-3) / 3) = -0.5], where a strict test would yield 0. *)
Lemma Between_includes_its_bounds :
  Between (C := reference_collaborators)
    (xla.GraphInput 0 (xla.MakeShape xla.F32 [2%nat]))
    (HostReal (binary64 (-3) 0)) (HostReal (binary64 3 0))
  = Ok (xla.And
          (xla.Ge (xla.GraphInput 0 (xla.MakeShape xla.F32 [2%nat]))
             (XlaHelpers.ScalarValue (HostReal (binary64 (-3) 0)) xla.F32) [])
          (xla.Le (xla.GraphInput 0 (xla.MakeShape xla.F32 [2%nat]))
             (XlaHelpers.ScalarValue (HostReal (binary64 3 0)) xla.F32) [])
          [])
  /\ map (eval_result (N := reference_numerics) hardswish_env
            (Between (C := reference_collaborators)
               (xla.GraphInput 0 (xla.MakeShape xla.F32 [2%nat]))
               (HostReal (binary64 (-3) 0)) (HostReal (binary64 3 0))))
       [0; 1]%nat
     = [Some (VPred true); Some (VPred true)]
  /\ map (eval_result (N := reference_numerics) hardswish_env
            (BuildHardSwishBackward (C := reference_collaborators)
               (xla.GraphInput 1 (xla.MakeShape xla.F32 [2%nat]))
               (xla.GraphInput 0 (xla.MakeShape xla.F32 [2%nat]))))
       [0; 1]%nat
     = [Some (VFloat xla.F32 (SFopp (binary32 1 (-1))));
        Some (VFloat xla.F32 (binary32 1 0))].
Proof. repeat split. Qed.

Lemma reference_Promote_common_kind :
  Promote_common_kind (C := reference_collaborators).
Proof.
  intros lhs rhs Hl Hr. cbn. unfold PromoteValues, ConvertTo.
  set (k := PromoteType _ _).
  destruct (xla.PrimitiveType_eqb (XlaHelpers.TypeOfXlaOp lhs) k) eqn:El,
           (xla.PrimitiveType_eqb (XlaHelpers.TypeOfXlaOp rhs) k) eqn:Er;
    rewrite ?PrimitiveType_eqb_eq in *; cbn; repeat split;
    try assumption; congruence.
Qed.

Section MembershipUsers.

Context {C : Collaborators} {N : Numerics}.

(** The other two users of [Between] select on the same inclusive
    membership test. *)
Lemma eval_BuildHardSigmoidBackward (env : Env) (grad_output input : xla.XlaOp)
  (type : xla.PrimitiveType) (g x : spec_float) (i : nat) :
  Promote_keeps_elements ->
  xla.primitive_util.IsFloatingPointType type = true ->
  eval env grad_output i = Some (VFloat type g) ->
  eval env input i = Some (VFloat type x) ->
  eval_result env (BuildHardSigmoidBackward grad_output input) i
  = Some (VFloat type
            (if float_cmp xla.kGe x
                  (float_of_host type (HostReal (binary64 (-3) 0)))
                && float_cmp xla.kLe x
                     (float_of_host type (HostReal (binary64 3 0)))
             then SFdiv (prec_of type) (emax_of type) g
                    (float_literal type (binary64 6 0))
             else S754_zero false)).
Proof.
  intros Hpromote Hf Hg Hx.
  destruct (eval_Between env input (HostReal (binary64 (-3) 0))
              (HostReal (binary64 3 0)) type x i Hpromote Hf Hx)
    as (check_low & check_high & Hbetween & _ & _ & Hmember).
  pose proof (eval_type env input i _ Hx) as Htype. cbn in Htype.
  unfold BuildHardSigmoidBackward. rewrite Hbetween. cbn [bind eval_result].
  change (xla.element_type (ShapeHelper.ShapeOfXlaOp input))
    with (XlaHelpers.TypeOfXlaOp input).
  rewrite <- Htype. unfold xla.Div. cbn [eval] in *.
  rewrite Hmember, Hg.
  rewrite eval_ScalarValue_float, eval_Zero_float by assumption.
  float_steps. reflexivity.
Qed.

Lemma eval_BuildHardtanhBackward (env : Env) (grad_output input : xla.XlaOp)
  (min_val max_val : HostScalar) (type : xla.PrimitiveType)
  (g x : spec_float) (i : nat) :
  Promote_keeps_elements ->
  xla.primitive_util.IsFloatingPointType type = true ->
  eval env grad_output i = Some (VFloat type g) ->
  eval env input i = Some (VFloat type x) ->
  eval_result env (BuildHardtanhBackward grad_output input min_val max_val) i
  = Some (VFloat type
            (if float_cmp xla.kGe x (float_of_host type min_val)
                && float_cmp xla.kLe x (float_of_host type max_val)
             then g
             else S754_zero false)).
Proof.
  intros Hpromote Hf Hg Hx.
  destruct (eval_Between env input min_val max_val type x i Hpromote Hf Hx)
    as (check_low & check_high & Hbetween & _ & _ & Hmember).
  pose proof (eval_type env grad_output i _ Hg) as Htype. cbn in Htype.
  unfold BuildHardtanhBackward. rewrite Hbetween. cbn [bind eval_result].
  change (xla.element_type (ShapeHelper.ShapeOfXlaOp grad_output))
    with (XlaHelpers.TypeOfXlaOp grad_output).
  rewrite <- Htype. cbn [eval] in *.
  rewrite Hmember, Hg, eval_Zero_float by assumption.
  float_steps. reflexivity.
Qed.

End MembershipUsers.

(** ** Order of floats *)

Lemma SFcompare_antisym (a b : spec_float) :
  SFcompare b a = option_map CompOpp (SFcompare a b).
Proof.
  destruct a as [sa | sa | | sa ma ea], b as [sb | sb | | sb mb eb];
    try reflexivity; try (destruct sa; reflexivity);
    try (destruct sb; reflexivity);
    try (destruct sa, sb; reflexivity).
  cbn. destruct sa, sb; try reflexivity;
    rewrite (Z.compare_antisym ea eb);
    destruct (ea ?= eb); cbn; try reflexivity;
    rewrite ?Pos.compare_cont_antisym; reflexivity.
Qed.

Lemma SFcompare_refl (a : spec_float) :
  SFcompare a a = if is_nan a then None else Some Eq.
Proof.
  destruct a as [s | s | | s m e]; try reflexivity;
    try (destruct s; reflexivity).
  cbn. rewrite Z.compare_refl, Pos.compare_cont_refl. destruct s; reflexivity.
Qed.

(** A float differs from itself exactly when it is a NaN. *)
Lemma float_cmp_ne_self (a : spec_float) : float_cmp xla.kNe a a = is_nan a.
Proof.
  unfold float_cmp. rewrite SFcompare_refl. destruct a; reflexivity.
Qed.

Lemma float_max_zero (x : spec_float) :
  float_cmp xla.kGe x (S754_zero false) = true ->
  float_max (S754_zero false) x = if is_zero x then S754_zero false else x.
Proof.
  destruct x as [s | s | | s m e]; cbn; try discriminate;
    destruct s; cbn; try discriminate; reflexivity.
Qed.

Lemma float_min_below (y bound : spec_float) :
  float_cmp xla.kLe y bound = true ->
  float_min y bound = y.
Proof.
  unfold float_cmp, float_min, SFltb. rewrite (SFcompare_antisym y bound).
  destruct (SFcompare y bound) as [[]|] eqn:E; cbn; try discriminate;
    intros _;
    destruct y, bound; cbn in *; try discriminate; reflexivity.
Qed.

Section Logit.

Context {C : Collaborators} {N : Numerics}.

(** C5, as the code has it: on a float element [x], [BuildLogit] yields
    NaN where [x < 0] or [x > 1], and at every other element, a NaN
    element included, [log (c / (1 - c))], where [c] is the greater of
    [eps] and [x] cut to at most [1 - eps] ([eps] being 0 when none is
    supplied, which leaves an [x] of [[0, 1]] as it is, a negative zero
    becoming a positive one).  That logarithm is itself a NaN, with a
    logarithm that is a NaN outside its domain, where the element is a
    NaN and where the quotient is below 0: the NaN results are not
    exactly those of the inputs outside [[0, 1]].  The lowering is a
    total function: it has no fatal check, and the graph it returns has a
    value at every position. *)
Theorem BuildLogit_nan_outside_unit_interval (env : Env) (input : xla.XlaOp)
  (eps : option spec_float) (type : xla.PrimitiveType) (x : spec_float)
  (i : nat) :
  xla.primitive_util.IsFloatingPointType type = true ->
  eval env input i = Some (VFloat type x) ->
  let zero := S754_zero false in
  let one := float_literal type (binary64 1 0) in
  let e := match eps with
           | Some value => float_literal type value
           | None => zero
           end in
  let sub := SFsub (prec_of type) (emax_of type) in
  let clamped := float_min (float_max e x) (sub one e) in
  let quotient := SFdiv (prec_of type) (emax_of type) clamped (sub one clamped) in
  let invalid := float_cmp xla.kLt x zero || float_cmp xla.kGt x one in
  eval env (BuildLogit input eps) i
  = Some (VFloat type
            (if invalid then S754_nan
             else transcendental xla.kLog type quotient))
  /\ (eps = None ->
      float_cmp xla.kGe x zero = true ->
      float_cmp xla.kLe x one = true ->
      invalid = false
      /\ clamped = if is_zero x then zero else x)
  /\ (log_of_invalid_is_nan ->
      (is_nan x = true ->
       invalid = false
       /\ eval env (BuildLogit input eps) i = Some (VFloat type S754_nan))
      /\ (float_cmp xla.kLt quotient zero = true ->
          eval env (BuildLogit input eps) i = Some (VFloat type S754_nan))).
Proof.
  intros Hf Hx. cbv zeta.
  pose proof (eval_type env input i _ Hx) as Htype. cbn in Htype.
  assert (Heval :
    eval env (BuildLogit input eps) i
    = Some (VFloat type
              (if float_cmp xla.kLt x (S754_zero false)
                  || float_cmp xla.kGt x (float_literal type (binary64 1 0))
               then S754_nan
               else transcendental xla.kLog type
                      (SFdiv (prec_of type) (emax_of type)
                         (float_min
                            (float_max
                               match eps with
                               | Some value => float_literal type value
                               | None => S754_zero false
                               end x)
                            (SFsub (prec_of type) (emax_of type)
                               (float_literal type (binary64 1 0))
                               match eps with
                               | Some value => float_literal type value
                               | None => S754_zero false
                               end))
                         (SFsub (prec_of type) (emax_of type)
                            (float_literal type (binary64 1 0))
                            (float_min
                               (float_max
                                  match eps with
                                  | Some value => float_literal type value
                                  | None => S754_zero false
                                  end x)
                               (SFsub (prec_of type) (emax_of type)
                                  (float_literal type (binary64 1 0))
                                  match eps with
                                  | Some value => float_literal type value
                                  | None => S754_zero false
                                  end))))))).
  { unfold BuildLogit.
    change (xla.element_type (ShapeHelper.ShapeOfXlaOp input))
      with (XlaHelpers.TypeOfXlaOp input).
    rewrite <- Htype.
    assert (Heps : eval env
                     match eps with
                     | Some value => ScalarValue_float value type
                     | None => xla.Zero type
                     end i
                   = Some (VFloat type
                             match eps with
                             | Some value => float_literal type value
                             | None => S754_zero false
                             end)).
    { destruct eps; [apply eval_ScalarValue_float | apply eval_Zero_float];
        assumption. }
    unfold xla.Or, xla.Lt, xla.Gt, xla.Log, xla.Div, xla.Sub, xla.NanValue.
    cbn [eval]. rewrite Hx, Heps.
    rewrite !eval_ScalarValue_float, !eval_Zero_float by assumption.
    rewrite cast_host_float by assumption.
    float_steps. cbn [eval_binary eval_unary bind_option].
    float_steps. reflexivity. }
  split; [exact Heval|]. split.
  - intros -> Hge Hle.
    assert (Hone : SFsub (prec_of type) (emax_of type)
                     (float_literal type (binary64 1 0)) (S754_zero false)
                   = float_literal type (binary64 1 0))
      by (destruct type; try discriminate Hf; reflexivity).
    rewrite Hone, (float_max_zero x Hge).
    split.
    + unfold float_cmp in *.
      destruct (SFcompare x (S754_zero false)) as [[]|],
               (SFcompare x (float_literal type (binary64 1 0))) as [[]|];
        cbn in *; try discriminate; reflexivity.
    + apply float_min_below.
      destruct (is_zero x) eqn:Ez; [|exact Hle].
      destruct type; try discriminate Hf; reflexivity.
  - intros Hlog. split.
    + intros Hnan. destruct x; try discriminate Hnan.
      split; [reflexivity|].
      rewrite Heval. cbn [float_cmp SFcompare compare_of orb].
      rewrite Hlog; [reflexivity|]. left.
      unfold float_max, float_min. cbn [is_nan].
      rewrite orb_true_r. reflexivity.
    + intros Hneg. rewrite Heval.
      destruct (float_cmp xla.kLt x (S754_zero false)
                || float_cmp xla.kGt x (float_literal type (binary64 1 0)));
        [reflexivity|].
      rewrite Hlog; [reflexivity|]. right. exact Hneg.
Qed.

End Logit.

Lemma BuildLogit_witness :
  eval (N := reference_numerics) logit_env
    (BuildLogit (xla.GraphInput 0 (xla.MakeShape xla.F32 [2%nat]))
       (Some (binary64 1 (-7)))) 0
  = Some (VFloat xla.F32 S754_nan)
  /\ eval (N := reference_numerics) logit_env
       (BuildLogit (xla.GraphInput 0 (xla.MakeShape xla.F32 [2%nat])) None) 1
     = Some (VFloat xla.F32
               (transcendental (Numerics := reference_numerics) xla.kLog xla.F32
                  (SFdiv 24 128 (binary32 1 (-1))
                     (SFsub 24 128 (binary32 1 0) (binary32 1 (-1)))))).
Proof.
  split.
  - exact (proj1 (BuildLogit_nan_outside_unit_interval
                    (N := reference_numerics) logit_env
                    (xla.GraphInput 0 (xla.MakeShape xla.F32 [2%nat]))
                    (Some (binary64 1 (-7))) xla.F32 (binary32 2 0) 0
                    eq_refl eq_refl)).
  - exact (proj1 (BuildLogit_nan_outside_unit_interval
                    (N := reference_numerics) logit_env
                    (xla.GraphInput 0 (xla.MakeShape xla.F32 [2%nat]))
                    None xla.F32 (binary32 1 (-1)) 1
                    eq_refl eq_refl)).
Defined.

Lemma domain_log_of_invalid_is_nan :
  log_of_invalid_is_nan (N := domain_numerics).
Proof.
  intros type f [Hnan | Hneg]; cbn.
  - rewrite Hnan. reflexivity.
  - unfold float_cmp, SFltb in *.
    destruct (SFcompare f (S754_zero false)) as [[]|];
      try discriminate Hneg. rewrite orb_true_r. reflexivity.
Qed.

(** C5, as the claim states it, fails: the NaN results are not exactly
    those of the inputs outside [[0, 1]].  On a backend whose logarithm
    is a NaN outside its domain, the element 1/2, inside [[0, 1]], yields
    a NaN with [eps = 2]: the clamp gives -1 and the logarithm is taken
    of -1/2.  And a NaN element, which is neither below 0 nor above 1, is
    not replaced and yields the logarithm of a NaN. *)
Lemma BuildLogit_nan_inside_unit_interval :
  float_cmp xla.kGe (binary32 1 (-1)) (S754_zero false) = true
  /\ float_cmp xla.kLe (binary32 1 (-1)) (binary32 1 0) = true
  /\ eval (N := domain_numerics) logit_edge_env
       (BuildLogit (xla.GraphInput 0 (xla.MakeShape xla.F32 [2%nat]))
          (Some (binary64 2 0))) 0
     = Some (VFloat xla.F32 S754_nan)
  /\ eval (N := domain_numerics) logit_edge_env
       (xla.Clamp (xla.GraphInput 0 (xla.MakeShape xla.F32 [2%nat]))
          (ScalarValue_float (binary64 2 0) xla.F32)
          (ScalarValue_float (binary64 1 0) xla.F32
           - ScalarValue_float (binary64 2 0) xla.F32)%xla) 0
     = Some (VFloat xla.F32 (SFopp (binary32 1 0)))
  /\ float_cmp xla.kLt S754_nan (S754_zero false) = false
  /\ float_cmp xla.kGt S754_nan (binary32 1 0) = false
  /\ eval (N := domain_numerics) logit_edge_env
       (BuildLogit (xla.GraphInput 0 (xla.MakeShape xla.F32 [2%nat])) None) 1
     = Some (VFloat xla.F32 S754_nan).
Proof. repeat split. Qed.

Section Rrelu.

Context {C : Collaborators} {N : Numerics}.

Lemma BuildLeakyRelu_constant_slope (input : xla.XlaOp) (slope : HostScalar) :
  BuildLeakyRelu input
    (XlaHelpers.ScalarValue slope (XlaHelpers.TypeOfXlaOp input))
  = xla.Select (xla.Gt input (xla.Zero (XlaHelpers.TypeOfXlaOp input)) [])
      input
      (XlaHelpers.ScalarValue slope (XlaHelpers.TypeOfXlaOp input) * input)%xla.
Proof.
  unfold BuildLeakyRelu, BuildLeakyReluBackward, MaybeConvertTo.
  change (xla.element_type (ShapeHelper.ShapeOfXlaOp input))
    with (XlaHelpers.TypeOfXlaOp input).
  change (XlaHelpers.TypeOfXlaOp
            (XlaHelpers.ScalarValue slope (XlaHelpers.TypeOfXlaOp input)))
    with (XlaHelpers.TypeOfXlaOp input).
  rewrite PrimitiveType_eqb_refl. reflexivity.
Qed.

(** C2, as the code has it.  In training mode [BuildRrelu] draws one
    uniform slope between [lower] and [upper] from the seed: the draw is
    of the scalar shape, one number for the whole tensor and not one per
    element.  The noise it returns beside the output is 1 where [x > 0]
    and that one slope at every other position, and the output is
    [x * noise].  So the noise lies within [[lower, upper]] (the bounds
    taken in the kind of the tensor) at the positions where [x > 0] does
    not hold, and is 1 at the others.  In evaluation mode the noise is
    zero everywhere and the output is the leaky ReLU of slope
    [(lower + upper) / 2]: [x] where [x > 0], else [slope * x]. *)
Theorem BuildRrelu_noise_and_output (env : Env) (input rng_seed : xla.XlaOp)
  (lower upper : HostScalar) (type : xla.PrimitiveType) (seed : Value) :
  uniform_draw_in_range ->
  xla.primitive_util.IsFloatingPointType type = true ->
  XlaHelpers.TypeOfXlaOp input = type ->
  eval env rng_seed 0 = Some seed ->
  let low := float_of_host type lower in
  let high := float_of_host type upper in
  let one := int_to_float type 1 in
  let zero := S754_zero false in
  let mean :=
    HostReal (SFdiv 53 1024 (SFadd 53 1024 (to_double lower) (to_double upper))
                (binary64 2 0)) in
  let slope := uniform_draw seed (xla.MakeShape type []) low high 0 in
  (exists output noise,
     BuildRrelu input lower upper true rng_seed = [output; noise]
     /\ noise
        = xla.Select (xla.Gt input (xla.Zero type) []) (xla.One type)
            (RngUniform rng_seed (xla.MakeShape type [])
               (XlaHelpers.ScalarValue lower type)
               (XlaHelpers.ScalarValue upper type))
     /\ output = (input * noise)%xla
     /\ (forall (i : nat) (x : spec_float),
           eval env input i = Some (VFloat type x) ->
           eval env noise i
           = Some (VFloat type
                     (if float_cmp xla.kGt x zero then one else slope))
           /\ eval env output i
              = Some (VFloat type
                        (SFmul (prec_of type) (emax_of type) x
                           (if float_cmp xla.kGt x zero then one else slope))))
     /\ (SFleb low high = true ->
         SFleb low slope = true /\ SFleb slope high = true))
  /\ (exists output noise,
        BuildRrelu input lower upper false rng_seed = [output; noise]
        /\ output = BuildLeakyRelu input (XlaHelpers.ScalarValue mean type)
        /\ (forall (i : nat) (x : spec_float),
              eval env input i = Some (VFloat type x) ->
              eval env noise i = Some (VFloat type zero)
              /\ eval env output i
                 = Some (VFloat type
                           (if float_cmp xla.kGt x zero then x
                            else SFmul (prec_of type) (emax_of type)
                                   (float_of_host type mean) x)))).
Proof.
  intros Hdraw Hf Htype Hseed. cbv zeta.
  unfold BuildRrelu.
  change (xla.element_type (ShapeHelper.ShapeOfXlaOp input))
    with (XlaHelpers.TypeOfXlaOp input).
  rewrite Htype.
  split.
  - do 2 eexists.
    split; [reflexivity|]. split; [reflexivity|]. split; [reflexivity|].
    split.
    + intros i x Hx.
      assert (Hnoise :
        eval env
          (xla.Select (xla.Gt input (xla.Zero type) []) (xla.One type)
             (RngUniform rng_seed (xla.MakeShape type [])
                (XlaHelpers.ScalarValue lower type)
                (XlaHelpers.ScalarValue upper type))) i
        = Some (VFloat type
                  (if float_cmp xla.kGt x (S754_zero false)
                   then int_to_float type 1
                   else uniform_draw seed (xla.MakeShape type [])
                          (float_of_host type lower)
                          (float_of_host type upper) 0))).
      { unfold xla.Gt, RngUniform, XlaHelpers.ScalarValue, xla.One.
        cbn [eval]. rewrite Hx, Hseed, eval_Zero_float by assumption.
        rewrite !cast_host_float by assumption. cbn [bind_option].
        cbn [xla.element_type xla.ShapeUtil.IsScalar xla.dimensions].
        rewrite PrimitiveType_eqb_refl. cbn [andb]. float_steps.
        reflexivity. }
      split; [exact Hnoise|].
      unfold xla.Mul. cbn [eval]. cbn [eval] in Hnoise.
      rewrite Hnoise, Hx. float_steps. reflexivity.
    + intros Horder. apply Hdraw. exact Horder.
  - do 2 eexists. split; [reflexivity|]. split; [reflexivity|].
    intros i x Hx. split.
    + cbn [eval]. apply eval_Zero_float. assumption.
    + rewrite <- Htype, BuildLeakyRelu_constant_slope, Htype.
      unfold xla.Gt, xla.Mul, XlaHelpers.ScalarValue. cbn [eval].
      rewrite Hx, eval_Zero_float, cast_host_float by assumption.
      float_steps. reflexivity.
Qed.

End Rrelu.

(** In training mode the backward pass multiplies the gradient by the
    noise of the forward pass: the 1 the noise holds where the input is
    positive is what passes the gradient through there. *)
Lemma BuildRreluBackward_training (grad_output input noise : xla.XlaOp)
  (lower upper : HostScalar) :
  BuildRreluBackward grad_output input noise lower upper true
  = (noise * grad_output)%xla.
Proof. reflexivity. Qed.


Lemma reference_uniform_draw_in_range :
  uniform_draw_in_range (N := reference_numerics).
Proof.
  intros seed shape minval maxval i Horder. cbn. split; [|exact Horder].
  unfold SFleb in *. rewrite SFcompare_refl.
  destruct minval; try reflexivity. discriminate Horder.
Qed.

Lemma alternating_uniform_draw_in_range :
  uniform_draw_in_range (N := alternating_numerics).
Proof.
  intros seed shape minval maxval i Horder. cbn.
  assert (Hmin : SFleb minval minval = true).
  { unfold SFleb in *. rewrite SFcompare_refl.
    destruct minval; try reflexivity. discriminate Horder. }
  assert (Hmax : SFleb maxval maxval = true).
  { unfold SFleb in *. rewrite SFcompare_refl.
    destruct maxval; try reflexivity.
    destruct minval; discriminate Horder. }
  destruct (Nat.even i); split; assumption.
Qed.

Lemma BuildRrelu_witness :
  (exists output noise,
     BuildRrelu (xla.GraphInput 0 (xla.MakeShape xla.F32 [2%nat]))
       (HostReal (binary64 1 (-3))) (HostReal (binary64 1 (-2))) false
       (xla.Zero xla.S64) = [output; noise]
     /\ eval (N := reference_numerics) rrelu_env noise 1
        = Some (VFloat xla.F32 (S754_zero false))
     /\ eval (N := reference_numerics) rrelu_env output 1
        = Some (VFloat xla.F32 (SFopp (binary32 3 (-3)))))
  /\ (exists output noise,
        BuildRrelu (xla.GraphInput 0 (xla.MakeShape xla.F32 [3%nat]))
          (HostReal (binary64 1 (-3))) (HostReal (binary64 1 (-2))) true
          (xla.Zero xla.S64) = [output; noise]
        /\ eval (N := alternating_numerics) rrelu_draw_env noise 1
           = Some (VFloat xla.F32 (binary32 1 (-3)))
        /\ eval (N := alternating_numerics) rrelu_draw_env output 1
           = Some (VFloat xla.F32 (SFopp (binary32 1 (-2))))).
Proof.
  split.
  - destruct (BuildRrelu_noise_and_output (N := reference_numerics) rrelu_env
                (xla.GraphInput 0 (xla.MakeShape xla.F32 [2%nat]))
                (xla.Zero xla.S64)
                (HostReal (binary64 1 (-3))) (HostReal (binary64 1 (-2)))
                xla.F32 (VInt xla.S64 0))
      as (_ & output & noise & Hbuild & _ & Heval).
    + apply reference_uniform_draw_in_range.
    + reflexivity.
    + reflexivity.
    + reflexivity.
    + exists output, noise. split; [exact Hbuild|].
      exact (Heval 1%nat (binary32 (-2) 0) eq_refl).
  - destruct (BuildRrelu_noise_and_output (N := alternating_numerics)
                rrelu_draw_env
                (xla.GraphInput 0 (xla.MakeShape xla.F32 [3%nat]))
                (xla.Zero xla.S64)
                (HostReal (binary64 1 (-3))) (HostReal (binary64 1 (-2)))
                xla.F32 (VInt xla.S64 0))
      as ((output & noise & Hbuild & _ & _ & Heval & _) & _).
    + apply alternating_uniform_draw_in_range.
    + reflexivity.
    + reflexivity.
    + reflexivity.
    + exists output, noise. split; [exact Hbuild|].
      exact (Heval 1%nat (binary32 (-2) 0) eq_refl).
Defined.

(** C2, as the claim states it, fails in training mode on two counts.
    With bounds 1/8 and 1/4 the noise returned for the element 2 is 1,
    above the upper bound, because the noise is 1 wherever the input is
    positive.  And the noise is not drawn per element: on a backend whose
    draws alternate between the two bounds from position to position, the
    noise at the positions 0 and 1 (elements -1 and -2) is the one draw
    1/8 at both, where a draw of the shape of the tensor gives 1/4 at
    position 1. *)
Lemma BuildRrelu_noise_one_shared_draw :
  eval (N := alternating_numerics) rrelu_draw_env
    (nth 1
       (BuildRrelu (xla.GraphInput 0 (xla.MakeShape xla.F32 [3%nat]))
          (HostReal (binary64 1 (-3))) (HostReal (binary64 1 (-2))) true
          (xla.Zero xla.S64))
       (xla.Zero xla.F32)) 2
  = Some (VFloat xla.F32 (binary32 1 0))
  /\ SFleb (float_of_host xla.F32 (HostReal (binary64 1 (-3))))
           (float_of_host xla.F32 (HostReal (binary64 1 (-2)))) = true
  /\ SFleb (binary32 1 0) (float_of_host xla.F32 (HostReal (binary64 1 (-2))))
     = false
  /\ eval (N := alternating_numerics) rrelu_draw_env
       (nth 1
          (BuildRrelu (xla.GraphInput 0 (xla.MakeShape xla.F32 [3%nat]))
             (HostReal (binary64 1 (-3))) (HostReal (binary64 1 (-2))) true
             (xla.Zero xla.S64))
          (xla.Zero xla.F32)) 0
     = Some (VFloat xla.F32 (binary32 1 (-3)))
  /\ eval (N := alternating_numerics) rrelu_draw_env
       (nth 1
          (BuildRrelu (xla.GraphInput 0 (xla.MakeShape xla.F32 [3%nat]))
             (HostReal (binary64 1 (-3))) (HostReal (binary64 1 (-2))) true
             (xla.Zero xla.S64))
          (xla.Zero xla.F32)) 1
     = Some (VFloat xla.F32 (binary32 1 (-3)))
  /\ eval (N := alternating_numerics) rrelu_draw_env
       (RngUniform (xla.Zero xla.S64) (xla.MakeShape xla.F32 [3%nat])
          (XlaHelpers.ScalarValue (HostReal (binary64 1 (-3))) xla.F32)
          (XlaHelpers.ScalarValue (HostReal (binary64 1 (-2))) xla.F32)) 1
     = Some (VFloat xla.F32 (binary32 1 (-2))).
Proof. repeat split. Qed.

Section Sign.

Context {C : Collaborators} {N : Numerics}.

Lemma integral_wrap_zero (type : xla.PrimitiveType) :
  xla.primitive_util.IsIntegralType type = true -> wrap type 0 = 0.
Proof. destruct type; try discriminate; reflexivity. Qed.

Lemma cast_host_int (type : xla.PrimitiveType) (z : Z) :
  xla.primitive_util.IsIntegralType type = true ->
  cast_host type (HostInt z) = Some (VInt type (wrap type z)).
Proof. intros Hi. unfold cast_host. rewrite Hi. reflexivity. Qed.

Lemma ConvertToNumeric_numeric (input : xla.XlaOp) :
  XlaHelpers.TypeOfXlaOp input <> xla.PRED ->
  ConvertToNumeric input = input.
Proof.
  intros Hk. unfold ConvertToNumeric, ConvertToNumeric_from.
  rewrite PrimitiveType_eqb_neq by assumption. reflexivity.
Qed.

(** C8: with [num_input] the input after the promotion of a boolean input
    to a numeric kind (the input itself when it is not boolean),
    [BuildSign] returns 0 at every position where the element is a NaN
    (where [x != x]); elsewhere it returns the primitive sign of the
    element, except that for an unsigned integral kind it returns [x > 0]
    converted back to the kind.  So the signed elements -3, 0, 4 yield
    -1, 0, 1 and the unsigned elements 0, 5 yield 0, 1. *)
Theorem BuildSign_cases (env : Env) (input : xla.XlaOp) (i : nat) :
  let num_input := ConvertToNumeric input in
  (XlaHelpers.TypeOfXlaOp input <> xla.PRED -> num_input = input)
  /\ (forall type f,
        xla.primitive_util.IsFloatingPointType type = true ->
        eval env num_input i = Some (VFloat type f) ->
        float_cmp xla.kNe f f = is_nan f
        /\ eval env (BuildSign input) i
           = Some (VFloat type
                     (if is_nan f then S754_zero false
                      else float_sign type f)))
  /\ (forall type z,
        xla.primitive_util.IsSignedIntegralType type = true ->
        eval env num_input i = Some (VInt type z) ->
        eval env (BuildSign input) i = Some (VInt type (Z.sgn z)))
  /\ (forall type z,
        xla.primitive_util.IsUnsignedIntegralType type = true ->
        eval env num_input i = Some (VInt type z) ->
        BuildSign input
        = xla.Select (xla.Ne num_input num_input [])
            (xla.Broadcast (xla.Zero type)
               (xla.dimensions (ShapeHelper.ShapeOfXlaOp num_input)))
            (xla.ConvertElementType (xla.Gt num_input (xla.Zero type) []) type)
        /\ eval env (BuildSign input) i
           = Some (VInt type (if z >? 0 then 1 else 0)))
  /\ map (eval sign_signed_env
            (BuildSign (xla.GraphInput 0 (xla.MakeShape xla.S32 [3%nat]))))
       [0; 1; 2]%nat
     = [Some (VInt xla.S32 (-1)); Some (VInt xla.S32 0); Some (VInt xla.S32 1)]
  /\ map (eval sign_unsigned_env
            (BuildSign (xla.GraphInput 0 (xla.MakeShape xla.U8 [2%nat]))))
       [0; 1]%nat
     = [Some (VInt xla.U8 0); Some (VInt xla.U8 1)]
  /\ map (eval sign_float_env
            (BuildSign (xla.GraphInput 0 (xla.MakeShape xla.F32 [2%nat]))))
       [0; 1]%nat
     = [Some (VFloat xla.F32 (SFopp (binary32 1 0)));
        Some (VFloat xla.F32 (S754_zero false))].
Proof.
  cbv zeta. split; [apply ConvertToNumeric_numeric|].
  split; [|split; [|split; [|repeat split]]].
  - intros type f Hf Hv.
    pose proof (eval_type env _ i _ Hv) as Htype. cbn in Htype.
    split; [apply float_cmp_ne_self|].
    unfold BuildSign.
    change (xla.element_type (ShapeHelper.ShapeOfXlaOp (ConvertToNumeric input)))
      with (XlaHelpers.TypeOfXlaOp (ConvertToNumeric input)).
    rewrite <- Htype.
    destruct (floating_not_integral type Hf) as (_ & -> & _).
    unfold xla.Ne, xla.Sign. cbn [eval]. rewrite Hv.
    rewrite eval_Zero_float by assumption.
    cbn [bind_option eval_unary]. float_steps.
    rewrite float_cmp_ne_self. destruct f; reflexivity.
  - intros type z Hs Hv.
    pose proof (eval_type env _ i _ Hv) as Htype. cbn in Htype.
    assert (Hi : xla.primitive_util.IsIntegralType type = true)
      by (destruct type; try discriminate Hs; reflexivity).
    assert (Hu : xla.primitive_util.IsUnsignedIntegralType type = false)
      by (destruct type; try discriminate Hs; reflexivity).
    unfold BuildSign.
    change (xla.element_type (ShapeHelper.ShapeOfXlaOp (ConvertToNumeric input)))
      with (XlaHelpers.TypeOfXlaOp (ConvertToNumeric input)).
    rewrite <- Htype, Hu.
    unfold xla.Ne, xla.Sign, xla.Zero. cbn [eval]. rewrite Hv.
    rewrite cast_host_int by assumption.
    cbn [bind_option eval_unary eval_compare eval_select type_of_value].
    rewrite PrimitiveType_eqb_refl, Z.compare_refl.
    cbn [bind_option compare_of eval_select type_of_value].
    rewrite PrimitiveType_eqb_refl. reflexivity.
  - intros type z Hu Hv.
    pose proof (eval_type env _ i _ Hv) as Htype. cbn in Htype.
    assert (Hi : xla.primitive_util.IsIntegralType type = true)
      by (destruct type; try discriminate Hu; reflexivity).
    unfold BuildSign.
    change (xla.element_type (ShapeHelper.ShapeOfXlaOp (ConvertToNumeric input)))
      with (XlaHelpers.TypeOfXlaOp (ConvertToNumeric input)).
    rewrite <- Htype, Hu. split; [reflexivity|].
    unfold xla.Ne, xla.Gt, xla.Zero. cbn [eval]. rewrite Hv.
    rewrite cast_host_int, integral_wrap_zero by assumption.
    cbn [bind_option eval_compare].
    rewrite PrimitiveType_eqb_refl, Z.compare_refl.
    cbn [bind_option compare_of]. unfold eval_convert. rewrite Hi.
    cbn [bind_option eval_select type_of_value].
    rewrite PrimitiveType_eqb_refl. unfold Z.gtb.
    destruct (z ?= 0); reflexivity.
Qed.

End Sign.

Lemma BuildSign_witness :
  eval (N := reference_numerics) sign_unsigned_env
    (BuildSign (C := reference_collaborators)
       (xla.GraphInput 0 (xla.MakeShape xla.U8 [2%nat]))) 1
  = Some (VInt xla.U8 1)
  /\ eval (N := reference_numerics) sign_float_env
       (BuildSign (C := reference_collaborators)
          (xla.GraphInput 0 (xla.MakeShape xla.F32 [2%nat]))) 1
     = Some (VFloat xla.F32 (S754_zero false)).
Proof.
  destruct (BuildSign_cases (C := reference_collaborators)
              (N := reference_numerics) sign_unsigned_env
              (xla.GraphInput 0 (xla.MakeShape xla.U8 [2%nat])) 1)
    as (_ & _ & _ & Hunsigned & _).
  destruct (BuildSign_cases (C := reference_collaborators)
              (N := reference_numerics) sign_float_env
              (xla.GraphInput 0 (xla.MakeShape xla.F32 [2%nat])) 1)
    as (_ & Hfloat & _).
  split.
  - exact (proj2 (Hunsigned xla.U8 5 eq_refl eq_refl)).
  - exact (proj2 (Hfloat xla.F32 S754_nan eq_refl eq_refl)).
Defined.

(** ** Kinds of the operands of an instruction *)

Lemma eval_binary_kinds (opcode : xla.BinaryOpcode) (a b v : Value) :
  eval_binary opcode a b = Some v ->
  type_of_value a = type_of_value b.
Proof.
  unfold eval_binary.
  destruct a as [x | ta x | ta x], b as [y | tb y | tb y];
    try discriminate; try reflexivity;
    destruct (xla.PrimitiveType_eqb ta tb) eqn:E; try discriminate;
    intros _; apply PrimitiveType_eqb_eq; exact E.
Qed.

Lemma MaybeConvertTo_type (input : xla.XlaOp) (type : xla.PrimitiveType) :
  XlaHelpers.TypeOfXlaOp (MaybeConvertTo input type) = type.
Proof.
  unfold MaybeConvertTo.
  destruct (xla.PrimitiveType_eqb (XlaHelpers.TypeOfXlaOp input) type) eqn:E;
    cbn; [apply PrimitiveType_eqb_eq; exact E | reflexivity].
Qed.

Lemma MaybeConvertTo_kinds_agree (input : xla.XlaOp) (type : xla.PrimitiveType) :
  kinds_agree (MaybeConvertTo input type) = kinds_agree input.
Proof. unfold MaybeConvertTo. destruct (negb _); reflexivity. Qed.

Ltac kinds_steps :=
  cbn [kinds_agree is_shift orb];
  change (xla.element_type (ShapeHelper.ShapeOfXlaOp ?op))
    with (XlaHelpers.TypeOfXlaOp op) in *;
  rewrite ?MaybeConvertTo_kinds_agree;
  repeat match goal with
         | |- context [XlaHelpers.TypeOfXlaOp (xla.BinaryOp ?o ?l ?r ?d)] =>
             change (XlaHelpers.TypeOfXlaOp (xla.BinaryOp o l r d))
               with (XlaHelpers.TypeOfXlaOp l)
         | |- context [XlaHelpers.TypeOfXlaOp (xla.UnaryOp ?o ?x)] =>
             change (XlaHelpers.TypeOfXlaOp (xla.UnaryOp o x))
               with (XlaHelpers.TypeOfXlaOp x)
         | |- context [XlaHelpers.TypeOfXlaOp (xla.Select ?p ?a ?b)] =>
             change (XlaHelpers.TypeOfXlaOp (xla.Select p a b))
               with (XlaHelpers.TypeOfXlaOp a)
         | |- context [XlaHelpers.TypeOfXlaOp (xla.ConstantLiteral ?t ?v)] =>
             change (XlaHelpers.TypeOfXlaOp (xla.ConstantLiteral t v)) with t
         end;
  rewrite ?MaybeConvertTo_type, ?PrimitiveType_eqb_refl.

(** The sibling lowerings convert their auxiliary operand to the kind of
    the input first, and so build graphs whose instructions all combine
    operands of one kind. *)
Lemma BuildLeakyReluBackward_kinds_agree
  (grad_output input negative_slope : xla.XlaOp) :
  kinds_agree grad_output = true ->
  kinds_agree input = true ->
  kinds_agree negative_slope = true ->
  XlaHelpers.TypeOfXlaOp grad_output = XlaHelpers.TypeOfXlaOp input ->
  kinds_agree (BuildLeakyReluBackward grad_output input negative_slope) = true.
Proof.
  intros Hg Hi Hs Hk.
  unfold BuildLeakyReluBackward, xla.Gt, xla.Mul, xla.Zero.
  kinds_steps. rewrite Hg, Hi, Hs, Hk, !PrimitiveType_eqb_refl. reflexivity.
Qed.

Lemma BuildSoftshrink_kinds_agree (input lambda : xla.XlaOp) :
  kinds_agree input = true ->
  kinds_agree lambda = true ->
  kinds_agree (BuildSoftshrink input lambda) = true.
Proof.
  intros Hi Hl.
  unfold BuildSoftshrink, xla.Lt, xla.Gt, xla.Neg, xla.Add, xla.Sub, xla.Zero.
  kinds_steps. rewrite Hi, Hl. reflexivity.
Qed.

Lemma BuildElu_kinds_agree (input alpha scale input_scale : xla.XlaOp) :
  kinds_agree input = true ->
  kinds_agree alpha = true ->
  kinds_agree scale = true ->
  kinds_agree input_scale = true ->
  kinds_agree (BuildElu input alpha scale input_scale) = true.
Proof.
  intros Hi Ha Hs His.
  unfold BuildElu, xla.Le, xla.Exp, xla.Mul, xla.Sub, xla.Zero,
    ScalarValue_float, XlaHelpers.ScalarValue.
  kinds_steps. rewrite Hi, Ha, Hs, His. reflexivity.
Qed.

Section Shrink.

Context {C : Collaborators}.

Lemma BuildHardshrink_kinds_agree (input lambda : xla.XlaOp) :
  Promote_common_kind ->
  kinds_agree input = true ->
  kinds_agree lambda = true ->
  exists result,
    BuildHardshrink input lambda = Ok result /\ kinds_agree result = true.
Proof.
  intros Hpromote Hi Hl. unfold BuildHardshrink.
  destruct (BuildComparisonOp_tags input
              (xla.Zero (xla.element_type (ShapeHelper.ShapeOfXlaOp input))
               - MaybeConvertTo lambda
                   (xla.element_type (ShapeHelper.ShapeOfXlaOp input)))%xla)
    as (_ & _ & -> & _).
  destruct (BuildComparisonOp_tags input
              (MaybeConvertTo lambda
                 (xla.element_type (ShapeHelper.ShapeOfXlaOp input))))
    as (_ & _ & _ & -> & _).
  cbn [bind]. eexists. split; [reflexivity|].
  match goal with
  | |- context [Promote input ?low] =>
      destruct (Hpromote input low) as (Hl1 & Hr1 & Hk1);
      [exact Hi
      | unfold xla.Sub, xla.Zero; kinds_steps; rewrite Hl; reflexivity |]
  end.
  destruct (Hpromote input
              (MaybeConvertTo lambda
                 (xla.element_type (ShapeHelper.ShapeOfXlaOp input))))
    as (Hl2 & Hr2 & Hk2);
    [exact Hi | rewrite MaybeConvertTo_kinds_agree; exact Hl |].
  unfold xla.And, xla.Ge, xla.Le, xla.Zero in *.
  cbn [kinds_agree is_shift orb].
  rewrite Hl1, Hr1, Hl2, Hr2, Hk1, Hk2, Hi, !PrimitiveType_eqb_refl.
  reflexivity.
Qed.

Lemma BuildShrinkBackward_kinds_agree (grad_output input lambda : xla.XlaOp) :
  Promote_common_kind ->
  kinds_agree input = true ->
  kinds_agree lambda = true ->
  kinds_agree grad_output = true ->
  XlaHelpers.TypeOfXlaOp grad_output = XlaHelpers.TypeOfXlaOp input ->
  exists result,
    BuildShrinkBackward grad_output input lambda = Ok result
    /\ kinds_agree result = true.
Proof.
  intros Hpromote Hi Hl Hg Hk. unfold BuildShrinkBackward.
  destruct (BuildComparisonOp_tags input
              (xla.Zero (xla.element_type (ShapeHelper.ShapeOfXlaOp input))
               - MaybeConvertTo lambda
                   (xla.element_type (ShapeHelper.ShapeOfXlaOp input)))%xla)
    as (_ & _ & -> & _).
  destruct (BuildComparisonOp_tags input
              (MaybeConvertTo lambda
                 (xla.element_type (ShapeHelper.ShapeOfXlaOp input))))
    as (_ & _ & _ & -> & _).
  cbn [bind]. eexists. split; [reflexivity|].
  match goal with
  | |- context [Promote input ?low] =>
      destruct (Hpromote input low) as (Hl1 & Hr1 & Hk1);
      [exact Hi
      | unfold xla.Sub, xla.Zero; kinds_steps; rewrite Hl; reflexivity |]
  end.
  destruct (Hpromote input
              (MaybeConvertTo lambda
                 (xla.element_type (ShapeHelper.ShapeOfXlaOp input))))
    as (Hl2 & Hr2 & Hk2);
    [exact Hi | rewrite MaybeConvertTo_kinds_agree; exact Hl |].
  unfold xla.And, xla.Ge, xla.Le, xla.Zero in *.
  cbn [kinds_agree is_shift orb].
  rewrite Hl1, Hr1, Hl2, Hr2, Hk1, Hk2, Hg.
  change (XlaHelpers.TypeOfXlaOp (xla.ConstantLiteral ?t ?v)) with t.
  change (xla.element_type (ShapeHelper.ShapeOfXlaOp input))
    with (XlaHelpers.TypeOfXlaOp input).
  rewrite Hk, !PrimitiveType_eqb_refl.
  reflexivity.
Qed.

End Shrink.

(** C9 does not hold of [BuildSoftplus]: it applies [Mul], [Gt] and [Div]
    to [beta] and [threshold] as they are given, with no conversion to the
    kind of the input.  When the kind of [beta] differs from that of the
    input the graph multiplies operands of differing kinds, and has no
    element value at any position. *)
Theorem BuildSoftplus_combines_differing_kinds
  (input beta threshold : xla.XlaOp) :
  XlaHelpers.TypeOfXlaOp beta <> XlaHelpers.TypeOfXlaOp input ->
  BuildSoftplus input beta threshold
  = xla.Select (xla.Gt (xla.Mul input beta []) threshold []) input
      (xla.Div (xla.Log1p (xla.Exp (xla.Mul input beta []))) beta [])
  /\ kinds_agree (xla.Mul input beta []) = false
  /\ kinds_agree (BuildSoftplus input beta threshold) = false
  /\ forall (N : Numerics) (env : Env) (i : nat),
       eval env (BuildSoftplus input beta threshold) i = None.
Proof.
  intros Hk.
  assert (Hneq : xla.PrimitiveType_eqb (XlaHelpers.TypeOfXlaOp input)
                   (XlaHelpers.TypeOfXlaOp beta) = false)
    by (apply PrimitiveType_eqb_neq; congruence).
  split; [reflexivity|].
  assert (Hmul : kinds_agree (xla.Mul input beta []) = false).
  { unfold xla.Mul. cbn [kinds_agree is_shift orb]. rewrite Hneq.
    apply andb_false_r. }
  split; [exact Hmul|]. split.
  - unfold BuildSoftplus, xla.Gt. cbn [kinds_agree].
    rewrite Hmul. reflexivity.
  - intros N env i.
    assert (Hnone : eval env (xla.Mul input beta []) i = None).
    { unfold xla.Mul. cbn [eval].
      destruct (eval env input i) as [a|] eqn:Ea; [|reflexivity].
      destruct (eval env beta i) as [b|] eqn:Eb; [|reflexivity].
      cbn [bind_option].
      destruct (eval_binary xla.kMultiply a b) as [v|] eqn:Ev; [|reflexivity].
      exfalso. apply Hk.
      apply eval_type in Ea, Eb.
      apply eval_binary_kinds in Ev. congruence. }
    unfold BuildSoftplus, xla.Gt. cbn [eval]. rewrite Hnone. reflexivity.
Qed.

Lemma BuildSoftplus_witness :
  kinds_agree
    (BuildSoftplus (xla.GraphInput 0 (xla.MakeShape xla.F32 [2%nat]))
       (xla.GraphInput 1 (xla.MakeShape xla.F64 []))
       (xla.GraphInput 2 (xla.MakeShape xla.F64 []))) = false
  /\ eval (N := reference_numerics)
       (fun number _ =>
          match number with
          | O => VFloat xla.F32 (binary32 1 0)
          | _ => VFloat xla.F64 (binary64 1 0)
          end)
       (BuildSoftplus (xla.GraphInput 0 (xla.MakeShape xla.F32 [2%nat]))
          (xla.GraphInput 1 (xla.MakeShape xla.F64 []))
          (xla.GraphInput 2 (xla.MakeShape xla.F64 []))) 0
     = None.
Proof.
  destruct (BuildSoftplus_combines_differing_kinds
              (xla.GraphInput 0 (xla.MakeShape xla.F32 [2%nat]))
              (xla.GraphInput 1 (xla.MakeShape xla.F64 []))
              (xla.GraphInput 2 (xla.MakeShape xla.F64 [])))
    as (_ & _ & Hkinds & Hvalue).
  - discriminate.
  - split; [exact Hkinds | apply Hvalue].
Defined.

(** * Further properties *)

(** ** The conversion layer *)

Section ConversionLayer.

Import xla.primitive_util xla.ShapeUtil.

Lemma ConvertData_without_mask (op : xla.XlaOp)
  (type narrow_type : xla.PrimitiveType) :
  needs_mask type narrow_type = false ->
  ConvertData op type narrow_type = Ok op.
Proof.
  unfold needs_mask, ConvertData. intros Hmask.
  destruct (IsIntegralType type); [|reflexivity].
  destruct (IsIntegralType narrow_type); [|reflexivity].
  cbn in *. apply negb_false_iff in Hmask. rewrite Hmask.
  apply Z.eqb_eq in Hmask. rewrite Hmask, Z.geb_leb, Z.leb_refl. reflexivity.
Qed.

Lemma ConvertData_returns (op : xla.XlaOp)
  (type narrow_type : xla.PrimitiveType) :
  returns (ConvertData op type narrow_type)
  = negb (size_check_fails type narrow_type).
Proof.
  unfold size_check_fails, ConvertData.
  destruct (IsIntegralType type); [|reflexivity].
  destruct (IsIntegralType narrow_type); [|reflexivity].
  cbn [negb orb andb]. rewrite Z.geb_leb, Z.ltb_antisym.
  destruct (_ <=? _); [|reflexivity].
  cbn [negb]. destruct (_ =? _); reflexivity.
Qed.

(** X1: whether [ConvertToRaw] returns depends on the four kinds alone,
    not on the value: it aborts exactly when one of its two pairs of
    kinds, [from] with [raw_from] or [to] with [raw_to], is a pair of
    integral kinds of which the first has the smaller byte size. *)
Theorem ConvertToRaw_returns_iff (op : xla.XlaOp)
  (from raw_from to raw_to : xla.PrimitiveType) :
  returns (ConvertToRaw op from raw_from to raw_to)
  = negb (size_check_fails from raw_from)
    && negb (size_check_fails to raw_to).
Proof.
  rewrite ConvertToRaw_returns, !ConvertData_returns. reflexivity.
Qed.

(** X2: [ConvertToRaw] masks only between integral kinds of differing
    byte size.  When neither of its two pairs of kinds needs a mask (the
    kinds of a pair are equal, or one is not integral, or both have one
    size) it returns exactly the plain conversion [ConvertTo op from to]
    and cannot abort. *)
Theorem ConvertToRaw_without_mask (op : xla.XlaOp)
  (from raw_from to raw_to : xla.PrimitiveType) :
  needs_mask from raw_from = false ->
  needs_mask to raw_to = false ->
  ConvertToRaw op from raw_from to raw_to = Ok (ConvertTo op from to).
Proof.
  intros Hfrom Hto. unfold ConvertToRaw.
  rewrite (ConvertData_without_mask op from raw_from Hfrom).
  destruct (negb _); cbn [bind];
    rewrite (ConvertData_without_mask _ to raw_to Hto);
    destruct (xla.PrimitiveType_eqb to raw_to); reflexivity.
Qed.

Lemma ConvertToRaw_without_mask_witness :
  ConvertToRaw (xla.GraphInput 0 (xla.MakeShape xla.S32 [2%nat]))
    xla.S32 xla.U32 xla.F32 xla.F32
  = Ok (xla.ConvertElementType
          (xla.GraphInput 0 (xla.MakeShape xla.S32 [2%nat])) xla.F32).
Proof.
  apply (ConvertToRaw_without_mask
           (xla.GraphInput 0 (xla.MakeShape xla.S32 [2%nat]))
           xla.S32 xla.U32 xla.F32 xla.F32); reflexivity.
Defined.

(** X4: [MaybeConvertTo] is [ConvertTo] from the kind the value has: its
    result is of the requested kind, it adds at most the one conversion
    instruction, and converting a second time to the same kind adds
    nothing. *)
Theorem MaybeConvertTo_is_ConvertTo (input : xla.XlaOp)
  (type : xla.PrimitiveType) :
  MaybeConvertTo input type
  = ConvertTo input (XlaHelpers.TypeOfXlaOp input) type
  /\ XlaHelpers.TypeOfXlaOp (MaybeConvertTo input type) = type
  /\ MaybeConvertTo (MaybeConvertTo input type) type = MaybeConvertTo input type
  /\ (instruction_count (MaybeConvertTo input type)
      <= S (instruction_count input))%nat.
Proof.
  assert (Htype : XlaHelpers.TypeOfXlaOp (MaybeConvertTo input type) = type).
  { unfold MaybeConvertTo.
    destruct (xla.PrimitiveType_eqb (XlaHelpers.TypeOfXlaOp input) type) eqn:E;
      cbn; [apply PrimitiveType_eqb_eq; exact E | reflexivity]. }
  split; [|split; [exact Htype|split]].
  - unfold MaybeConvertTo, ConvertTo.
    destruct (xla.PrimitiveType_eqb _ _); reflexivity.
  - unfold MaybeConvertTo at 1. rewrite Htype, PrimitiveType_eqb_refl.
    reflexivity.
  - unfold MaybeConvertTo. destruct (negb _); cbn; lia.
Qed.

End ConversionLayer.

Section MaskValues.

Import xla.primitive_util xla.ShapeUtil.

Context {N : Numerics}.

(** X3: the value [ConvertData] computes between integral kinds of which
    the second is strictly narrower.  An element of an unsigned first kind
    is cut to its low [8 * narrow_size] bits, whatever it was; an element
    of the signed kind [S32] is left as it is, its mask being all ones.
    For the other signed kinds the mask is shifted by a constant of kind
    [S32], an instruction on operands of two kinds, and the masked graph
    has no value. *)
Theorem ConvertData_truncates_unsigned (env : Env) (op : xla.XlaOp)
  (type narrow_type : xla.PrimitiveType) (i : nat) (z : Z) :
  IsIntegralType type = true ->
  IsIntegralType narrow_type = true ->
  ByteSizeOfPrimitiveType narrow_type < ByteSizeOfPrimitiveType type ->
  eval env op i = Some (VInt type z) ->
  (mask_kinds_agree type = true ->
   eval_result env (ConvertData op type narrow_type) i
   = Some (VInt type
             (if IsSignedIntegralType type then z
              else z mod 2 ^ (CHAR_BIT * ByteSizeOfPrimitiveType narrow_type))))
  /\ (mask_kinds_agree type = false ->
      eval_result env (ConvertData op type narrow_type) i = None).
Proof.
  intros Ht Hn Hlt Hop.
  rewrite (ConvertData_integral op type narrow_type Ht Hn).
  assert (Hge : (ByteSizeOfPrimitiveType type
                 <? ByteSizeOfPrimitiveType narrow_type) = false)
    by (apply Z.ltb_ge; lia).
  assert (Hne : (ByteSizeOfPrimitiveType type
                 =? ByteSizeOfPrimitiveType narrow_type) = false)
    by (apply Z.eqb_neq; lia).
  rewrite Hge, Hne. cbn [eval_result]. split; intros Hmask.
  - rewrite (eval_masked env op _ type i z _ Hop
               (eval_CreateRawMask env op type narrow_type i Ht Hn Hlt Hmask)).
    unfold raw_mask. destruct (IsSignedIntegralType type).
    + rewrite Z.land_m1_r. reflexivity.
    + pose proof (ByteSize_nonneg narrow_type).
      rewrite Z.land_ones by (unfold CHAR_BIT; lia). reflexivity.
  - destruct (CreateRawMask_mixed_kinds env op type
                (ByteSizeOfPrimitiveType type)
                (ByteSizeOfPrimitiveType narrow_type) i Ht Hmask)
      as (_ & Hnone).
    unfold xla.And. cbn [eval]. rewrite Hop, Hnone. reflexivity.
Qed.

End MaskValues.

Lemma ConvertData_truncates_unsigned_witness :
  eval_result (N := reference_numerics) (env_of [[VInt xla.U32 300]])
    (ConvertData (xla.GraphInput 0 (xla.MakeShape xla.U32 [1%nat]))
       xla.U32 xla.U8) 0
  = Some (VInt xla.U32 44)
  /\ eval_result (N := reference_numerics) (env_of [[VInt xla.S32 (-300)]])
       (ConvertData (xla.GraphInput 0 (xla.MakeShape xla.S32 [1%nat]))
          xla.S32 xla.S8) 0
     = Some (VInt xla.S32 (-300))
  /\ eval_result (N := reference_numerics) (env_of [[VInt xla.S64 (-300)]])
       (ConvertData (xla.GraphInput 0 (xla.MakeShape xla.S64 [1%nat]))
          xla.S64 xla.S32) 0
     = None.
Proof.
  split; [|split].
  - apply (ConvertData_truncates_unsigned (N := reference_numerics)
             (env_of [[VInt xla.U32 300]])
             (xla.GraphInput 0 (xla.MakeShape xla.U32 [1%nat]))
             xla.U32 xla.U8 0 300); reflexivity.
  - apply (ConvertData_truncates_unsigned (N := reference_numerics)
             (env_of [[VInt xla.S32 (-300)]])
             (xla.GraphInput 0 (xla.MakeShape xla.S32 [1%nat]))
             xla.S32 xla.S8 0 (-300)); reflexivity.
  - apply (ConvertData_truncates_unsigned (N := reference_numerics)
             (env_of [[VInt xla.S64 (-300)]])
             (xla.GraphInput 0 (xla.MakeShape xla.S64 [1%nat]))
             xla.S64 xla.S32 0 (-300)); reflexivity.
Defined.

Section NumericPromotion.

Context {C : Collaborators} {St : Settings} {N : Numerics}.

(** X5: [ConvertToNumeric] leaves a value that is not boolean as it is and
    converts a boolean one to the kind the device stores [U8] in.  So its
    result is of a numeric kind whenever that device kind is, applying it
    twice is applying it once, and a boolean element becomes 1 or 0 of an
    integral device kind. *)
Theorem ConvertToNumeric_promotes_booleans (input : xla.XlaOp) :
  let device_kind := MaybeDowncastToXlaDeviceType xla.U8 GetCurrentDevice in
  (XlaHelpers.TypeOfXlaOp input <> xla.PRED -> ConvertToNumeric input = input)
  /\ (XlaHelpers.TypeOfXlaOp input = xla.PRED ->
      ConvertToNumeric input = ConvertTo input xla.PRED device_kind
      /\ XlaHelpers.TypeOfXlaOp (ConvertToNumeric input) = device_kind)
  /\ (device_kind <> xla.PRED ->
      XlaHelpers.TypeOfXlaOp (ConvertToNumeric input) <> xla.PRED
      /\ ConvertToNumeric (ConvertToNumeric input) = ConvertToNumeric input)
  /\ (xla.primitive_util.IsIntegralType device_kind = true ->
      forall (env : Env) (i : nat) (b : bool),
        eval env input i = Some (VPred b) ->
        eval env (ConvertToNumeric input) i
        = Some (VInt device_kind (if b then 1 else 0))).
Proof.
  cbv zeta.
  set (device_kind := MaybeDowncastToXlaDeviceType xla.U8 GetCurrentDevice).
  assert (Hbool : XlaHelpers.TypeOfXlaOp input = xla.PRED ->
            ConvertToNumeric input = ConvertTo input xla.PRED device_kind
            /\ XlaHelpers.TypeOfXlaOp (ConvertToNumeric input) = device_kind).
  { intros Hk. unfold ConvertToNumeric, ConvertToNumeric_from.
    rewrite Hk. cbn [xla.PrimitiveType_eqb]. fold device_kind.
    rewrite PrimitiveType_eqb_refl. split; [reflexivity|].
    unfold ConvertTo.
    destruct (xla.PrimitiveType_eqb xla.PRED device_kind) eqn:E.
    - apply PrimitiveType_eqb_eq in E. congruence.
    - reflexivity. }
  split; [apply ConvertToNumeric_numeric|]. split; [exact Hbool|]. split.
  - intros Hdev.
    assert (Hk : XlaHelpers.TypeOfXlaOp (ConvertToNumeric input) <> xla.PRED).
    { destruct (xla.PrimitiveType_eq_dec (XlaHelpers.TypeOfXlaOp input) xla.PRED)
        as [Hp | Hp].
      - destruct (Hbool Hp) as (_ & ->). exact Hdev.
      - rewrite ConvertToNumeric_numeric by assumption. exact Hp. }
    split; [exact Hk | apply ConvertToNumeric_numeric; exact Hk].
  - intros Hint env i b Hv.
    pose proof (eval_type env input i _ Hv) as Hk. cbn in Hk.
    destruct (Hbool (eq_sym Hk)) as (-> & _).
    unfold ConvertTo.
    destruct (xla.PrimitiveType_eqb xla.PRED device_kind) eqn:E.
    + apply PrimitiveType_eqb_eq in E. rewrite <- E in Hint. discriminate Hint.
    + cbn [eval]. rewrite Hv. cbn [bind_option]. unfold eval_convert.
      rewrite Hint. reflexivity.
Qed.


End NumericPromotion.

Lemma ConvertToNumeric_witness :
  ConvertToNumeric (C := reference_collaborators)
    (xla.GraphInput 0 (xla.MakeShape xla.PRED [2%nat]))
  = xla.ConvertElementType
      (xla.GraphInput 0 (xla.MakeShape xla.PRED [2%nat])) xla.U8
  /\ eval (N := reference_numerics) (env_of [[VPred false; VPred true]])
       (ConvertToNumeric (C := reference_collaborators)
          (xla.GraphInput 0 (xla.MakeShape xla.PRED [2%nat]))) 1
     = Some (VInt xla.U8 1).
Proof.
  destruct (ConvertToNumeric_promotes_booleans (C := reference_collaborators)
              (N := reference_numerics)
              (xla.GraphInput 0 (xla.MakeShape xla.PRED [2%nat])))
    as (_ & Hbool & _ & Hvalue).
  split.
  - exact (proj1 (Hbool eq_refl)).
  - exact (Hvalue eq_refl (env_of [[VPred false; VPred true]]) 1%nat true
             eq_refl).
Defined.


(** ** Elements of the piecewise lowerings *)

Section EvalHelpers.

Context {C : Collaborators} {N : Numerics}.

Lemma eval_MaybeConvertTo_float (env : Env) (op : xla.XlaOp)
  (type from : xla.PrimitiveType) (f : spec_float) (i : nat) :
  xla.primitive_util.IsFloatingPointType type = true ->
  eval env op i = Some (VFloat from f) ->
  eval env (MaybeConvertTo op type) i
  = Some (VFloat type (converted_float type from f)).
Proof.
  intros Hf Hop.
  pose proof (eval_type env op i _ Hop) as Hk. cbn in Hk.
  unfold MaybeConvertTo, converted_float. rewrite <- Hk.
  destruct (xla.PrimitiveType_eqb from type) eqn:E; cbn [negb].
  - apply PrimitiveType_eqb_eq in E. rewrite <- E. exact Hop.
  - cbn [eval]. rewrite Hop. cbn [bind_option]. unfold eval_convert.
    destruct (floating_not_integral type Hf) as (-> & _). rewrite Hf.
    reflexivity.
Qed.

Lemma eval_Promote_pair (env : Env) (lhs rhs : xla.XlaOp) (a b : Value)
  (i : nat) :
  Promote_keeps_elements ->
  eval env lhs i = Some a ->
  eval env rhs i = Some b ->
  type_of_value a = type_of_value b ->
  eval env (fst (Promote lhs rhs)) i = Some a
  /\ eval env (snd (Promote lhs rhs)) i = Some b.
Proof.
  intros Hpromote Ha Hb Hk.
  assert (Hkind : XlaHelpers.TypeOfXlaOp lhs = XlaHelpers.TypeOfXlaOp rhs).
  { rewrite <- (eval_type env lhs i a Ha), <- (eval_type env rhs i b Hb).
    exact Hk. }
  destruct (Hpromote lhs rhs Hkind env i) as (-> & ->). split; assumption.
Qed.

Lemma is_nan_compare (direction : xla.ComparisonDirection) (x y : spec_float) :
  is_nan x = true ->
  float_cmp direction x y = match direction with
                            | xla.kNe => true
                            | _ => false
                            end.
Proof. destruct x; try discriminate. intros _. destruct direction; reflexivity. Qed.

Lemma float_max_not_below_zero (x : spec_float) :
  float_cmp xla.kLt (float_max x (S754_zero false)) (S754_zero false) = false.
Proof. destruct x as [[]|[]| |[] m e]; reflexivity. Qed.

Lemma float_max_positive (x : spec_float) :
  float_cmp xla.kGt x (S754_zero false) = true ->
  float_max x (S754_zero false) = x.
Proof. destruct x as [[]|[]| |[] m e]; cbn; try discriminate; reflexivity. Qed.

End EvalHelpers.

Section Relu.

Context {C : Collaborators} {St : Settings} {N : Numerics}.

(** X7: whichever way the unbounded-dynamism switch is set, [BuildRelu]
    computes the maximum of the element and zero: on a float [x] it is
    never below zero, it is [x] itself where [x > 0], and a NaN stays a
    NaN; on an integer [z] it is [Z.max z 0]. *)
Theorem BuildRelu_is_max_with_zero (env : Env) (input : xla.XlaOp)
  (type : xla.PrimitiveType) (i : nat) :
  Promote_keeps_elements ->
  (forall x : spec_float,
     xla.primitive_util.IsFloatingPointType type = true ->
     eval env input i = Some (VFloat type x) ->
     eval env (BuildRelu input) i
     = Some (VFloat type (float_max x (S754_zero false)))
     /\ float_cmp xla.kLt (float_max x (S754_zero false)) (S754_zero false)
        = false
     /\ (float_cmp xla.kGt x (S754_zero false) = true ->
         float_max x (S754_zero false) = x)
     /\ (is_nan x = true -> float_max x (S754_zero false) = S754_nan))
  /\ (forall z : Z,
        xla.primitive_util.IsIntegralType type = true ->
        eval env input i = Some (VInt type z) ->
        eval env (BuildRelu input) i = Some (VInt type (Z.max z 0))).
Proof.
  intros Hpromote.
  assert (Hmax : forall a zero r,
            eval env input i = Some a ->
            eval env (ScalarValue_float (binary64 0 0)
                        (XlaHelpers.TypeOfXlaOp input)) i = Some zero ->
            type_of_value a = type_of_value zero ->
            eval_binary xla.kMaximum a zero = r ->
            eval env (BuildRelu input) i = r).
  { intros a zero r Ha Hzero Hk Hr. unfold BuildRelu.
    change (xla.element_type (ShapeHelper.ShapeOfXlaOp input))
      with (XlaHelpers.TypeOfXlaOp input).
    destruct IsUnboundedDynamismEnabled.
    - destruct (eval_Promote_pair env input _ a zero i Hpromote Ha Hzero Hk)
        as (El & Er).
      cbv zeta. unfold xla.Max. cbn [eval]. rewrite El, Er. exact Hr.
    - unfold xla.Max. cbn [eval]. rewrite Ha, Hzero. exact Hr. }
  split.
  - intros x Hf Hx.
    pose proof (eval_type env input i _ Hx) as Hk. cbn in Hk.
    split; [|split; [apply float_max_not_below_zero|split]].
    + apply (Hmax _ (VFloat type (S754_zero false)) _ Hx).
      * rewrite <- Hk. rewrite eval_ScalarValue_float by assumption.
        reflexivity.
      * reflexivity.
      * rewrite eval_float_arith. reflexivity.
    + apply float_max_positive.
    + destruct x; try discriminate. reflexivity.
  - intros z Hi Hz.
    pose proof (eval_type env input i _ Hz) as Hk. cbn in Hk.
    apply (Hmax _ (VInt type 0) _ Hz).
    + rewrite <- Hk. cbn. unfold cast_host. rewrite Hi. cbn.
      unfold in_rangeb. rewrite integral_wrap_zero by assumption. reflexivity.
    + reflexivity.
    + cbn. rewrite PrimitiveType_eqb_refl. reflexivity.
Qed.

End Relu.

Lemma BuildRelu_witness :
  map (eval (N := reference_numerics)
         (env_of [[VFloat xla.F32 (binary32 (-2) 0);
                   VFloat xla.F32 (S754_zero false);
                   VFloat xla.F32 (binary32 3 0)]])
         (BuildRelu (C := reference_collaborators) (St := reference_settings)
            (xla.GraphInput 0 (xla.MakeShape xla.F32 [3%nat]))))
    [0; 1; 2]%nat
  = [Some (VFloat xla.F32 (S754_zero false));
     Some (VFloat xla.F32 (S754_zero false));
     Some (VFloat xla.F32 (binary32 3 0))].
Proof.
  pose proof (fun i x Hx =>
    proj1 (proj1 (BuildRelu_is_max_with_zero (C := reference_collaborators)
                    (St := reference_settings) (N := reference_numerics)
                    (env_of [[VFloat xla.F32 (binary32 (-2) 0);
                              VFloat xla.F32 (S754_zero false);
                              VFloat xla.F32 (binary32 3 0)]])
                    (xla.GraphInput 0 (xla.MakeShape xla.F32 [3%nat]))
                    xla.F32 i
                    (reference_Promote_keeps_elements reference_numerics))
             x eq_refl Hx)) as Hrelu.
  cbn [map].
  rewrite (Hrelu 0%nat (binary32 (-2) 0) eq_refl).
  rewrite (Hrelu 1%nat (S754_zero false) eq_refl).
  rewrite (Hrelu 2%nat (binary32 3 0) eq_refl).
  reflexivity.
Defined.

Section Shrinks.

Context {C : Collaborators} {N : Numerics}.

(** X8: [BuildThreshold] yields the element of [output] where
    [input > threshold] and [value] elsewhere, so also where the input is
    a NaN; the threshold is taken in the kind of the input and the value
    in the kind of the output, which may differ. *)
Theorem BuildThreshold_elements (env : Env) (input output : xla.XlaOp)
  (threshold value : spec_float) (tin tout : xla.PrimitiveType)
  (x o : spec_float) (i : nat) :
  xla.primitive_util.IsFloatingPointType tin = true ->
  xla.primitive_util.IsFloatingPointType tout = true ->
  eval env input i = Some (VFloat tin x) ->
  eval env output i = Some (VFloat tout o) ->
  eval env (BuildThreshold input output threshold value) i
  = Some (VFloat tout
            (if float_cmp xla.kGt x (float_literal tin threshold) then o
             else float_literal tout value))
  /\ (is_nan x = true ->
      eval env (BuildThreshold input output threshold value) i
      = Some (VFloat tout (float_literal tout value))).
Proof.
  intros Hfi Hfo Hx Ho.
  pose proof (eval_type env input i _ Hx) as Hki. cbn in Hki.
  pose proof (eval_type env output i _ Ho) as Hko. cbn in Hko.
  assert (Heval :
    eval env (BuildThreshold input output threshold value) i
    = Some (VFloat tout
              (if float_cmp xla.kGt x (float_literal tin threshold) then o
               else float_literal tout value))).
  { unfold BuildThreshold.
    change (xla.element_type (ShapeHelper.ShapeOfXlaOp input))
      with (XlaHelpers.TypeOfXlaOp input).
    change (xla.element_type (ShapeHelper.ShapeOfXlaOp output))
      with (XlaHelpers.TypeOfXlaOp output).
    rewrite <- Hki, <- Hko. unfold xla.Gt. cbn [eval].
    rewrite Hx, Ho, !eval_ScalarValue_float by assumption.
    float_steps. reflexivity. }
  split; [exact Heval|].
  intros Hnan. rewrite Heval, (is_nan_compare xla.kGt x _ Hnan). reflexivity.
Qed.

(** X9: [BuildHardshrink] yields 0 where [0 - lambda <= x <= lambda], both
    bounds included, and the element itself elsewhere; a NaN element fails
    both comparisons and stays a NaN.  [lambda] is first converted to the
    kind of the input. *)
Theorem BuildHardshrink_elements (env : Env) (input lambda : xla.XlaOp)
  (type from : xla.PrimitiveType) (x l : spec_float) (i : nat) :
  Promote_keeps_elements ->
  xla.primitive_util.IsFloatingPointType type = true ->
  eval env input i = Some (VFloat type x) ->
  eval env lambda i = Some (VFloat from l) ->
  let lam := converted_float type from l in
  let low := SFsub (prec_of type) (emax_of type) (S754_zero false) lam in
  eval_result env (BuildHardshrink input lambda) i
  = Some (VFloat type
            (if float_cmp xla.kGe x low && float_cmp xla.kLe x lam
             then S754_zero false else x))
  /\ (is_nan x = true ->
      eval_result env (BuildHardshrink input lambda) i
      = Some (VFloat type S754_nan)).
Proof.
  intros Hpromote Hf Hx Hl. cbv zeta.
  pose proof (eval_type env input i _ Hx) as Hk. cbn in Hk.
  pose proof (eval_MaybeConvertTo_float env lambda type from l i Hf Hl) as Hlam.
  assert (Heval :
    eval_result env (BuildHardshrink input lambda) i
    = Some (VFloat type
              (if float_cmp xla.kGe x
                    (SFsub (prec_of type) (emax_of type) (S754_zero false)
                       (converted_float type from l))
                  && float_cmp xla.kLe x (converted_float type from l)
               then S754_zero false else x))).
  { unfold BuildHardshrink.
    change (xla.element_type (ShapeHelper.ShapeOfXlaOp input))
      with (XlaHelpers.TypeOfXlaOp input).
    rewrite <- Hk.
    destruct (BuildComparisonOp_tags input
                (xla.Zero type - MaybeConvertTo lambda type)%xla)
      as (_ & _ & -> & _).
    destruct (BuildComparisonOp_tags input (MaybeConvertTo lambda type))
      as (_ & _ & _ & -> & _).
    cbn [bind eval_result].
    assert (Hlow : eval env (xla.Zero type - MaybeConvertTo lambda type)%xla i
                   = Some (VFloat type
                             (SFsub (prec_of type) (emax_of type)
                                (S754_zero false)
                                (converted_float type from l)))).
    { unfold xla.Sub. cbn [eval].
      rewrite eval_Zero_float, Hlam by assumption. float_steps. reflexivity. }
    destruct (eval_Promote_pair env input _ _ _ i Hpromote Hx Hlow eq_refl)
      as (El1 & Er1).
    destruct (eval_Promote_pair env input _ _ _ i Hpromote Hx Hlam eq_refl)
      as (El2 & Er2).
    unfold xla.And, xla.Ge, xla.Le. cbn [eval].
    rewrite El1, Er1, El2, Er2, Hx, eval_Zero_float by assumption.
    float_steps. cbn [eval_binary]. float_steps. reflexivity. }
  split; [exact Heval|].
  intros Hnan. rewrite Heval, (is_nan_compare xla.kGe x _ Hnan).
  destruct x; try discriminate. reflexivity.
Qed.

(** X10: [BuildSoftshrink] yields [x + lambda] where [x < -lambda],
    [x - lambda] where [x > lambda] and 0 elsewhere.  A NaN element fails
    both comparisons, so it yields 0 and not a NaN. *)
Theorem BuildSoftshrink_elements (env : Env) (input lambda : xla.XlaOp)
  (type from : xla.PrimitiveType) (x l : spec_float) (i : nat) :
  xla.primitive_util.IsFloatingPointType type = true ->
  eval env input i = Some (VFloat type x) ->
  eval env lambda i = Some (VFloat from l) ->
  let lam := converted_float type from l in
  eval env (BuildSoftshrink input lambda) i
  = Some (VFloat type
            (if float_cmp xla.kLt x (SFopp lam)
             then SFadd (prec_of type) (emax_of type) x lam
             else if float_cmp xla.kGt x lam
                  then SFsub (prec_of type) (emax_of type) x lam
                  else S754_zero false))
  /\ (is_nan x = true ->
      eval env (BuildSoftshrink input lambda) i
      = Some (VFloat type (S754_zero false))).
Proof.
  intros Hf Hx Hl. cbv zeta.
  pose proof (eval_type env input i _ Hx) as Hk. cbn in Hk.
  pose proof (eval_MaybeConvertTo_float env lambda type from l i Hf Hl) as Hlam.
  assert (Heval :
    eval env (BuildSoftshrink input lambda) i
    = Some (VFloat type
              (if float_cmp xla.kLt x (SFopp (converted_float type from l))
               then SFadd (prec_of type) (emax_of type) x
                      (converted_float type from l)
               else if float_cmp xla.kGt x (converted_float type from l)
                    then SFsub (prec_of type) (emax_of type) x
                           (converted_float type from l)
                    else S754_zero false))).
  { unfold BuildSoftshrink.
    change (xla.element_type (ShapeHelper.ShapeOfXlaOp input))
      with (XlaHelpers.TypeOfXlaOp input).
    rewrite <- Hk.
    unfold xla.Lt, xla.Gt, xla.Neg, xla.Add, xla.Sub. cbn [eval].
    rewrite Hx, Hlam, eval_Zero_float by assumption.
    cbn [bind_option eval_unary]. float_steps. reflexivity. }
  split; [exact Heval|].
  intros Hnan.
  rewrite Heval, (is_nan_compare xla.kLt x _ Hnan),
    (is_nan_compare xla.kGt x _ Hnan). reflexivity.
Qed.

(** X11: [BuildShrinkBackward] blocks the gradient (yields 0) where
    [0 - lambda <= x <= lambda] and passes it elsewhere, so also where the
    input is a NaN. *)
Theorem BuildShrinkBackward_elements (env : Env)
  (grad_output input lambda : xla.XlaOp)
  (type from : xla.PrimitiveType) (g x l : spec_float) (i : nat) :
  Promote_keeps_elements ->
  xla.primitive_util.IsFloatingPointType type = true ->
  eval env grad_output i = Some (VFloat type g) ->
  eval env input i = Some (VFloat type x) ->
  eval env lambda i = Some (VFloat from l) ->
  let lam := converted_float type from l in
  let low := SFsub (prec_of type) (emax_of type) (S754_zero false) lam in
  eval_result env (BuildShrinkBackward grad_output input lambda) i
  = Some (VFloat type
            (if float_cmp xla.kGe x low && float_cmp xla.kLe x lam
             then S754_zero false else g))
  /\ (is_nan x = true ->
      eval_result env (BuildShrinkBackward grad_output input lambda) i
      = Some (VFloat type g)).
Proof.
  intros Hpromote Hf Hg Hx Hl. cbv zeta.
  pose proof (eval_type env input i _ Hx) as Hk. cbn in Hk.
  pose proof (eval_MaybeConvertTo_float env lambda type from l i Hf Hl) as Hlam.
  assert (Heval :
    eval_result env (BuildShrinkBackward grad_output input lambda) i
    = Some (VFloat type
              (if float_cmp xla.kGe x
                    (SFsub (prec_of type) (emax_of type) (S754_zero false)
                       (converted_float type from l))
                  && float_cmp xla.kLe x (converted_float type from l)
               then S754_zero false else g))).
  { unfold BuildShrinkBackward.
    change (xla.element_type (ShapeHelper.ShapeOfXlaOp input))
      with (XlaHelpers.TypeOfXlaOp input).
    rewrite <- Hk.
    destruct (BuildComparisonOp_tags input
                (xla.Zero type - MaybeConvertTo lambda type)%xla)
      as (_ & _ & -> & _).
    destruct (BuildComparisonOp_tags input (MaybeConvertTo lambda type))
      as (_ & _ & _ & -> & _).
    cbn [bind eval_result].
    assert (Hlow : eval env (xla.Zero type - MaybeConvertTo lambda type)%xla i
                   = Some (VFloat type
                             (SFsub (prec_of type) (emax_of type)
                                (S754_zero false)
                                (converted_float type from l)))).
    { unfold xla.Sub. cbn [eval].
      rewrite eval_Zero_float, Hlam by assumption. float_steps. reflexivity. }
    destruct (eval_Promote_pair env input _ _ _ i Hpromote Hx Hlow eq_refl)
      as (El1 & Er1).
    destruct (eval_Promote_pair env input _ _ _ i Hpromote Hx Hlam eq_refl)
      as (El2 & Er2).
    unfold xla.And, xla.Ge, xla.Le. cbn [eval].
    rewrite El1, Er1, El2, Er2, Hg, eval_Zero_float by assumption.
    float_steps. cbn [eval_binary]. float_steps. reflexivity. }
  split; [exact Heval|].
  intros Hnan. rewrite Heval, (is_nan_compare xla.kGe x _ Hnan). reflexivity.
Qed.

(** X12: [BuildHardtanhBackward] passes the gradient where
    [min_val <= x <= max_val], both bounds included, and yields 0
    elsewhere, so also where the input is a NaN. *)
Theorem BuildHardtanhBackward_elements (env : Env)
  (grad_output input : xla.XlaOp) (min_val max_val : HostScalar)
  (type : xla.PrimitiveType) (g x : spec_float) (i : nat) :
  Promote_keeps_elements ->
  xla.primitive_util.IsFloatingPointType type = true ->
  eval env grad_output i = Some (VFloat type g) ->
  eval env input i = Some (VFloat type x) ->
  eval_result env (BuildHardtanhBackward grad_output input min_val max_val) i
  = Some (VFloat type
            (if float_cmp xla.kGe x (float_of_host type min_val)
                && float_cmp xla.kLe x (float_of_host type max_val)
             then g else S754_zero false))
  /\ (is_nan x = true ->
      eval_result env
        (BuildHardtanhBackward grad_output input min_val max_val) i
      = Some (VFloat type (S754_zero false))).
Proof.
  intros Hpromote Hf Hg Hx.
  pose proof (eval_BuildHardtanhBackward env grad_output input min_val max_val
                type g x i Hpromote Hf Hg Hx) as Heval.
  split; [exact Heval|].
  intros Hnan. rewrite Heval, (is_nan_compare xla.kGe x _ Hnan). reflexivity.
Qed.

(** X13: [BuildHardSigmoidBackward] yields [grad / 6] where
    [-3 <= x <= 3], both bounds included, and 0 elsewhere, so also where
    the input is a NaN. *)
Theorem BuildHardSigmoidBackward_elements (env : Env)
  (grad_output input : xla.XlaOp)
  (type : xla.PrimitiveType) (g x : spec_float) (i : nat) :
  Promote_keeps_elements ->
  xla.primitive_util.IsFloatingPointType type = true ->
  eval env grad_output i = Some (VFloat type g) ->
  eval env input i = Some (VFloat type x) ->
  eval_result env (BuildHardSigmoidBackward grad_output input) i
  = Some (VFloat type
            (if float_cmp xla.kGe x
                  (float_of_host type (HostReal (binary64 (-3) 0)))
                && float_cmp xla.kLe x
                     (float_of_host type (HostReal (binary64 3 0)))
             then SFdiv (prec_of type) (emax_of type) g
                    (float_literal type (binary64 6 0))
             else S754_zero false))
  /\ (is_nan x = true ->
      eval_result env (BuildHardSigmoidBackward grad_output input) i
      = Some (VFloat type (S754_zero false))).
Proof.
  intros Hpromote Hf Hg Hx.
  pose proof (eval_BuildHardSigmoidBackward env grad_output input
                type g x i Hpromote Hf Hg Hx) as Heval.
  split; [exact Heval|].
  intros Hnan. rewrite Heval, (is_nan_compare xla.kGe x _ Hnan). reflexivity.
Qed.

End Shrinks.

Lemma BuildThreshold_witness :
  eval (N := reference_numerics)
    (env_of [[VFloat xla.F32 S754_nan]; [VFloat xla.F64 (binary64 5 0)]])
    (BuildThreshold (xla.GraphInput 0 (xla.MakeShape xla.F32 [1%nat]))
       (xla.GraphInput 1 (xla.MakeShape xla.F64 [1%nat]))
       (binary64 1 0) (binary64 7 0)) 0
  = Some (VFloat xla.F64 (binary64 7 0)).
Proof.
  exact (proj2 (BuildThreshold_elements (N := reference_numerics)
                  (env_of [[VFloat xla.F32 S754_nan];
                           [VFloat xla.F64 (binary64 5 0)]])
                  (xla.GraphInput 0 (xla.MakeShape xla.F32 [1%nat]))
                  (xla.GraphInput 1 (xla.MakeShape xla.F64 [1%nat]))
                  (binary64 1 0) (binary64 7 0) xla.F32 xla.F64
                  S754_nan (binary64 5 0) 0 eq_refl eq_refl eq_refl eq_refl)
           eq_refl).
Defined.

Lemma BuildHardshrink_witness :
  eval_result (N := reference_numerics)
    (env_of [[VFloat xla.F32 (binary32 (-1) 0)]; [VFloat xla.F64 (binary64 1 0)]])
    (BuildHardshrink (C := reference_collaborators)
       (xla.GraphInput 0 (xla.MakeShape xla.F32 [1%nat]))
       (xla.GraphInput 1 (xla.MakeShape xla.F64 []))) 0
  = Some (VFloat xla.F32 (S754_zero false)).
Proof.
  exact (proj1 (BuildHardshrink_elements (C := reference_collaborators)
                  (N := reference_numerics)
                  (env_of [[VFloat xla.F32 (binary32 (-1) 0)];
                           [VFloat xla.F64 (binary64 1 0)]])
                  (xla.GraphInput 0 (xla.MakeShape xla.F32 [1%nat]))
                  (xla.GraphInput 1 (xla.MakeShape xla.F64 []))
                  xla.F32 xla.F64 (binary32 (-1) 0) (binary64 1 0) 0
                  (reference_Promote_keeps_elements reference_numerics)
                  eq_refl eq_refl eq_refl)).
Defined.

Lemma BuildSoftshrink_witness :
  eval (N := reference_numerics)
    (env_of [[VFloat xla.F32 (binary32 (-2) 0); VFloat xla.F32 S754_nan];
             [VFloat xla.F32 (binary32 1 0)]])
    (BuildSoftshrink (xla.GraphInput 0 (xla.MakeShape xla.F32 [2%nat]))
       (xla.GraphInput 1 (xla.MakeShape xla.F32 []))) 0
  = Some (VFloat xla.F32 (SFopp (binary32 1 0)))
  /\ eval (N := reference_numerics)
       (env_of [[VFloat xla.F32 (binary32 (-2) 0); VFloat xla.F32 S754_nan];
                [VFloat xla.F32 (binary32 1 0)]])
       (BuildSoftshrink (xla.GraphInput 0 (xla.MakeShape xla.F32 [2%nat]))
          (xla.GraphInput 1 (xla.MakeShape xla.F32 []))) 1
     = Some (VFloat xla.F32 (S754_zero false)).
Proof.
  split.
  - exact (proj1 (BuildSoftshrink_elements (N := reference_numerics)
                    (env_of [[VFloat xla.F32 (binary32 (-2) 0);
                              VFloat xla.F32 S754_nan];
                             [VFloat xla.F32 (binary32 1 0)]])
                    (xla.GraphInput 0 (xla.MakeShape xla.F32 [2%nat]))
                    (xla.GraphInput 1 (xla.MakeShape xla.F32 []))
                    xla.F32 xla.F32 (binary32 (-2) 0) (binary32 1 0) 0
                    eq_refl eq_refl eq_refl)).
  - exact (proj2 (BuildSoftshrink_elements (N := reference_numerics)
                    (env_of [[VFloat xla.F32 (binary32 (-2) 0);
                              VFloat xla.F32 S754_nan];
                             [VFloat xla.F32 (binary32 1 0)]])
                    (xla.GraphInput 0 (xla.MakeShape xla.F32 [2%nat]))
                    (xla.GraphInput 1 (xla.MakeShape xla.F32 []))
                    xla.F32 xla.F32 S754_nan (binary32 1 0) 1
                    eq_refl eq_refl eq_refl)
             eq_refl).
Defined.

Lemma BuildShrinkBackward_witness :
  eval_result (N := reference_numerics)
    (env_of [[VFloat xla.F32 (binary32 5 0)]; [VFloat xla.F32 S754_nan];
             [VFloat xla.F32 (binary32 1 0)]])
    (BuildShrinkBackward (C := reference_collaborators)
       (xla.GraphInput 0 (xla.MakeShape xla.F32 [1%nat]))
       (xla.GraphInput 1 (xla.MakeShape xla.F32 [1%nat]))
       (xla.GraphInput 2 (xla.MakeShape xla.F32 []))) 0
  = Some (VFloat xla.F32 (binary32 5 0)).
Proof.
  exact (proj2 (BuildShrinkBackward_elements (C := reference_collaborators)
                  (N := reference_numerics)
                  (env_of [[VFloat xla.F32 (binary32 5 0)];
                           [VFloat xla.F32 S754_nan];
                           [VFloat xla.F32 (binary32 1 0)]])
                  (xla.GraphInput 0 (xla.MakeShape xla.F32 [1%nat]))
                  (xla.GraphInput 1 (xla.MakeShape xla.F32 [1%nat]))
                  (xla.GraphInput 2 (xla.MakeShape xla.F32 []))
                  xla.F32 xla.F32 (binary32 5 0) S754_nan (binary32 1 0) 0
                  (reference_Promote_keeps_elements reference_numerics)
                  eq_refl eq_refl eq_refl eq_refl)
           eq_refl).
Defined.

Lemma BuildHardtanhBackward_witness :
  eval_result (N := reference_numerics)
    (env_of [[VFloat xla.F32 (binary32 5 0)]; [VFloat xla.F32 (binary32 1 0)]])
    (BuildHardtanhBackward (C := reference_collaborators)
       (xla.GraphInput 0 (xla.MakeShape xla.F32 [1%nat]))
       (xla.GraphInput 1 (xla.MakeShape xla.F32 [1%nat]))
       (HostReal (binary64 (-1) 0)) (HostReal (binary64 1 0))) 0
  = Some (VFloat xla.F32 (binary32 5 0)).
Proof.
  exact (proj1 (BuildHardtanhBackward_elements (C := reference_collaborators)
                  (N := reference_numerics)
                  (env_of [[VFloat xla.F32 (binary32 5 0)];
                           [VFloat xla.F32 (binary32 1 0)]])
                  (xla.GraphInput 0 (xla.MakeShape xla.F32 [1%nat]))
                  (xla.GraphInput 1 (xla.MakeShape xla.F32 [1%nat]))
                  (HostReal (binary64 (-1) 0)) (HostReal (binary64 1 0))
                  xla.F32 (binary32 5 0) (binary32 1 0) 0
                  (reference_Promote_keeps_elements reference_numerics)
                  eq_refl eq_refl eq_refl)).
Defined.

Lemma BuildHardSigmoidBackward_witness :
  eval_result (N := reference_numerics)
    (env_of [[VFloat xla.F32 (binary32 3 0)]; [VFloat xla.F32 (binary32 3 0)]])
    (BuildHardSigmoidBackward (C := reference_collaborators)
       (xla.GraphInput 0 (xla.MakeShape xla.F32 [1%nat]))
       (xla.GraphInput 1 (xla.MakeShape xla.F32 [1%nat]))) 0
  = Some (VFloat xla.F32 (binary32 1 (-1))).
Proof.
  exact (proj1 (BuildHardSigmoidBackward_elements
                  (C := reference_collaborators) (N := reference_numerics)
                  (env_of [[VFloat xla.F32 (binary32 3 0)];
                           [VFloat xla.F32 (binary32 3 0)]])
                  (xla.GraphInput 0 (xla.MakeShape xla.F32 [1%nat]))
                  (xla.GraphInput 1 (xla.MakeShape xla.F32 [1%nat]))
                  xla.F32 (binary32 3 0) (binary32 3 0) 0
                  (reference_Promote_keeps_elements reference_numerics)
                  eq_refl eq_refl eq_refl)).
Defined.

(** ** More on the order and the product of floats *)

Lemma SFmul_comm (prec emax : Z) (x y : spec_float) :
  SFmul prec emax x y = SFmul prec emax y x.
Proof.
  destruct x as [sx | sx | | sx mx ex], y as [sy | sy | | sy my ey];
    cbn; rewrite ?(xorb_comm sx sy); try reflexivity.
  rewrite (Pos.mul_comm mx my), (Z.add_comm ex ey). reflexivity.
Qed.

Lemma SFcompare_None (a b : spec_float) :
  SFcompare a b = None -> is_nan a = true \/ is_nan b = true.
Proof.
  destruct a as [sa | sa | | sa ma ea], b as [sb | sb | | sb mb eb];
    cbn; auto; discriminate.
Qed.

Lemma not_below_is_above (a b : spec_float) :
  is_nan a = false -> is_nan b = false ->
  SFltb a b = false -> float_cmp xla.kGe a b = true.
Proof.
  intros Ha Hb. unfold SFltb, float_cmp.
  pose proof (SFcompare_None a b) as Hnone.
  destruct (SFcompare a b) as [[]|]; try reflexivity; try discriminate.
  destruct Hnone as [Hn | Hn]; [reflexivity | congruence | congruence].
Qed.

Lemma float_cmp_flip (a b : spec_float) :
  float_cmp xla.kLe a b = float_cmp xla.kGe b a.
Proof.
  unfold float_cmp. rewrite (SFcompare_antisym a b).
  destruct (SFcompare a b) as [[]|]; reflexivity.
Qed.

Lemma float_cmp_self (a : spec_float) :
  is_nan a = false ->
  float_cmp xla.kGe a a = true /\ float_cmp xla.kLe a a = true.
Proof.
  intros Ha. unfold float_cmp. rewrite SFcompare_refl, Ha. split; reflexivity.
Qed.

Lemma float_cmp_not_nan (direction : xla.ComparisonDirection)
  (a b : spec_float) :
  direction <> xla.kNe ->
  float_cmp direction a b = true -> is_nan a = false /\ is_nan b = false.
Proof.
  intros Hd. unfold float_cmp.
  destruct a, b; cbn; try (split; reflexivity);
    destruct direction; try discriminate; congruence.
Qed.

(** The clamp of a float that is not a NaN lies between the bounds. *)
Lemma float_clamp_bounds (y lo hi : spec_float) :
  is_nan y = false ->
  float_cmp xla.kLe lo hi = true ->
  float_cmp xla.kGe (float_min (float_max y lo) hi) lo = true
  /\ float_cmp xla.kLe (float_min (float_max y lo) hi) hi = true.
Proof.
  intros Hy Hle.
  destruct (float_cmp_not_nan xla.kLe lo hi ltac:(discriminate) Hle)
    as (Hlo & Hhi).
  destruct (float_cmp_self lo Hlo) as (Hlo1 & Hlo2).
  destruct (float_cmp_self hi Hhi) as (Hhi1 & Hhi2).
  unfold float_max. rewrite Hy, Hlo. cbn [orb].
  destruct (SFltb y lo) eqn:E1; unfold float_min.
  - rewrite Hlo, Hhi. cbn [orb].
    destruct (SFltb hi lo) eqn:E2.
    + split; [rewrite <- float_cmp_flip; exact Hle | exact Hhi2].
    + split; [exact Hlo1 | exact Hle].
  - rewrite Hy, Hhi. cbn [orb].
    destruct (SFltb hi y) eqn:E2.
    + split; [rewrite <- float_cmp_flip; exact Hle | exact Hhi2].
    + split; [apply not_below_is_above; assumption|].
      rewrite float_cmp_flip. apply not_below_is_above; assumption.
Qed.

Section Activations.

Context {C : Collaborators} {St : Settings} {N : Numerics}.

(** X14: [BuildHardSwish] is the product of the input and
    [BuildHardSigmoid]: the two build the same clamp, and hard-swish is
    [x * hard_sigmoid x] instruction for instruction.  The hard sigmoid of
    a float [x] is [c / 6] with [c] the clamp of [x + 3] to [[0, 6]]: [c]
    lies within [[0, 6]] unless [x + 3] is a NaN. *)
Theorem BuildHardSwish_is_input_times_BuildHardSigmoid (env : Env)
  (input : xla.XlaOp) (type : xla.PrimitiveType) (x : spec_float) (i : nat) :
  xla.primitive_util.IsFloatingPointType type = true ->
  eval env input i = Some (VFloat type x) ->
  let six := float_literal type (binary64 6 0) in
  let shifted :=
    SFadd (prec_of type) (emax_of type) x (float_literal type (binary64 3 0)) in
  let clamped := float_min (float_max shifted (S754_zero false)) six in
  BuildHardSwish input = xla.Mul input (BuildHardSigmoid input) []
  /\ eval env (BuildHardSigmoid input) i
     = Some (VFloat type (SFdiv (prec_of type) (emax_of type) clamped six))
  /\ eval env (BuildHardSwish input) i
     = Some (VFloat type
               (SFmul (prec_of type) (emax_of type) x
                  (SFdiv (prec_of type) (emax_of type) clamped six)))
  /\ (is_nan shifted = false ->
      float_cmp xla.kGe clamped (S754_zero false) = true
      /\ float_cmp xla.kLe clamped six = true).
Proof.
  intros Hf Hx. cbv zeta.
  pose proof (eval_type env input i _ Hx) as Hk. cbn in Hk.
  split; [reflexivity|].
  assert (Hsig :
    eval env (BuildHardSigmoid input) i
    = Some (VFloat type
              (SFdiv (prec_of type) (emax_of type)
                 (float_min
                    (float_max
                       (SFadd (prec_of type) (emax_of type) x
                          (float_literal type (binary64 3 0)))
                       (S754_zero false))
                    (float_literal type (binary64 6 0)))
                 (float_literal type (binary64 6 0))))).
  { unfold BuildHardSigmoid.
    change (xla.element_type (ShapeHelper.ShapeOfXlaOp input))
      with (XlaHelpers.TypeOfXlaOp input).
    rewrite <- Hk. unfold xla.Min, xla.Max, xla.Add, xla.Div. cbn [eval].
    rewrite Hx, !eval_ScalarValue_float, eval_Zero_float by assumption.
    float_steps. reflexivity. }
  split; [exact Hsig|]. split.
  - change (BuildHardSwish input)
      with (xla.Mul input (BuildHardSigmoid input) []).
    unfold xla.Mul. cbn [eval]. rewrite Hx, Hsig. float_steps. reflexivity.
  - intros Hnan. apply float_clamp_bounds; [exact Hnan|].
    destruct type; try discriminate Hf; reflexivity.
Qed.

Lemma eval_BuildLeakyReluBackward (env : Env)
  (grad_output input negative_slope : xla.XlaOp)
  (type from : xla.PrimitiveType) (g x s : spec_float) (i : nat) :
  xla.primitive_util.IsFloatingPointType type = true ->
  eval env grad_output i = Some (VFloat type g) ->
  eval env input i = Some (VFloat type x) ->
  eval env negative_slope i = Some (VFloat from s) ->
  eval env (BuildLeakyReluBackward grad_output input negative_slope) i
  = Some (VFloat type
            (if float_cmp xla.kGt x (S754_zero false) then g
             else SFmul (prec_of type) (emax_of type)
                    (converted_float type from s) g)).
Proof.
  intros Hf Hg Hx Hs.
  pose proof (eval_type env input i _ Hx) as Hk. cbn in Hk.
  pose proof (eval_MaybeConvertTo_float env negative_slope type from s i Hf Hs)
    as Hslope.
  unfold BuildLeakyReluBackward.
  change (xla.element_type (ShapeHelper.ShapeOfXlaOp input))
    with (XlaHelpers.TypeOfXlaOp input).
  rewrite <- Hk. unfold xla.Gt, xla.Mul. cbn [eval].
  rewrite Hx, Hg, Hslope, eval_Zero_float by assumption.
  float_steps. reflexivity.
Qed.

(** X15: [BuildLeakyReluBackward] passes the gradient where [x > 0] and
    scales it by the slope elsewhere, so also where the input is a NaN;
    the slope is first converted to the kind of the input.
    [BuildLeakyRelu] is the same lowering with the input as gradient. *)
Theorem BuildLeakyReluBackward_elements (env : Env)
  (grad_output input negative_slope : xla.XlaOp)
  (type from : xla.PrimitiveType) (g x s : spec_float) (i : nat) :
  xla.primitive_util.IsFloatingPointType type = true ->
  eval env grad_output i = Some (VFloat type g) ->
  eval env input i = Some (VFloat type x) ->
  eval env negative_slope i = Some (VFloat from s) ->
  let slope := converted_float type from s in
  eval env (BuildLeakyReluBackward grad_output input negative_slope) i
  = Some (VFloat type
            (if float_cmp xla.kGt x (S754_zero false) then g
             else SFmul (prec_of type) (emax_of type) slope g))
  /\ eval env (BuildLeakyRelu input negative_slope) i
     = Some (VFloat type
               (if float_cmp xla.kGt x (S754_zero false) then x
                else SFmul (prec_of type) (emax_of type) slope x)).
Proof.
  intros Hf Hg Hx Hs. cbv zeta. split.
  - exact (eval_BuildLeakyReluBackward env grad_output input negative_slope
             type from g x s i Hf Hg Hx Hs).
  - exact (eval_BuildLeakyReluBackward env input input negative_slope
             type from x x s i Hf Hx Hx Hs).
Qed.

(** X16: with a weight of the kind of the input, [BuildPrelu] computes the
    elements [BuildLeakyRelu] computes with the weight as slope, the
    first gradient of [BuildPreluBackward] is [BuildLeakyReluBackward]
    itself, and the second, the gradient of the weight, is 0 where
    [x > 0] and [x * grad] elsewhere. *)
Theorem BuildPrelu_is_leaky_relu (env : Env) (grad input weight : xla.XlaOp)
  (type : xla.PrimitiveType) (g x w : spec_float) (i : nat) :
  xla.primitive_util.IsFloatingPointType type = true ->
  eval env grad i = Some (VFloat type g) ->
  eval env input i = Some (VFloat type x) ->
  eval env weight i = Some (VFloat type w) ->
  eval env (BuildPrelu input weight) i
  = eval env (BuildLeakyRelu input weight) i
  /\ eval env (BuildPrelu input weight) i
     = Some (VFloat type
               (if float_cmp xla.kGt x (S754_zero false) then x
                else SFmul (prec_of type) (emax_of type) x w))
  /\ nth 0 (BuildPreluBackward grad input weight) grad
     = BuildLeakyReluBackward grad input weight
  /\ eval env (nth 1 (BuildPreluBackward grad input weight) grad) i
     = Some (VFloat type
               (if float_cmp xla.kGt x (S754_zero false) then S754_zero false
                else SFmul (prec_of type) (emax_of type) x g)).
Proof.
  intros Hf Hg Hx Hw.
  pose proof (eval_type env input i _ Hx) as Hk. cbn in Hk.
  pose proof (eval_type env weight i _ Hw) as Hkw. cbn in Hkw.
  assert (Hprelu :
    eval env (BuildPrelu input weight) i
    = Some (VFloat type
              (if float_cmp xla.kGt x (S754_zero false) then x
               else SFmul (prec_of type) (emax_of type) x w))).
  { unfold BuildPrelu.
    change (xla.element_type (ShapeHelper.ShapeOfXlaOp input))
      with (XlaHelpers.TypeOfXlaOp input).
    rewrite <- Hk. unfold xla.Gt, xla.Mul. cbn [eval].
    rewrite Hx, Hw, eval_Zero_float by assumption.
    float_steps. reflexivity. }
  split; [|split; [exact Hprelu|split]].
  - rewrite Hprelu.
    change (BuildLeakyRelu input weight)
      with (BuildLeakyReluBackward input input weight).
    rewrite (eval_BuildLeakyReluBackward env input input weight
               type type x x w i Hf Hx Hx Hw).
    unfold converted_float. rewrite PrimitiveType_eqb_refl.
    rewrite (SFmul_comm _ _ w x). reflexivity.
  - unfold BuildPreluBackward, BuildLeakyReluBackward, MaybeConvertTo.
    change (xla.element_type (ShapeHelper.ShapeOfXlaOp input))
      with (XlaHelpers.TypeOfXlaOp input).
    rewrite <- Hk, <- Hkw, PrimitiveType_eqb_refl. reflexivity.
  - unfold BuildPreluBackward.
    change (xla.element_type (ShapeHelper.ShapeOfXlaOp input))
      with (XlaHelpers.TypeOfXlaOp input).
    rewrite <- Hk. cbn [nth]. unfold xla.Gt, xla.Mul. cbn [eval].
    rewrite Hx, Hg, eval_Zero_float by assumption.
    float_steps. reflexivity.
Qed.

(** X18: [BuildReciprocal] divides one by the element.  On floats the
    reciprocal of a zero is the infinity of its sign, that of an infinity
    the zero of its sign, and that of a NaN a NaN; on integers the
    division truncates, so every element of magnitude above 1 yields 0. *)
Theorem BuildReciprocal_edges (env : Env) (input : xla.XlaOp)
  (type : xla.PrimitiveType) (i : nat) :
  (forall x : spec_float,
     xla.primitive_util.IsFloatingPointType type = true ->
     eval env input i = Some (VFloat type x) ->
     eval env (BuildReciprocal input) i
     = Some (VFloat type
               (SFdiv (prec_of type) (emax_of type) (int_to_float type 1) x))
     /\ (forall s, x = S754_zero s ->
           eval env (BuildReciprocal input) i
           = Some (VFloat type (S754_infinity s)))
     /\ (forall s, x = S754_infinity s ->
           eval env (BuildReciprocal input) i
           = Some (VFloat type (S754_zero s)))
     /\ (x = S754_nan ->
         eval env (BuildReciprocal input) i = Some (VFloat type S754_nan)))
  /\ (forall z : Z,
        xla.primitive_util.IsIntegralType type = true ->
        eval env input i = Some (VInt type z) ->
        z <> 0 ->
        eval env (BuildReciprocal input) i
        = Some (VInt type (wrap type (Z.quot 1 z)))
        /\ (1 < Z.abs z ->
            eval env (BuildReciprocal input) i = Some (VInt type 0))).
Proof.
  split.
  - intros x Hf Hx.
    pose proof (eval_type env input i _ Hx) as Hk. cbn in Hk.
    assert (Heval :
      eval env (BuildReciprocal input) i
      = Some (VFloat type
                (SFdiv (prec_of type) (emax_of type) (int_to_float type 1) x))).
    { unfold BuildReciprocal.
      change (xla.element_type (ShapeHelper.ShapeOfXlaOp input))
        with (XlaHelpers.TypeOfXlaOp input).
      rewrite <- Hk. unfold xla.Div, xla.One. cbn [eval].
      rewrite Hx, cast_host_float by assumption.
      float_steps. reflexivity. }
    split; [exact Heval|]. rewrite Heval.
    repeat split; intros; subst x;
      destruct type; try discriminate Hf; reflexivity.
  - intros z Hi Hz Hnz.
    pose proof (eval_type env input i _ Hz) as Hk. cbn in Hk.
    assert (Hone : wrap type 1 = 1)
      by (destruct type; try discriminate Hi; reflexivity).
    assert (Heval :
      eval env (BuildReciprocal input) i
      = Some (VInt type (wrap type (Z.quot 1 z)))).
    { unfold BuildReciprocal.
      change (xla.element_type (ShapeHelper.ShapeOfXlaOp input))
        with (XlaHelpers.TypeOfXlaOp input).
      rewrite <- Hk. unfold xla.Div, xla.One. cbn [eval].
      rewrite Hz, cast_host_int by assumption. cbn [bind_option eval_binary is_shift].
      rewrite PrimitiveType_eqb_refl. cbn [eval_int_binary].
      apply Z.eqb_neq in Hnz. rewrite Hnz, Hone. reflexivity. }
    split; [exact Heval|].
    intros Hbig. rewrite Heval.
    assert (Hq : Z.quot 1 z = 0) by (apply Z.quot_small_iff; lia).
    rewrite Hq, integral_wrap_zero by assumption. reflexivity.
Qed.

End Activations.

Lemma BuildHardSwish_witness :
  eval (N := reference_numerics) (env_of [[VFloat xla.F32 (binary32 3 0)]])
    (BuildHardSwish (xla.GraphInput 0 (xla.MakeShape xla.F32 [1%nat]))) 0
  = Some (VFloat xla.F32 (binary32 3 0)).
Proof.
  exact (proj1 (proj2 (proj2
           (BuildHardSwish_is_input_times_BuildHardSigmoid
              (N := reference_numerics)
              (env_of [[VFloat xla.F32 (binary32 3 0)]])
              (xla.GraphInput 0 (xla.MakeShape xla.F32 [1%nat]))
              xla.F32 (binary32 3 0) 0 eq_refl eq_refl)))).
Defined.

Lemma BuildLeakyReluBackward_witness :
  eval (N := reference_numerics)
    (env_of [[VFloat xla.F32 (binary32 (-4) 0)];
             [VFloat xla.F64 (binary64 1 (-2))]])
    (BuildLeakyRelu (xla.GraphInput 0 (xla.MakeShape xla.F32 [1%nat]))
       (xla.GraphInput 1 (xla.MakeShape xla.F64 []))) 0
  = Some (VFloat xla.F32 (SFopp (binary32 1 0))).
Proof.
  exact (proj2 (BuildLeakyReluBackward_elements (N := reference_numerics)
                  (env_of [[VFloat xla.F32 (binary32 (-4) 0)];
                           [VFloat xla.F64 (binary64 1 (-2))]])
                  (xla.GraphInput 0 (xla.MakeShape xla.F32 [1%nat]))
                  (xla.GraphInput 0 (xla.MakeShape xla.F32 [1%nat]))
                  (xla.GraphInput 1 (xla.MakeShape xla.F64 []))
                  xla.F32 xla.F64 (binary32 (-4) 0) (binary32 (-4) 0)
                  (binary64 1 (-2)) 0 eq_refl eq_refl eq_refl eq_refl)).
Defined.

Lemma BuildPrelu_witness :
  eval (N := reference_numerics)
    (env_of [[VFloat xla.F32 (binary32 1 0)];
             [VFloat xla.F32 (binary32 (-4) 0)];
             [VFloat xla.F32 (binary32 1 (-2))]])
    (BuildPrelu (xla.GraphInput 1 (xla.MakeShape xla.F32 [1%nat]))
       (xla.GraphInput 2 (xla.MakeShape xla.F32 [1%nat]))) 0
  = Some (VFloat xla.F32 (SFopp (binary32 1 0))).
Proof.
  exact (proj1 (proj2
           (BuildPrelu_is_leaky_relu (N := reference_numerics)
              (env_of [[VFloat xla.F32 (binary32 1 0)];
                       [VFloat xla.F32 (binary32 (-4) 0)];
                       [VFloat xla.F32 (binary32 1 (-2))]])
              (xla.GraphInput 0 (xla.MakeShape xla.F32 [1%nat]))
              (xla.GraphInput 1 (xla.MakeShape xla.F32 [1%nat]))
              (xla.GraphInput 2 (xla.MakeShape xla.F32 [1%nat]))
              xla.F32 (binary32 1 0) (binary32 (-4) 0) (binary32 1 (-2)) 0
              eq_refl eq_refl eq_refl eq_refl))).
Defined.

Lemma BuildReciprocal_witness :
  eval (N := reference_numerics) (env_of [[VFloat xla.F32 (S754_zero true)]])
    (BuildReciprocal (xla.GraphInput 0 (xla.MakeShape xla.F32 [1%nat]))) 0
  = Some (VFloat xla.F32 (S754_infinity true))
  /\ eval (N := reference_numerics) (env_of [[VInt xla.S32 (-7)]])
       (BuildReciprocal (xla.GraphInput 0 (xla.MakeShape xla.S32 [1%nat]))) 0
     = Some (VInt xla.S32 0).
Proof.
  split.
  - exact (proj1 (proj2
             (proj1 (BuildReciprocal_edges (N := reference_numerics)
                       (env_of [[VFloat xla.F32 (S754_zero true)]])
                       (xla.GraphInput 0 (xla.MakeShape xla.F32 [1%nat]))
                       xla.F32 0)
                (S754_zero true) eq_refl eq_refl))
             true eq_refl).
  - refine (proj2
              (proj2 (BuildReciprocal_edges (N := reference_numerics)
                        (env_of [[VInt xla.S32 (-7)]])
                        (xla.GraphInput 0 (xla.MakeShape xla.S32 [1%nat]))
                        xla.S32 0)
                 (-7) eq_refl eq_refl _) _); cbn; lia.
Defined.

Section RreluElu.

Context {C : Collaborators} {N : Numerics}.

Lemma eval_BuildRrelu_noise (env : Env) (input rng_seed : xla.XlaOp)
  (lower upper : HostScalar) (type : xla.PrimitiveType) (x : spec_float)
  (seed : Value) (i : nat) :
  xla.primitive_util.IsFloatingPointType type = true ->
  eval env input i = Some (VFloat type x) ->
  eval env rng_seed 0 = Some seed ->
  eval env (nth 1 (BuildRrelu input lower upper true rng_seed) input) i
  = Some (VFloat type
            (if float_cmp xla.kGt x (S754_zero false)
             then int_to_float type 1
             else uniform_draw seed (xla.MakeShape type [])
                    (float_of_host type lower) (float_of_host type upper) 0)).
Proof.
  intros Hf Hx Hseed.
  pose proof (eval_type env input i _ Hx) as Hk. cbn in Hk.
  unfold BuildRrelu.
  change (xla.element_type (ShapeHelper.ShapeOfXlaOp input))
    with (XlaHelpers.TypeOfXlaOp input).
  rewrite <- Hk. cbn [nth].
  unfold xla.Gt, RngUniform, XlaHelpers.ScalarValue, xla.One.
  cbn [eval]. rewrite Hx, Hseed, eval_Zero_float by assumption.
  rewrite !cast_host_float by assumption. cbn [bind_option].
  cbn [xla.element_type xla.ShapeUtil.IsScalar xla.dimensions].
  rewrite PrimitiveType_eqb_refl. cbn [andb]. float_steps. reflexivity.
Qed.

(** X17: in evaluation mode [BuildRreluBackward] computes the elements
    [BuildLeakyReluBackward] computes with the slope
    [(lower + upper) / 2]: the gradient where [x > 0], the gradient times
    that slope elsewhere.  In training mode it is the product of the
    noise and the gradient, so on the noise the forward pass returned the
    gradient is scaled by 1 where [x > 0] and by the drawn slope
    elsewhere. *)
Theorem BuildRreluBackward_elements (env : Env)
  (grad_output input noise rng_seed : xla.XlaOp) (lower upper : HostScalar)
  (type : xla.PrimitiveType) (g x : spec_float) (seed : Value) (i : nat) :
  xla.primitive_util.IsFloatingPointType type = true ->
  eval env grad_output i = Some (VFloat type g) ->
  eval env input i = Some (VFloat type x) ->
  eval env rng_seed 0 = Some seed ->
  let mean :=
    HostReal (SFdiv 53 1024 (SFadd 53 1024 (to_double lower) (to_double upper))
                (binary64 2 0)) in
  let drawn :=
    uniform_draw seed (xla.MakeShape type [])
      (float_of_host type lower) (float_of_host type upper) 0 in
  eval env (BuildRreluBackward grad_output input noise lower upper false) i
  = eval env
      (BuildLeakyReluBackward grad_output input
         (XlaHelpers.ScalarValue mean type)) i
  /\ eval env (BuildRreluBackward grad_output input noise lower upper false) i
     = Some (VFloat type
               (if float_cmp xla.kGt x (S754_zero false) then g
                else SFmul (prec_of type) (emax_of type) g
                       (float_of_host type mean)))
  /\ eval env
       (BuildRreluBackward grad_output input
          (nth 1 (BuildRrelu input lower upper true rng_seed) input)
          lower upper true) i
     = Some (VFloat type
               (SFmul (prec_of type) (emax_of type)
                  (if float_cmp xla.kGt x (S754_zero false)
                   then int_to_float type 1 else drawn)
                  g)).
Proof.
  intros Hf Hg Hx Hseed. cbv zeta.
  pose proof (eval_type env input i _ Hx) as Hk. cbn in Hk.
  assert (Hback :
    eval env (BuildRreluBackward grad_output input noise lower upper false) i
    = Some (VFloat type
              (if float_cmp xla.kGt x (S754_zero false) then g
               else SFmul (prec_of type) (emax_of type) g
                      (float_of_host type
                         (HostReal
                            (SFdiv 53 1024
                               (SFadd 53 1024 (to_double lower)
                                  (to_double upper))
                               (binary64 2 0))))))).
  { unfold BuildRreluBackward.
    change (xla.element_type (ShapeHelper.ShapeOfXlaOp input))
      with (XlaHelpers.TypeOfXlaOp input).
    rewrite <- Hk. unfold xla.Gt, xla.Mul, XlaHelpers.ScalarValue.
    cbn [eval]. rewrite Hx, Hg, eval_Zero_float by assumption.
    rewrite cast_host_float by assumption. float_steps. reflexivity. }
  split; [|split; [exact Hback|]].
  - rewrite Hback.
    assert (Hslope :
      eval env
        (XlaHelpers.ScalarValue
           (HostReal
              (SFdiv 53 1024 (SFadd 53 1024 (to_double lower) (to_double upper))
                 (binary64 2 0))) type) i
      = Some (VFloat type
                (float_of_host type
                   (HostReal
                      (SFdiv 53 1024
                         (SFadd 53 1024 (to_double lower) (to_double upper))
                         (binary64 2 0)))))).
    { cbn [eval XlaHelpers.ScalarValue]. unfold XlaHelpers.ScalarValue.
      cbn [eval]. apply cast_host_float. assumption. }
    rewrite (eval_BuildLeakyReluBackward env grad_output input _
               type type g x _ i Hf Hg Hx Hslope).
    unfold converted_float. rewrite PrimitiveType_eqb_refl.
    rewrite (SFmul_comm _ _ g). reflexivity.
  - unfold BuildRreluBackward at 1. unfold xla.Mul. cbn [eval].
    rewrite (eval_BuildRrelu_noise env input rng_seed lower upper type x seed i
               Hf Hx Hseed), Hg.
    float_steps. reflexivity.
Qed.

(** X19: [BuildElu] converts [alpha], [scale] and [input_scale] to the
    kind of the input and yields [alpha * (exp (x * input_scale) - 1)]
    where [x <= 0] and [x] elsewhere, times [scale]; a NaN element fails
    the comparison, takes the second branch and stays a NaN. *)
Theorem BuildElu_elements (env : Env)
  (input alpha scale input_scale : xla.XlaOp)
  (type ta ts tk : xla.PrimitiveType) (x a s k : spec_float) (i : nat) :
  xla.primitive_util.IsFloatingPointType type = true ->
  eval env input i = Some (VFloat type x) ->
  eval env alpha i = Some (VFloat ta a) ->
  eval env scale i = Some (VFloat ts s) ->
  eval env input_scale i = Some (VFloat tk k) ->
  let mul := SFmul (prec_of type) (emax_of type) in
  let one := float_literal type (binary64 1 0) in
  eval env (BuildElu input alpha scale input_scale) i
  = Some (VFloat type
            (mul
               (if float_cmp xla.kLe x (S754_zero false)
                then mul (converted_float type ta a)
                       (SFsub (prec_of type) (emax_of type)
                          (transcendental xla.kExp type
                             (mul x (converted_float type tk k)))
                          one)
                else x)
               (converted_float type ts s)))
  /\ (is_nan x = true ->
      eval env (BuildElu input alpha scale input_scale) i
      = Some (VFloat type S754_nan)).
Proof.
  intros Hf Hx Ha Hs Hk'. cbv zeta.
  pose proof (eval_type env input i _ Hx) as Hk. cbn in Hk.
  assert (Heval :
    eval env (BuildElu input alpha scale input_scale) i
    = Some (VFloat type
              (SFmul (prec_of type) (emax_of type)
                 (if float_cmp xla.kLe x (S754_zero false)
                  then SFmul (prec_of type) (emax_of type)
                         (converted_float type ta a)
                         (SFsub (prec_of type) (emax_of type)
                            (transcendental xla.kExp type
                               (SFmul (prec_of type) (emax_of type) x
                                  (converted_float type tk k)))
                            (float_literal type (binary64 1 0)))
                  else x)
                 (converted_float type ts s)))).
  { unfold BuildElu.
    change (xla.element_type (ShapeHelper.ShapeOfXlaOp input))
      with (XlaHelpers.TypeOfXlaOp input).
    rewrite <- Hk. unfold xla.Le, xla.Exp, xla.Mul, xla.Sub. cbn [eval].
    rewrite Hx.
    rewrite (eval_MaybeConvertTo_float env alpha type ta a i Hf Ha).
    rewrite (eval_MaybeConvertTo_float env scale type ts s i Hf Hs).
    rewrite (eval_MaybeConvertTo_float env input_scale type tk k i Hf Hk').
    rewrite eval_ScalarValue_float, eval_Zero_float by assumption.
    float_steps. cbn [eval_unary bind_option]. float_steps. reflexivity. }
  split; [exact Heval|].
  intros Hnan. rewrite Heval, (is_nan_compare xla.kLe x _ Hnan).
  destruct x; try discriminate. reflexivity.
Qed.

End RreluElu.

Lemma BuildRreluBackward_witness :
  eval (N := reference_numerics)
    (env_of [[VFloat xla.F32 (binary32 2 0)];
             [VFloat xla.F32 (binary32 (-4) 0)];
             [VInt xla.U64 7]])
    (BuildRreluBackward
       (xla.GraphInput 0 (xla.MakeShape xla.F32 [1%nat]))
       (xla.GraphInput 1 (xla.MakeShape xla.F32 [1%nat]))
       (xla.GraphInput 1 (xla.MakeShape xla.F32 [1%nat]))
       (HostReal (binary64 1 (-3))) (HostReal (binary64 1 (-2))) false) 0
  = Some (VFloat xla.F32 (binary32 3 (-3)))
  /\ eval (N := reference_numerics)
       (env_of [[VFloat xla.F32 (binary32 2 0)];
                [VFloat xla.F32 (binary32 (-4) 0)];
                [VInt xla.U64 7]])
       (BuildRreluBackward
          (xla.GraphInput 0 (xla.MakeShape xla.F32 [1%nat]))
          (xla.GraphInput 1 (xla.MakeShape xla.F32 [1%nat]))
          (nth 1
             (BuildRrelu (xla.GraphInput 1 (xla.MakeShape xla.F32 [1%nat]))
                (HostReal (binary64 1 (-3))) (HostReal (binary64 1 (-2)))
                true (xla.GraphInput 2 (xla.MakeShape xla.U64 [])))
             (xla.GraphInput 1 (xla.MakeShape xla.F32 [1%nat])))
          (HostReal (binary64 1 (-3))) (HostReal (binary64 1 (-2))) true) 0
     = Some (VFloat xla.F32 (binary32 1 (-2))).
Proof.
  exact (proj2
           (BuildRreluBackward_elements (N := reference_numerics)
              (env_of [[VFloat xla.F32 (binary32 2 0)];
                       [VFloat xla.F32 (binary32 (-4) 0)];
                       [VInt xla.U64 7]])
              (xla.GraphInput 0 (xla.MakeShape xla.F32 [1%nat]))
              (xla.GraphInput 1 (xla.MakeShape xla.F32 [1%nat]))
              (xla.GraphInput 1 (xla.MakeShape xla.F32 [1%nat]))
              (xla.GraphInput 2 (xla.MakeShape xla.U64 []))
              (HostReal (binary64 1 (-3))) (HostReal (binary64 1 (-2)))
              xla.F32 (binary32 2 0) (binary32 (-4) 0) (VInt xla.U64 7) 0
              eq_refl eq_refl eq_refl eq_refl)).
Defined.

Lemma BuildElu_witness :
  eval (N := reference_numerics)
    (env_of [[VFloat xla.F32 (binary32 3 0)];
             [VFloat xla.F64 (binary64 1 0)];
             [VFloat xla.F64 (binary64 2 0)];
             [VFloat xla.F64 (binary64 1 0)]])
    (BuildElu (xla.GraphInput 0 (xla.MakeShape xla.F32 [1%nat]))
       (xla.GraphInput 1 (xla.MakeShape xla.F64 []))
       (xla.GraphInput 2 (xla.MakeShape xla.F64 []))
       (xla.GraphInput 3 (xla.MakeShape xla.F64 []))) 0
  = Some (VFloat xla.F32 (binary32 6 0)).
Proof.
  exact (proj1
           (BuildElu_elements (N := reference_numerics)
              (env_of [[VFloat xla.F32 (binary32 3 0)];
                       [VFloat xla.F64 (binary64 1 0)];
                       [VFloat xla.F64 (binary64 2 0)];
                       [VFloat xla.F64 (binary64 1 0)]])
              (xla.GraphInput 0 (xla.MakeShape xla.F32 [1%nat]))
              (xla.GraphInput 1 (xla.MakeShape xla.F64 []))
              (xla.GraphInput 2 (xla.MakeShape xla.F64 []))
              (xla.GraphInput 3 (xla.MakeShape xla.F64 []))
              xla.F32 xla.F64 xla.F64 xla.F64
              (binary32 3 0) (binary64 1 0) (binary64 2 0) (binary64 1 0) 0
              eq_refl eq_refl eq_refl eq_refl eq_refl)).
Defined.

(** ** The promoting arithmetic *)

Lemma ConvertTo_type (op : xla.XlaOp) (to : xla.PrimitiveType) :
  XlaHelpers.TypeOfXlaOp (ConvertTo op (XlaHelpers.TypeOfXlaOp op) to) = to.
Proof.
  unfold ConvertTo.
  destruct (xla.PrimitiveType_eqb (XlaHelpers.TypeOfXlaOp op) to) eqn:E.
  - apply PrimitiveType_eqb_eq. exact E.
  - reflexivity.
Qed.

Lemma ConvertTo_kinds_agree (op : xla.XlaOp) (from to : xla.PrimitiveType) :
  kinds_agree (ConvertTo op from to) = kinds_agree op.
Proof. unfold ConvertTo. destruct (xla.PrimitiveType_eqb from to); reflexivity. Qed.

Lemma PromoteType_absorbs (a b : xla.PrimitiveType) :
  PromoteType (PromoteType a b) a = PromoteType a b.
Proof. destruct a, b; reflexivity. Qed.

Lemma reference_Promote_joins :
  Promote_joins (C := reference_collaborators) PromoteType.
Proof.
  split; [|exact PromoteType_absorbs].
  intros lhs rhs. cbn [Promote reference_collaborators].
  unfold PromoteValues. cbn [fst snd].
  rewrite !ConvertTo_type, !ConvertTo_kinds_agree. auto.
Qed.

Section Arithmetic.

Context {C : Collaborators} {St : Settings}.

Lemma Promote_joins_pair
  (join : xla.PrimitiveType -> xla.PrimitiveType -> xla.PrimitiveType)
  (lhs rhs l r : xla.XlaOp) :
  Promote_joins join ->
  Promote lhs rhs = (l, r) ->
  XlaHelpers.TypeOfXlaOp l
  = join (XlaHelpers.TypeOfXlaOp lhs) (XlaHelpers.TypeOfXlaOp rhs)
  /\ XlaHelpers.TypeOfXlaOp r
     = join (XlaHelpers.TypeOfXlaOp lhs) (XlaHelpers.TypeOfXlaOp rhs)
  /\ (kinds_agree lhs = true -> kinds_agree l = true)
  /\ (kinds_agree rhs = true -> kinds_agree r = true).
Proof.
  intros (Hjoin & _) E. specialize (Hjoin lhs rhs). rewrite E in Hjoin.
  exact Hjoin.
Qed.

(** What the three promotions of [BuildAdd], [BuildSub], [BuildRsub] and
    [BuildLerp] leave: three operands of one kind, the join of the three
    kinds. *)
Lemma three_way_promotion
  (join : xla.PrimitiveType -> xla.PrimitiveType -> xla.PrimitiveType)
  (x y z x1 y1 x2 z2 x3 y3 : xla.XlaOp) :
  Promote_joins join ->
  kinds_agree x = true ->
  kinds_agree y = true ->
  kinds_agree z = true ->
  Promote x y = (x1, y1) ->
  Promote x1 z = (x2, z2) ->
  Promote x2 y1 = (x3, y3) ->
  let kind :=
    join (join (XlaHelpers.TypeOfXlaOp x) (XlaHelpers.TypeOfXlaOp y))
         (XlaHelpers.TypeOfXlaOp z) in
  (XlaHelpers.TypeOfXlaOp x3 = kind /\ kinds_agree x3 = true)
  /\ (XlaHelpers.TypeOfXlaOp y3 = kind /\ kinds_agree y3 = true)
  /\ (XlaHelpers.TypeOfXlaOp z2 = kind /\ kinds_agree z2 = true).
Proof.
  intros Hjoin Hx Hy Hz E1 E2 E3. cbv zeta.
  destruct (Promote_joins_pair join _ _ _ _ Hjoin E1) as (T1 & T1' & K1 & K1').
  destruct (Promote_joins_pair join _ _ _ _ Hjoin E2) as (T2 & T2' & K2 & K2').
  destruct (Promote_joins_pair join _ _ _ _ Hjoin E3) as (T3 & T3' & K3 & K3').
  rewrite T2, T1' in T3, T3'. rewrite T1 in T2, T2', T3, T3'.
  rewrite (proj2 Hjoin) in T3, T3'.
  repeat split; auto.
Qed.

Ltac promote_steps :=
  unfold xla.Add, xla.Sub, xla.Mul, xla.Div;
  cbn [kinds_agree is_shift orb];
  repeat match goal with
         | |- context [XlaHelpers.TypeOfXlaOp (xla.BinaryOp ?o ?l ?r ?d)] =>
             change (XlaHelpers.TypeOfXlaOp (xla.BinaryOp o l r d))
               with (XlaHelpers.TypeOfXlaOp l)
         end.

(** X20: the three promotions of [BuildAdd], [BuildSub], [BuildRsub] and
    [BuildLerp] bring all three operands to one kind, the join of the
    three kinds, so no instruction of the result combines operands of
    differing kinds and the result is of that kind; likewise the one
    promotion of [BuildMul] and [BuildDiv]. *)
Theorem promoting_arithmetic_kinds_agree
  (join : xla.PrimitiveType -> xla.PrimitiveType -> xla.PrimitiveType)
  (input other alpha : xla.XlaOp) :
  Promote_joins join ->
  kinds_agree input = true ->
  kinds_agree other = true ->
  kinds_agree alpha = true ->
  let pair :=
    join (XlaHelpers.TypeOfXlaOp input) (XlaHelpers.TypeOfXlaOp other) in
  let kind := join pair (XlaHelpers.TypeOfXlaOp alpha) in
  Forall (fun result =>
            kinds_agree result = true
            /\ XlaHelpers.TypeOfXlaOp result = kind)
    [BuildAdd input other alpha; BuildSub input other alpha;
     BuildRsub input other alpha; BuildLerp input other alpha]
  /\ Forall (fun result =>
               kinds_agree result = true
               /\ XlaHelpers.TypeOfXlaOp result = pair)
       [BuildMul input other; BuildDiv input other].
Proof.
  intros Hjoin Hi Ho Ha. cbv zeta.
  unfold BuildAdd, BuildSub, BuildRsub, BuildLerp, BuildMul, BuildDiv.
  destruct (Promote input other) as [x1 y1] eqn:E1.
  destruct (Promote x1 alpha) as [x2 z2] eqn:E2.
  destruct (Promote x2 y1) as [x3 y3] eqn:E3.
  destruct (three_way_promotion join _ _ _ _ _ _ _ _ _ Hjoin Hi Ho Ha E1 E2 E3)
    as ((Tx & Kx) & (Ty & Ky) & (Tz & Kz)).
  destruct (Promote_joins_pair join _ _ _ _ Hjoin E1) as (T1 & T1' & K1 & K1').
  split.
  - repeat constructor; promote_steps;
      rewrite ?Kx, ?Ky, ?Kz, ?Tx, ?Ty, ?Tz, ?PrimitiveType_eqb_refl;
      reflexivity.
  - repeat constructor; promote_steps;
      rewrite ?K1, ?K1', ?T1, ?T1', ?PrimitiveType_eqb_refl by assumption;
      reflexivity.
Qed.

Context {N : Numerics}.

Lemma eval_Promote_as (env : Env) (lhs rhs l r : xla.XlaOp) (a b : Value)
  (i : nat) :
  Promote_keeps_elements ->
  Promote lhs rhs = (l, r) ->
  eval env lhs i = Some a ->
  eval env rhs i = Some b ->
  type_of_value a = type_of_value b ->
  eval env l i = Some a /\ eval env r i = Some b.
Proof.
  intros Hpromote E Ha Hb Hk.
  pose proof (eval_Promote_pair env lhs rhs a b i Hpromote Ha Hb Hk) as H.
  rewrite E in H. exact H.
Qed.

(** X21: on operands that already are of one kind the promotions change
    no element, and the arithmetic lowerings compute
    [input + other * alpha] ([BuildAdd]), [input - other * alpha]
    ([BuildSub]), [other - input * alpha] ([BuildRsub]),
    [start + weight * (end - start)] ([BuildLerp]), the product
    ([BuildMul]) and the quotient ([BuildDiv]); [BuildRsub] is [BuildSub]
    with its first two operands exchanged. *)
Theorem promoting_arithmetic_elements (env : Env)
  (input other alpha : xla.XlaOp) (a b c : Value) (i : nat) :
  Promote_keeps_elements ->
  eval env input i = Some a ->
  eval env other i = Some b ->
  eval env alpha i = Some c ->
  type_of_value a = type_of_value b ->
  type_of_value a = type_of_value c ->
  eval env (BuildAdd input other alpha) i
  = bind_option (eval_binary xla.kMultiply b c) (eval_binary xla.kAdd a)
  /\ eval env (BuildSub input other alpha) i
     = bind_option (eval_binary xla.kMultiply b c)
         (eval_binary xla.kSubtract a)
  /\ eval env (BuildRsub input other alpha) i
     = bind_option (eval_binary xla.kMultiply a c)
         (eval_binary xla.kSubtract b)
  /\ eval env (BuildRsub input other alpha) i
     = eval env (BuildSub other input alpha) i
  /\ eval env (BuildLerp input other alpha) i
     = bind_option (eval_binary xla.kSubtract b a) (fun difference =>
       bind_option (eval_binary xla.kMultiply c difference)
         (eval_binary xla.kAdd a))
  /\ eval env (BuildMul input other) i = eval_binary xla.kMultiply a b
  /\ eval env (BuildDiv input other) i = eval_binary xla.kDivide a b.
Proof.
  intros Hpromote Ha Hb Hc Hab Hac.
  assert (Hthree : forall x y u v,
            eval env x i = Some u -> eval env y i = Some v ->
            type_of_value u = type_of_value v ->
            type_of_value u = type_of_value c ->
            forall x1 y1 x2 z2 x3 y3,
              Promote x y = (x1, y1) -> Promote x1 alpha = (x2, z2) ->
              Promote x2 y1 = (x3, y3) ->
              eval env x3 i = Some u /\ eval env y3 i = Some v
              /\ eval env z2 i = Some c).
  { intros x y u v Hu Hv Huv Huc x1 y1 x2 z2 x3 y3 E1 E2 E3.
    destruct (eval_Promote_as env _ _ _ _ u v i Hpromote E1 Hu Hv Huv)
      as (Hu1 & Hv1).
    destruct (eval_Promote_as env _ _ _ _ u c i Hpromote E2 Hu1 Hc Huc)
      as (Hu2 & Hc2).
    destruct (eval_Promote_as env _ _ _ _ u v i Hpromote E3 Hu2 Hv1 Huv)
      as (Hu3 & Hv3).
    auto. }
  assert (Hrsub :
    eval env (BuildRsub input other alpha) i
    = bind_option (eval_binary xla.kMultiply a c)
        (eval_binary xla.kSubtract b)).
  { unfold BuildRsub.
    destruct (Promote input other) as [x1 y1] eqn:E1.
    destruct (Promote x1 alpha) as [x2 z2] eqn:E2.
    destruct (Promote x2 y1) as [x3 y3] eqn:E3.
    destruct (Hthree _ _ _ _ Ha Hb Hab Hac _ _ _ _ _ _ E1 E2 E3)
      as (Hx & Hy & Hz).
    unfold xla.Sub, xla.Mul. cbn [eval]. rewrite Hx, Hy, Hz.
    cbn [bind_option]. destruct (eval_binary xla.kMultiply a c); reflexivity. }
  repeat split.
  - unfold BuildAdd.
    destruct (Promote input other) as [x1 y1] eqn:E1.
    destruct (Promote x1 alpha) as [x2 z2] eqn:E2.
    destruct (Promote x2 y1) as [x3 y3] eqn:E3.
    destruct (Hthree _ _ _ _ Ha Hb Hab Hac _ _ _ _ _ _ E1 E2 E3)
      as (Hx & Hy & Hz).
    unfold xla.Add, xla.Mul. cbn [eval]. rewrite Hx, Hy, Hz.
    cbn [bind_option]. destruct (eval_binary xla.kMultiply b c); reflexivity.
  - unfold BuildSub.
    destruct (Promote input other) as [x1 y1] eqn:E1.
    destruct (Promote x1 alpha) as [x2 z2] eqn:E2.
    destruct (Promote x2 y1) as [x3 y3] eqn:E3.
    destruct (Hthree _ _ _ _ Ha Hb Hab Hac _ _ _ _ _ _ E1 E2 E3)
      as (Hx & Hy & Hz).
    unfold xla.Sub, xla.Mul. cbn [eval]. rewrite Hx, Hy, Hz.
    cbn [bind_option]. destruct (eval_binary xla.kMultiply b c); reflexivity.
  - exact Hrsub.
  - rewrite Hrsub. unfold BuildSub.
    destruct (Promote other input) as [x1 y1] eqn:E1.
    destruct (Promote x1 alpha) as [x2 z2] eqn:E2.
    destruct (Promote x2 y1) as [x3 y3] eqn:E3.
    assert (Hbc : type_of_value b = type_of_value c) by congruence.
    destruct (Hthree _ _ _ _ Hb Ha (eq_sym Hab) Hbc _ _ _ _ _ _ E1 E2 E3)
      as (Hx & Hy & Hz).
    unfold xla.Sub, xla.Mul. cbn [eval]. rewrite Hx, Hy, Hz.
    cbn [bind_option]. destruct (eval_binary xla.kMultiply a c); reflexivity.
  - unfold BuildLerp.
    destruct (Promote input other) as [x1 y1] eqn:E1.
    destruct (Promote x1 alpha) as [x2 z2] eqn:E2.
    destruct (Promote x2 y1) as [x3 y3] eqn:E3.
    destruct (Hthree _ _ _ _ Ha Hb Hab Hac _ _ _ _ _ _ E1 E2 E3)
      as (Hx & Hy & Hz).
    unfold xla.Add, xla.Sub, xla.Mul. cbn [eval]. rewrite Hx, Hy, Hz.
    cbn [bind_option].
    destruct (eval_binary xla.kSubtract b a) as [d|]; [|reflexivity].
    cbn [bind_option].
    destruct (eval_binary xla.kMultiply c d); reflexivity.
  - unfold BuildMul.
    destruct (Promote input other) as [x1 y1] eqn:E1.
    destruct (eval_Promote_as env _ _ _ _ a b i Hpromote E1 Ha Hb Hab)
      as (Hx & Hy).
    unfold xla.Mul. cbn [eval]. rewrite Hx, Hy. reflexivity.
  - unfold BuildDiv.
    destruct (Promote input other) as [x1 y1] eqn:E1.
    destruct (eval_Promote_as env _ _ _ _ a b i Hpromote E1 Ha Hb Hab)
      as (Hx & Hy).
    unfold xla.Div. cbn [eval]. rewrite Hx, Hy. reflexivity.
Qed.

End Arithmetic.

Lemma promoting_arithmetic_kinds_witness :
  Forall (fun result =>
            kinds_agree result = true
            /\ XlaHelpers.TypeOfXlaOp result = xla.F64)
    [BuildAdd (C := reference_collaborators)
       (xla.GraphInput 0 (xla.MakeShape xla.S32 [2%nat]))
       (xla.GraphInput 1 (xla.MakeShape xla.F32 [2%nat]))
       (xla.GraphInput 2 (xla.MakeShape xla.F64 []));
     BuildSub (C := reference_collaborators)
       (xla.GraphInput 0 (xla.MakeShape xla.S32 [2%nat]))
       (xla.GraphInput 1 (xla.MakeShape xla.F32 [2%nat]))
       (xla.GraphInput 2 (xla.MakeShape xla.F64 []));
     BuildRsub (C := reference_collaborators)
       (xla.GraphInput 0 (xla.MakeShape xla.S32 [2%nat]))
       (xla.GraphInput 1 (xla.MakeShape xla.F32 [2%nat]))
       (xla.GraphInput 2 (xla.MakeShape xla.F64 []));
     BuildLerp (C := reference_collaborators)
       (xla.GraphInput 0 (xla.MakeShape xla.S32 [2%nat]))
       (xla.GraphInput 1 (xla.MakeShape xla.F32 [2%nat]))
       (xla.GraphInput 2 (xla.MakeShape xla.F64 []))].
Proof.
  exact (proj1
           (promoting_arithmetic_kinds_agree (C := reference_collaborators)
              PromoteType
              (xla.GraphInput 0 (xla.MakeShape xla.S32 [2%nat]))
              (xla.GraphInput 1 (xla.MakeShape xla.F32 [2%nat]))
              (xla.GraphInput 2 (xla.MakeShape xla.F64 []))
              reference_Promote_joins eq_refl eq_refl eq_refl)).
Defined.

Lemma promoting_arithmetic_elements_witness :
  eval (N := reference_numerics)
    (env_of [[VFloat xla.F32 (binary32 1 0)];
             [VFloat xla.F32 (binary32 2 0)];
             [VFloat xla.F32 (binary32 3 0)]])
    (BuildAdd (C := reference_collaborators)
       (xla.GraphInput 0 (xla.MakeShape xla.F32 [1%nat]))
       (xla.GraphInput 1 (xla.MakeShape xla.F32 [1%nat]))
       (xla.GraphInput 2 (xla.MakeShape xla.F32 []))) 0
  = Some (VFloat xla.F32 (binary32 7 0)).
Proof.
  exact (proj1
           (promoting_arithmetic_elements
              (C := reference_collaborators) (N := reference_numerics)
              (env_of [[VFloat xla.F32 (binary32 1 0)];
                       [VFloat xla.F32 (binary32 2 0)];
                       [VFloat xla.F32 (binary32 3 0)]])
              (xla.GraphInput 0 (xla.MakeShape xla.F32 [1%nat]))
              (xla.GraphInput 1 (xla.MakeShape xla.F32 [1%nat]))
              (xla.GraphInput 2 (xla.MakeShape xla.F32 []))
              (VFloat xla.F32 (binary32 1 0)) (VFloat xla.F32 (binary32 2 0))
              (VFloat xla.F32 (binary32 3 0)) 0
              (reference_Promote_keeps_elements reference_numerics)
              eq_refl eq_refl eq_refl eq_refl eq_refl)).
Defined.

(** ** Kinds of the lowerings with constant operands *)

Ltac constant_kinds :=
  unfold xla.Add, xla.Sub, xla.Mul, xla.Div, xla.Max, xla.Min, xla.Gt,
    xla.Exp, xla.Log, xla.Neg, xla.Erf, xla.Logistic, xla.Zero, xla.One,
    ScalarValue_float, XlaHelpers.ScalarValue;
  cbn [kinds_agree is_shift orb];
  unfold XlaHelpers.TypeOfXlaOp;
  cbn [ShapeHelper.ShapeOfXlaOp xla.element_type];
  rewrite ?PrimitiveType_eqb_refl.

Section ConstantOperands.

Context {C : Collaborators} {St : Settings}.

(** X22: the lowerings whose only operands besides the tensors are host
    constants materialise every constant in the kind of the tensor it is
    combined with, so no instruction of theirs combines operands of
    differing kinds, whatever the kind of the input: [BuildThreshold]
    (its threshold in the kind of [input], its value in the kind of
    [output], which may differ), [BuildHardSigmoid], [BuildHardSwish],
    [BuildReciprocal], [BuildGelu], [BuildCelu], [BuildSelu] and both
    results of [BuildLogSigmoid].  The backward lowerings
    [BuildSiLUBackward], [BuildGeluBackward] and [BuildEluBackward] do so
    for a gradient of the kind of the input; they do not convert it. *)
Theorem constant_operands_kinds_agree
  (input output grad_output : xla.XlaOp) (alpha scale input_scale : HostScalar)
  (threshold value : spec_float) :
  kinds_agree input = true ->
  kinds_agree output = true ->
  kinds_agree grad_output = true ->
  Forall (fun result => kinds_agree result = true)
    ([BuildThreshold input output threshold value; BuildHardSigmoid input;
      BuildHardSwish input; BuildReciprocal input; BuildGelu input;
      BuildCelu input alpha; BuildSelu input] ++ BuildLogSigmoid input)
  /\ Forall (fun result =>
               kinds_agree result
               = xla.PrimitiveType_eqb (XlaHelpers.TypeOfXlaOp grad_output)
                                       (XlaHelpers.TypeOfXlaOp input))
       [BuildSiLUBackward grad_output input;
        BuildGeluBackward grad_output input;
        BuildEluBackward grad_output input alpha scale input_scale].
Proof.
  intros Hi Ho Hg. split.
  - unfold BuildThreshold, BuildHardSigmoid, BuildHardSwish, BuildReciprocal,
      BuildGelu, BuildCelu, BuildSelu, BuildLogSigmoid.
    cbn [app]. repeat constructor; constant_kinds; rewrite ?Hi, ?Ho;
      reflexivity.
  - unfold BuildSiLUBackward, BuildGeluBackward, BuildEluBackward,
      BuildSigmoid.
    repeat constructor; constant_kinds; rewrite ?Hi, ?Hg; reflexivity.
Qed.

(** X23: [BuildSgn] is [BuildSign] unless the numeric input is complex.
    On a complex input it selects the sign where both its parts are
    finite and a complex NaN elsewhere; the NaN is built from the part
    kind of the input and so already is of the kind of the sign: the
    conversion adds no instruction. *)
Theorem BuildSgn_cases (input : xla.XlaOp) :
  (xla.primitive_util.IsComplexType
     (XlaHelpers.TypeOfXlaOp (ConvertToNumeric input)) = false ->
   BuildSgn input = BuildSign input)
  /\ (xla.primitive_util.IsComplexType (XlaHelpers.TypeOfXlaOp input) = true ->
      let sign := xla.Sign input in
      let nan_real :=
        xla.NanValue
          (xla.primitive_util.ComplexComponentType
             (XlaHelpers.TypeOfXlaOp input)) in
      BuildSgn input
      = xla.Select
          (xla.And (xla.IsFinite (xla.Real sign))
             (xla.IsFinite (xla.Imag sign)) [])
          sign (xla.Complex nan_real nan_real [])
      /\ XlaHelpers.TypeOfXlaOp (BuildSgn input)
         = XlaHelpers.TypeOfXlaOp input
      /\ kinds_agree (BuildSgn input) = kinds_agree input).
Proof.
  split.
  - intros Hc. unfold BuildSgn.
    change (xla.element_type
              (ShapeHelper.ShapeOfXlaOp (ConvertToNumeric input)))
      with (XlaHelpers.TypeOfXlaOp (ConvertToNumeric input)).
    destruct (XlaHelpers.TypeOfXlaOp (ConvertToNumeric input));
      try discriminate Hc; reflexivity.
  - intros Hc. cbv zeta.
    assert (Hnum : ConvertToNumeric input = input).
    { unfold ConvertToNumeric, ConvertToNumeric_from.
      destruct (XlaHelpers.TypeOfXlaOp input); try discriminate Hc;
        reflexivity. }
    assert (Hsgn :
      BuildSgn input
      = xla.Select
          (xla.And (xla.IsFinite (xla.Real (xla.Sign input)))
             (xla.IsFinite (xla.Imag (xla.Sign input))) [])
          (xla.Sign input)
          (xla.Complex
             (xla.NanValue
                (xla.primitive_util.ComplexComponentType
                   (XlaHelpers.TypeOfXlaOp input)))
             (xla.NanValue
                (xla.primitive_util.ComplexComponentType
                   (XlaHelpers.TypeOfXlaOp input))) [])).
    { unfold BuildSgn. rewrite Hnum.
      unfold MaybeConvertTo, XlaHelpers.TypeOfXlaOp in *.
      cbn [ShapeHelper.ShapeOfXlaOp xla.element_type xla.Real xla.Sign
           xla.Complex xla.NanValue xla.dimensions].
      destruct (xla.element_type (ShapeHelper.ShapeOfXlaOp input));
        try discriminate Hc; reflexivity. }
    split; [exact Hsgn|]. rewrite Hsgn. split; [reflexivity|].
    unfold xla.And, xla.IsFinite, xla.Real, xla.Imag, xla.Sign, xla.Complex,
      xla.NanValue.
    cbn [kinds_agree is_shift orb].
    unfold XlaHelpers.TypeOfXlaOp in *.
    cbn [ShapeHelper.ShapeOfXlaOp xla.element_type].
    rewrite !PrimitiveType_eqb_refl.
    destruct (xla.element_type (ShapeHelper.ShapeOfXlaOp input));
      try discriminate Hc; destruct (kinds_agree input); reflexivity.
Qed.

End ConstantOperands.

Lemma constant_operands_kinds_witness :
  Forall (fun result => kinds_agree result = true)
    ([BuildThreshold
        (xla.GraphInput 0 (xla.MakeShape xla.F32 [2%nat]))
        (xla.GraphInput 1 (xla.MakeShape xla.S32 [2%nat]))
        (binary64 1 0) (binary64 0 0);
      BuildHardSigmoid (xla.GraphInput 0 (xla.MakeShape xla.F32 [2%nat]));
      BuildHardSwish (xla.GraphInput 0 (xla.MakeShape xla.F32 [2%nat]));
      BuildReciprocal (xla.GraphInput 0 (xla.MakeShape xla.F32 [2%nat]));
      BuildGelu (xla.GraphInput 0 (xla.MakeShape xla.F32 [2%nat]));
      BuildCelu (xla.GraphInput 0 (xla.MakeShape xla.F32 [2%nat])) (HostInt 1);
      BuildSelu (xla.GraphInput 0 (xla.MakeShape xla.F32 [2%nat]))]
     ++ BuildLogSigmoid (xla.GraphInput 0 (xla.MakeShape xla.F32 [2%nat]))).
Proof.
  exact (proj1
           (constant_operands_kinds_agree
              (xla.GraphInput 0 (xla.MakeShape xla.F32 [2%nat]))
              (xla.GraphInput 1 (xla.MakeShape xla.S32 [2%nat]))
              (xla.GraphInput 2 (xla.MakeShape xla.F32 [2%nat]))
              (HostInt 1) (HostInt 1) (HostInt 1) (binary64 1 0) (binary64 0 0)
              eq_refl eq_refl eq_refl)).
Defined.

Lemma BuildSgn_witness :
  BuildSgn (C := reference_collaborators)
    (xla.GraphInput 0 (xla.MakeShape xla.S32 [2%nat]))
  = BuildSign (C := reference_collaborators)
      (xla.GraphInput 0 (xla.MakeShape xla.S32 [2%nat]))
  /\ BuildSgn (C := reference_collaborators)
       (xla.GraphInput 0 (xla.MakeShape xla.C64 [2%nat]))
     = xla.Select
         (xla.And
            (xla.IsFinite
               (xla.Real
                  (xla.Sign (xla.GraphInput 0 (xla.MakeShape xla.C64 [2%nat])))))
            (xla.IsFinite
               (xla.Imag
                  (xla.Sign (xla.GraphInput 0 (xla.MakeShape xla.C64 [2%nat])))))
            [])
         (xla.Sign (xla.GraphInput 0 (xla.MakeShape xla.C64 [2%nat])))
         (xla.Complex (xla.NanValue xla.F32) (xla.NanValue xla.F32) []).
Proof.
  split.
  - exact (proj1 (BuildSgn_cases (C := reference_collaborators)
                    (xla.GraphInput 0 (xla.MakeShape xla.S32 [2%nat])))
             eq_refl).
  - exact (proj1
             (proj2 (BuildSgn_cases (C := reference_collaborators)
                       (xla.GraphInput 0 (xla.MakeShape xla.C64 [2%nat])))
                eq_refl)).
Defined.

(** ** The exponential units *)




Section ExponentialUnits.

Context {C : Collaborators} {St : Settings} {N : Numerics}.




End ExponentialUnits.

